(** * Maryland Pull-Out Device Model Prep: the geometry preparation and
      boolean-fusion pipeline of [main.js]

    The development embeds the functions [prepareGeometryForCSG],
    [processAndMerge], [doProcessAndMerge], [importUserSTL] (its [onload]
    handler) and [exportSTL] (up to the hand-off to the serializer), together
    with the constant [MODEL_ROTATION_OFFSET].

    Modelling choices.
    - JavaScript numbers (IEEE doubles, and the [Float32Array] storage of
      vertex attributes) are idealised as real numbers [R].
    - Geometries are JavaScript objects that are shared and mutated in
      place; they live in a store ([heap]) and meshes hold references
      ([loc]) to them, so that cloning, aliasing and in-place mutation are
      visible in the statements.
    - A vertex attribute is well formed: its array holds [count * itemSize]
      numbers, hence it is a list of items (triples for positions and
      normals, pairs for UVs).
    - [try]/[catch] is an outcome ([Returned] or [Thrown]) threaded with the
      store; the state at the point of the throw is what the handler sees.
    - The pieces of three.js and three-bvh-csg whose arithmetic is simple
      ([clone], [setIndex], [setAttribute], [applyMatrix4] on positions,
      [center], [makeRotationX], the bounding box) are written out in module
      [THREE] after the library's documented behaviour; the heavy numerical
      kernels (face normals, the CSG evaluator, vertex welding, STL parsing
      and writing) are members of the interface [ThreeLibrary]. *)

From Stdlib Require Import Reals Lra String List.
From stdpp Require Import gmap strings.

Import ListNotations.
Local Open Scope string_scope.

(** ** Vectors and matrices *)

Definition Vec2 : Type := (R * R)%type.
Definition Vec3 : Type := (R * R * R)%type.
Definition Row4 : Type := (R * R * R * R)%type.
(** A [Matrix4] is given by its four rows, in the argument order of
    [Matrix4.set(n11, n12, ..., n44)]. *)
Definition Matrix4 : Type := (Row4 * Row4 * Row4 * Row4)%type.

Module THREE.

Local Open Scope R_scope.

Definition zero3 : Vec3 := (0, 0, 0).
Definition one3 : Vec3 := (1, 1, 1).

Definition identity : Matrix4 :=
  ((1, 0, 0, 0), (0, 1, 0, 0), (0, 0, 1, 0), (0, 0, 0, 1)).

(** [THREE.MathUtils.degToRad]: [degrees * DEG2RAD] with [DEG2RAD = PI / 180]. *)
Definition DEG2RAD : R := PI / 180.
Definition degToRad (degrees : R) : R := degrees * DEG2RAD.

(** [Matrix4.makeRotationX(theta)]. *)
Definition makeRotationX (theta : R) : Matrix4 :=
  let c := cos theta in
  let s := sin theta in
  ((1, 0, 0, 0), (0, c, - s, 0), (0, s, c, 0), (0, 0, 0, 1)).

(** [Matrix4.makeTranslation(x, y, z)]. *)
Definition makeTranslation (t : Vec3) : Matrix4 :=
  let '(x, y, z) := t in
  ((1, 0, 0, x), (0, 1, 0, y), (0, 0, 1, z), (0, 0, 0, 1)).

(** [Matrix4.makeRotationFromEuler(euler)] for the default order 'XYZ'. *)
Definition makeRotationFromEuler (euler : Vec3) : Matrix4 :=
  let '(x, y, z) := euler in
  let a := cos x in let b := sin x in
  let c := cos y in let d := sin y in
  let e := cos z in let f := sin z in
  let ae := a * e in let af := a * f in
  let be := b * e in let bf := b * f in
  ((c * e, - c * f, d, 0),
   (af + be * d, ae - bf * d, - b * c, 0),
   (bf - ae * d, be + af * d, a * c, 0),
   (0, 0, 0, 1)).

(** [Matrix4.compose(position, quaternion, scale)], the quaternion being the
    one three.js keeps in step with the Euler [rotation] of the object:
    the rotation's columns scaled, the position in the last column. *)
Definition compose (position rotation scale : Vec3) : Matrix4 :=
  let '(px, py, pz) := position in
  let '(sx, sy, sz) := scale in
  let '((r11, r12, r13, _), (r21, r22, r23, _), (r31, r32, r33, _), _) :=
    makeRotationFromEuler rotation in
  ((r11 * sx, r12 * sy, r13 * sz, px),
   (r21 * sx, r22 * sy, r23 * sz, py),
   (r31 * sx, r32 * sy, r33 * sz, pz),
   (0, 0, 0, 1)).

Definition dot4 (r c : Row4) : R :=
  let '(r1, r2, r3, r4) := r in
  let '(c1, c2, c3, c4) := c in
  r1 * c1 + r2 * c2 + r3 * c3 + r4 * c4.

Definition column (m : Matrix4) (j : nat) : Row4 :=
  let '((a1, a2, a3, a4), (b1, b2, b3, b4), (c1, c2, c3, c4), (d1, d2, d3, d4)) := m in
  match j with
  | O => (a1, b1, c1, d1)
  | S O => (a2, b2, c2, d2)
  | S (S O) => (a3, b3, c3, d3)
  | _ => (a4, b4, c4, d4)
  end.

Definition mulRow (r : Row4) (m : Matrix4) : Row4 :=
  (dot4 r (column m 0), dot4 r (column m 1), dot4 r (column m 2), dot4 r (column m 3)).

(** [Matrix4.multiplyMatrices(a, b)]. *)
Definition multiplyMatrices (a b : Matrix4) : Matrix4 :=
  let '(a1, a2, a3, a4) := a in
  (mulRow a1 b, mulRow a2 b, mulRow a3 b, mulRow a4 b).

(** [Vector3.applyMatrix4(m)], with its perspective divide. *)
Definition Vector3_applyMatrix4 (m : Matrix4) (v : Vec3) : Vec3 :=
  let '(x, y, z) := v in
  let '((n11, n12, n13, n14), (n21, n22, n23, n24),
        (n31, n32, n33, n34), (n41, n42, n43, n44)) := m in
  let w := 1 / (n41 * x + n42 * y + n43 * z + n44) in
  ((n11 * x + n12 * y + n13 * z + n14) * w,
   (n21 * x + n22 * y + n23 * z + n24) * w,
   (n31 * x + n32 * y + n33 * z + n34) * w).

(** [Box3]: [None] is the empty box ([min = +Infinity], [max = -Infinity]). *)
Definition Box3 : Type := option (Vec3 * Vec3).

Definition expandByPoint (b : Box3) (p : Vec3) : Box3 :=
  match b with
  | None => Some (p, p)
  | Some ((x0, y0, z0), (x1, y1, z1)) =>
      let '(x, y, z) := p in
      Some ((Rmin x0 x, Rmin y0 y, Rmin z0 z), (Rmax x1 x, Rmax y1 y, Rmax z1 z))
  end.

(** [Box3.setFromBufferAttribute]. *)
Definition setFromBufferAttribute (ps : list Vec3) : Box3 :=
  fold_left expandByPoint ps None.

(** [Box3.getCenter]: the origin for the empty box, the midpoint otherwise. *)
Definition getCenter (b : Box3) : Vec3 :=
  match b with
  | None => zero3
  | Some ((x0, y0, z0), (x1, y1, z1)) =>
      ((x0 + x1) * 0.5, (y0 + y1) * 0.5, (z0 + z1) * 0.5)
  end.

Definition negate (v : Vec3) : Vec3 :=
  let '(x, y, z) := v in (- x, - y, - z).

End THREE.

(** ** Geometries *)

(** [geo.attributes.position], [geo.attributes.normal], [geo.attributes.uv]
    and [geo.index]; [None] is JavaScript's [undefined] (or [null] for the
    index). *)
Record BufferGeometry : Type := mkGeometry {
  attributes_position : option (list Vec3);
  attributes_normal : option (list Vec3);
  attributes_uv : option (list Vec2);
  index : option (list nat)
}.

Inductive Operation : Type := ADDITION | SUBTRACTION.

Record JsError : Type := mkError { message : string }.

(** The numerical kernels of three.js, three-bvh-csg and the STL add-ons
    that the application calls and does not define. *)
Class ThreeLibrary : Type := {
  (** the normals [computeVertexNormals] derives from the triangles of the
      index (or of the flat vertex stream) and the positions *)
  vertexNormals : option (list nat) -> list Vec3 -> list Vec3;
  (** [BufferAttribute.applyNormalMatrix] with the normal matrix of [m] *)
  applyNormalMatrix : Matrix4 -> list Vec3 -> list Vec3;
  (** [Evaluator.evaluate] on the geometries of two brushes; it may throw *)
  csgEvaluate : BufferGeometry -> BufferGeometry -> Operation -> JsError + BufferGeometry;
  (** [BufferGeometryUtils.mergeVertices(geometry, tolerance)] *)
  mergeVertices : BufferGeometry -> R -> BufferGeometry;
  (** [STLLoader.parse] on the bytes of a file; it may throw *)
  stlParse : list Byte.byte -> JsError + BufferGeometry;
  (** [STLExporter.parse(mesh, { binary: true })] for a mesh with identity
      transform: the bytes written; it may throw *)
  stlWrite : BufferGeometry -> JsError + list Byte.byte
}.

Module Geometry.
Section WithLibrary.
Context `{ThreeLibrary}.

(** [BufferGeometry.setIndex] with a plain array. *)
Definition setIndex (indices : list nat) (g : BufferGeometry) : BufferGeometry :=
  mkGeometry (attributes_position g) (attributes_normal g) (attributes_uv g) (Some indices).

(** [BufferGeometry.setAttribute('uv', ...)]. *)
Definition setAttribute_uv (uvs : list Vec2) (g : BufferGeometry) : BufferGeometry :=
  mkGeometry (attributes_position g) (attributes_normal g) (Some uvs) (index g).

(** [BufferGeometry.computeVertexNormals]: nothing without positions;
    otherwise the normal attribute is created, or reset, and filled from
    the index and the positions. *)
Definition computeVertexNormals (g : BufferGeometry) : BufferGeometry :=
  match attributes_position g with
  | None => g
  | Some ps =>
      mkGeometry (Some ps) (Some (vertexNormals (index g) ps)) (attributes_uv g) (index g)
  end.

(** [BufferGeometry.applyMatrix4]: positions through the matrix, normals
    through its normal matrix; UVs and index are left alone. *)
Definition applyMatrix4 (m : Matrix4) (g : BufferGeometry) : BufferGeometry :=
  mkGeometry (option_map (map (THREE.Vector3_applyMatrix4 m)) (attributes_position g))
             (option_map (applyNormalMatrix m) (attributes_normal g))
             (attributes_uv g) (index g).

(** [BufferGeometry.computeBoundingBox]: the empty box without positions. *)
Definition boundingBox (g : BufferGeometry) : THREE.Box3 :=
  match attributes_position g with
  | None => None
  | Some ps => THREE.setFromBufferAttribute ps
  end.

(** [BufferGeometry.center]: translate by the negated centre of the
    bounding box. *)
Definition center (g : BufferGeometry) : BufferGeometry :=
  let offset := THREE.negate (THREE.getCenter (boundingBox g)) in
  applyMatrix4 (THREE.makeTranslation offset) g.

End WithLibrary.
End Geometry.

(** ** The scene objects and the application state *)

(** A reference to a geometry object in the store. *)
Definition loc : Type := nat.

(** A [THREE.Mesh] as far as the pipeline reads and writes it.
    [parentMatrixWorld] is the world matrix cached on the parent node, which
    [updateMatrixWorld] multiplies with the local matrix. *)
Record Mesh : Type := mkMesh {
  name : string;
  geometry : option loc;
  position : Vec3;
  rotation : Vec3;
  scale : Vec3;
  matrix : Matrix4;
  matrixWorld : Matrix4;
  parentMatrixWorld : Matrix4;
  visible : bool
}.

(** [state.rig]. An entry of [screwMeshes] may be [null] ([None]); the code
    guards it with [screwMesh?.geometry]. *)
Record Rig : Type := mkRig {
  screwMeshes : list (option Mesh);
  baseTrim : option Mesh;
  fillerTransform : option Mesh;
  guide2mm : option Mesh;
  hooks : option Mesh;
  sampleModel : option Mesh
}.

(** The global [state] object. *)
Record AppState : Type := mkState {
  currentStep : nat;
  isProcessed : bool;
  userModel : option Mesh;
  rig : Rig
}.

(** The part of the page and of the controls that the pipeline touches. *)
Record Dom : Type := mkDom {
  instruction_text : string;          (* #instruction-text *)
  processing_status : string;         (* #processing-status *)
  processing_overlay_hidden : bool;   (* #processing-overlay has class hidden *)
  btn_process_disabled : bool;        (* #btn-process *)
  btn_export_disabled : bool;         (* #btn-export *)
  mode_btns_disabled : bool;          (* .mode-btn *)
  model_sliders_enabled : bool;
  filler_sliders_enabled : bool;
  steps_enabled : nat;                (* sections with data-step <= this are enabled *)
  steps23_disabled : bool;            (* sections 2 and 3 disabled after processing *)
  upload_is_reset : bool;             (* the upload label has become Reset *)
  filename_display : string;          (* #filename-display *)
  transformControls_enabled : bool;
  transformControls_object : option string  (* name of the attached object *)
}.

Record World : Type := mkWorld {
  heap : gmap loc BufferGeometry;
  disposed : gset loc;                (* geometries on which dispose() ran *)
  state : AppState;
  ui : Dom
}.

Definition set_heap (h : gmap loc BufferGeometry) (w : World) : World :=
  mkWorld h (disposed w) (state w) (ui w).
Definition set_disposed (d : gset loc) (w : World) : World :=
  mkWorld (heap w) d (state w) (ui w).
Definition set_state (s : AppState) (w : World) : World :=
  mkWorld (heap w) (disposed w) s (ui w).
Definition set_ui (d : Dom) (w : World) : World :=
  mkWorld (heap w) (disposed w) (state w) d.

Definition set_userModel (m : option Mesh) (s : AppState) : AppState :=
  mkState (currentStep s) (isProcessed s) m (rig s).
Definition set_rig (r : Rig) (s : AppState) : AppState :=
  mkState (currentStep s) (isProcessed s) (userModel s) r.
Definition set_isProcessed (b : bool) (s : AppState) : AppState :=
  mkState (currentStep s) b (userModel s) (rig s).
Definition set_currentStep (n : nat) (s : AppState) : AppState :=
  mkState n (isProcessed s) (userModel s) (rig s).

(** ** Computations that may throw *)

Inductive Outcome (A : Type) : Type :=
| Returned (a : A)
| Thrown (e : JsError).
Arguments Returned {A} a.
Arguments Thrown {A} e.

Definition Js (A : Type) : Type := World -> Outcome A * World.

Definition ret {A} (a : A) : Js A := fun w => (Returned a, w).
Definition throw {A} (e : JsError) : Js A := fun w => (Thrown e, w).
Definition bind {A B} (c : Js A) (k : A -> Js B) : Js B :=
  fun w => match c w with
           | (Returned a, w') => k a w'
           | (Thrown e, w') => (Thrown e, w')
           end.
Definition modify (f : World -> World) : Js unit := fun w => (Returned tt, f w).
Definition gets {A} (f : World -> A) : Js A := fun w => (Returned (f w), w).

Declare Scope js_scope.
Delimit Scope js_scope with js.
Notation "'let*' x ':=' c 'in' k" := (bind c (fun x => k))
  (at level 10, x pattern, c at level 100, k at level 200) : js_scope.
Notation "c ';;;' k" := (bind c (fun _ => k))
  (at level 100, k at level 200, right associativity) : js_scope.
Local Open Scope js_scope.

(** Reading a property of [undefined] or [null] (V8's wording). *)
Definition TypeError (property : string) : JsError :=
  mkError ("Cannot read properties of undefined (reading '" ++ property ++ "')").

(** What [new Error(msg)] carries. *)
Definition Error (msg : string) : JsError := mkError msg.

Definition modifyState (f : AppState -> AppState) : Js unit :=
  modify (fun w => set_state (f (state w)) w).
Definition modifyUi (f : Dom -> Dom) : Js unit :=
  modify (fun w => set_ui (f (ui w)) w).

(** ** Operations on the store *)

Section Store.
Context `{ThreeLibrary}.

Definition readGeometry (l : loc) : Js BufferGeometry :=
  fun w => match heap w !! l with
           | Some g => (Returned g, w)
           | None => (Thrown (TypeError "attributes"), w)
           end.

(** An in-place mutation of the object at [l]. *)
Definition updateGeometry (f : BufferGeometry -> BufferGeometry) (l : loc) : Js unit :=
  fun w => match heap w !! l with
           | Some g => (Returned tt, set_heap (<[l := f g]> (heap w)) w)
           | None => (Thrown (TypeError "attributes"), w)
           end.

(** A new object. *)
Definition allocGeometry (g : BufferGeometry) : Js loc :=
  fun w => let l := fresh (dom (heap w)) in
           (Returned l, set_heap (<[l := g]> (heap w)) w).

(** [geometry.clone()]: a new object with copies of the attribute arrays. *)
Definition clone (l : loc) : Js loc :=
  fun w => match heap w !! l with
           | Some g => allocGeometry g w
           | None => (Thrown (TypeError "clone"), w)
           end.

(** [geometry.dispose()]. *)
Definition dispose (l : loc) : Js unit :=
  modify (fun w => set_disposed ({[ l ]} ∪ disposed w) w).

Definition when (b : bool) (c : Js unit) : Js unit := if b then c else ret tt.

(** ** [prepareGeometryForCSG] *)

Definition isNone {A} (o : option A) : bool :=
  match o with None => true | Some _ => false end.

Definition prepareGeometryForCSG (geometry : loc) (name : string) : Js (option loc) :=
  (* Clone to avoid modifying original *)
  let* geo := clone geometry in
  let* g := readGeometry geo in
  match attributes_position g with
  | None => ret None
  | Some pos =>
      let posCount := length pos in
      (* If non-indexed, convert to indexed geometry *)
      when (isNone (index g))
           (updateGeometry (Geometry.setIndex (seq 0 posCount)) geo) ;;;
      (* Ensure normals exist *)
      let* g := readGeometry geo in
      when (isNone (attributes_normal g))
           (updateGeometry Geometry.computeVertexNormals geo) ;;;
      (* Ensure UV attributes exist *)
      let* g := readGeometry geo in
      when (isNone (attributes_uv g))
           (updateGeometry (Geometry.setAttribute_uv (repeat (0%R, 0%R) posCount)) geo) ;;;
      ret (Some geo)
  end.

(** The geometry [prepareGeometryForCSG] leaves in the clone, as a function
    of the input geometry's value. *)
Definition prepared (g : BufferGeometry) : BufferGeometry :=
  match attributes_position g with
  | None => g
  | Some pos =>
      let idx := match index g with Some i => i | None => seq 0 (length pos) end in
      mkGeometry (Some pos)
        (Some (match attributes_normal g with
               | Some n => n
               | None => vertexNormals (Some idx) pos
               end))
        (Some (match attributes_uv g with
               | Some u => u
               | None => repeat (0%R, 0%R) (length pos)
               end))
        (Some idx)
  end.

End Store.

(** ** Transforms of scene objects *)

(** [MODEL_ROTATION_OFFSET]: the Euler angles [{x: degToRad(-90), y: 0, z: 0}]. *)
Definition MODEL_ROTATION_OFFSET : Vec3 := (THREE.degToRad (-90), 0%R, 0%R).

Definition set_geometry (g : option loc) (m : Mesh) : Mesh :=
  mkMesh (name m) g (position m) (rotation m) (scale m) (matrix m) (matrixWorld m)
         (parentMatrixWorld m) (visible m).
Definition set_position (p : Vec3) (m : Mesh) : Mesh :=
  mkMesh (name m) (geometry m) p (rotation m) (scale m) (matrix m) (matrixWorld m)
         (parentMatrixWorld m) (visible m).
Definition set_rotation (r : Vec3) (m : Mesh) : Mesh :=
  mkMesh (name m) (geometry m) (position m) r (scale m) (matrix m) (matrixWorld m)
         (parentMatrixWorld m) (visible m).
Definition set_visible (b : bool) (m : Mesh) : Mesh :=
  mkMesh (name m) (geometry m) (position m) (rotation m) (scale m) (matrix m) (matrixWorld m)
         (parentMatrixWorld m) b.

(** [Object3D.updateMatrix]. *)
Definition updateMatrix (m : Mesh) : Mesh :=
  mkMesh (name m) (geometry m) (position m) (rotation m) (scale m)
         (THREE.compose (position m) (rotation m) (scale m)) (matrixWorld m)
         (parentMatrixWorld m) (visible m).

(** [Object3D.updateMatrixWorld(true)] as far as the node itself goes. *)
Definition updateMatrixWorld (m : Mesh) : Mesh :=
  let m' := updateMatrix m in
  mkMesh (name m') (geometry m') (position m') (rotation m') (scale m') (matrix m')
         (THREE.multiplyMatrices (parentMatrixWorld m') (matrix m'))
         (parentMatrixWorld m') (visible m').

(** [new THREE.Mesh(geometry, material)] once added to the scene root, whose
    own world matrix is the identity. *)
Definition newMesh (g : loc) : Mesh :=
  mkMesh "" (Some g) THREE.zero3 THREE.zero3 THREE.one3 THREE.identity THREE.identity
         THREE.identity true.
Definition set_name (n : string) (m : Mesh) : Mesh :=
  mkMesh n (geometry m) (position m) (rotation m) (scale m) (matrix m) (matrixWorld m)
         (parentMatrixWorld m) (visible m).

(** [array.forEach(mesh => f(mesh))] over [screwMeshes]: the entries before
    a [null] one are updated, the [null] entry makes the callback throw. *)
Fixpoint meshesForEach (f : Mesh -> Mesh) (ms : list (option Mesh))
  : list (option Mesh) * bool :=
  match ms with
  | [] => ([], true)
  | Some m :: rest =>
      let '(rest', ok) := meshesForEach f rest in (Some (f m) :: rest', ok)
  | None :: rest => (None :: rest, false)
  end.

Definition set_screwMeshes (l : list (option Mesh)) (r : Rig) : Rig :=
  mkRig l (baseTrim r) (fillerTransform r) (guide2mm r) (hooks r) (sampleModel r).
Definition set_baseTrim (m : option Mesh) (r : Rig) : Rig :=
  mkRig (screwMeshes r) m (fillerTransform r) (guide2mm r) (hooks r) (sampleModel r).
Definition set_fillerTransform (m : option Mesh) (r : Rig) : Rig :=
  mkRig (screwMeshes r) (baseTrim r) m (guide2mm r) (hooks r) (sampleModel r).
Definition set_guide2mm (m : option Mesh) (r : Rig) : Rig :=
  mkRig (screwMeshes r) (baseTrim r) (fillerTransform r) m (hooks r) (sampleModel r).
Definition set_hooks (m : option Mesh) (r : Rig) : Rig :=
  mkRig (screwMeshes r) (baseTrim r) (fillerTransform r) (guide2mm r) m (sampleModel r).

Definition modifyRig (f : Rig -> Rig) : Js unit :=
  modifyState (fun s => set_rig (f (rig s)) s).

Definition screwsForEach (f : Mesh -> Mesh) (property : string) : Js unit :=
  let* ms := gets (fun w => screwMeshes (rig (state w))) in
  let '(ms', ok) := meshesForEach f ms in
  modifyRig (set_screwMeshes ms') ;;;
  if ok then ret tt else throw (TypeError property).

(** [state.userModel.<property>] inside the [try] block. *)
Definition getUserModel (property : string) : Js Mesh :=
  fun w => match userModel (state w) with
           | Some m => (Returned m, w)
           | None => (Thrown (TypeError property), w)
           end.

Definition modifyUserModel (f : Mesh -> Mesh) : Js unit :=
  modifyState (fun s => set_userModel (option_map f (userModel s)) s).

(** ** The page *)

Definition set_instruction (t : string) (d : Dom) : Dom :=
  mkDom t (processing_status d) (processing_overlay_hidden d) (btn_process_disabled d)
        (btn_export_disabled d) (mode_btns_disabled d) (model_sliders_enabled d)
        (filler_sliders_enabled d) (steps_enabled d) (steps23_disabled d)
        (upload_is_reset d) (filename_display d) (transformControls_enabled d)
        (transformControls_object d).
Definition set_processing_status (t : string) (d : Dom) : Dom :=
  mkDom (instruction_text d) t (processing_overlay_hidden d) (btn_process_disabled d)
        (btn_export_disabled d) (mode_btns_disabled d) (model_sliders_enabled d)
        (filler_sliders_enabled d) (steps_enabled d) (steps23_disabled d)
        (upload_is_reset d) (filename_display d) (transformControls_enabled d)
        (transformControls_object d).
Definition set_processing_hidden (b : bool) (d : Dom) : Dom :=
  mkDom (instruction_text d) (processing_status d) b (btn_process_disabled d)
        (btn_export_disabled d) (mode_btns_disabled d) (model_sliders_enabled d)
        (filler_sliders_enabled d) (steps_enabled d) (steps23_disabled d)
        (upload_is_reset d) (filename_display d) (transformControls_enabled d)
        (transformControls_object d).
Definition set_btn_process_disabled (b : bool) (d : Dom) : Dom :=
  mkDom (instruction_text d) (processing_status d) (processing_overlay_hidden d) b
        (btn_export_disabled d) (mode_btns_disabled d) (model_sliders_enabled d)
        (filler_sliders_enabled d) (steps_enabled d) (steps23_disabled d)
        (upload_is_reset d) (filename_display d) (transformControls_enabled d)
        (transformControls_object d).
Definition set_btn_export_disabled (b : bool) (d : Dom) : Dom :=
  mkDom (instruction_text d) (processing_status d) (processing_overlay_hidden d)
        (btn_process_disabled d) b (mode_btns_disabled d) (model_sliders_enabled d)
        (filler_sliders_enabled d) (steps_enabled d) (steps23_disabled d)
        (upload_is_reset d) (filename_display d) (transformControls_enabled d)
        (transformControls_object d).
(** [transformControls.detach(); transformControls.enabled = false]. *)
Definition detachTransformControls (d : Dom) : Dom :=
  mkDom (instruction_text d) (processing_status d) (processing_overlay_hidden d)
        (btn_process_disabled d) (btn_export_disabled d) (mode_btns_disabled d)
        (model_sliders_enabled d) (filler_sliders_enabled d) (steps_enabled d)
        (steps23_disabled d) (upload_is_reset d) (filename_display d) false None.
(** Every [.mode-btn] disabled. *)
Definition disableModeButtons (d : Dom) : Dom :=
  mkDom (instruction_text d) (processing_status d) (processing_overlay_hidden d)
        (btn_process_disabled d) (btn_export_disabled d) true
        (model_sliders_enabled d) (filler_sliders_enabled d) (steps_enabled d)
        (steps23_disabled d) (upload_is_reset d) (filename_display d)
        (transformControls_enabled d) (transformControls_object d).
Definition setModelSlidersEnabled (enabled : bool) (d : Dom) : Dom :=
  mkDom (instruction_text d) (processing_status d) (processing_overlay_hidden d)
        (btn_process_disabled d) (btn_export_disabled d) (mode_btns_disabled d)
        enabled (filler_sliders_enabled d) (steps_enabled d)
        (steps23_disabled d) (upload_is_reset d) (filename_display d)
        (transformControls_enabled d) (transformControls_object d).
Definition setFillerSlidersEnabled (enabled : bool) (d : Dom) : Dom :=
  mkDom (instruction_text d) (processing_status d) (processing_overlay_hidden d)
        (btn_process_disabled d) (btn_export_disabled d) (mode_btns_disabled d)
        (model_sliders_enabled d) enabled (steps_enabled d)
        (steps23_disabled d) (upload_is_reset d) (filename_display d)
        (transformControls_enabled d) (transformControls_object d).
(** The sections of steps 2 and 3 get the attribute [disabled]. *)
Definition disableSteps23 (d : Dom) : Dom :=
  mkDom (instruction_text d) (processing_status d) (processing_overlay_hidden d)
        (btn_process_disabled d) (btn_export_disabled d) (mode_btns_disabled d)
        (model_sliders_enabled d) (filler_sliders_enabled d) (steps_enabled d)
        true (upload_is_reset d) (filename_display d)
        (transformControls_enabled d) (transformControls_object d).
(** The upload label becomes the Reset button. *)
Definition uploadBecomesReset (d : Dom) : Dom :=
  mkDom (instruction_text d) (processing_status d) (processing_overlay_hidden d)
        (btn_process_disabled d) (btn_export_disabled d) (mode_btns_disabled d)
        (model_sliders_enabled d) (filler_sliders_enabled d) (steps_enabled d)
        (steps23_disabled d) true (filename_display d)
        (transformControls_enabled d) (transformControls_object d).
(** [enableStep(2)], the file name shown, the gizmo attached to the model. *)
Definition onModelLoaded (file_name : string) (d : Dom) : Dom :=
  mkDom (instruction_text d) (processing_status d) (processing_overlay_hidden d)
        (btn_process_disabled d) (btn_export_disabled d) (mode_btns_disabled d)
        (model_sliders_enabled d) (filler_sliders_enabled d)
        (Nat.max (steps_enabled d) 2) (steps23_disabled d)
        (upload_is_reset d) file_name (transformControls_enabled d)
        (Some "UserModel").

Definition updateInstruction (text : string) : Js unit :=
  modifyUi (set_instruction text).
Definition showProcessing (statusText : string) : Js unit :=
  modifyUi (fun d => set_processing_status statusText (set_processing_hidden false d)).
Definition hideProcessing : Js unit :=
  modifyUi (set_processing_hidden true).
Definition updateProcessingStatus (statusText : string) : Js unit :=
  modifyUi (set_processing_status statusText).

(** ** The pipeline *)

Section Pipeline.
Context `{ThreeLibrary}.

(** A [Brush] wraps a geometry without copying it and carries the identity
    transform; it is identified with the reference to its geometry. *)
Definition Brush : Type := loc.

(** [csgEvaluator.evaluate(a, b, operation)]: a new brush, or a throw. *)
Definition evaluate (a b : Brush) (operation : Operation) : Js Brush :=
  let* ga := readGeometry a in
  let* gb := readGeometry b in
  match csgEvaluate ga gb operation with
  | inl e => throw e
  | inr g => allocGeometry g
  end.

(** The block the source writes out for the filler (Step 2), the base-trim
    (Step 3) and each screw (body of the loop of Step 4):
    [if (mesh?.geometry) { geo = prepareGeometryForCSG(mesh.geometry, label);
    if (geo) { geo.applyMatrix4(mesh.matrixWorld);
    resultBrush = csgEvaluator.evaluate(resultBrush, new Brush(geo), op); } }]. *)
Definition applyOperand (mesh : option Mesh) (label : Mesh -> string)
    (operation : Operation) (resultBrush : Brush) : Js Brush :=
  match mesh with
  | Some m =>
      match geometry m with
      | Some mg =>
          let* geo := prepareGeometryForCSG mg (label m) in
          match geo with
          | Some geo =>
              (* BAKE transform into geometry *)
              updateGeometry (Geometry.applyMatrix4 (matrixWorld m)) geo ;;;
              evaluate resultBrush geo operation
          | None => ret resultBrush
          end
      | None => ret resultBrush
      end
  | None => ret resultBrush
  end.

(** Step 4: [for (let i = 0; i < state.rig.screwMeshes.length; i++)]. *)
Fixpoint subtractScrews (screws : list (option Mesh)) (resultBrush : Brush) : Js Brush :=
  match screws with
  | [] => ret resultBrush
  | screwMesh :: rest =>
      let* resultBrush := applyOperand screwMesh name SUBTRACTION resultBrush in
      subtractScrews rest resultBrush
  end.

(** The refresh of the world matrices at the head of the [try] block. *)
Definition refreshTransforms : Js unit :=
  let* _ := getUserModel "updateMatrixWorld" in
  modifyUserModel updateMatrixWorld ;;;
  modifyRig (fun r => set_fillerTransform (option_map updateMatrixWorld (fillerTransform r)) r) ;;;
  modifyRig (fun r => set_baseTrim (option_map updateMatrixWorld (baseTrim r)) r) ;;;
  screwsForEach updateMatrixWorld "updateMatrixWorld".

(** Steps 1 to 4 of [doProcessAndMerge]: the running composite. *)
Definition booleanSteps : Js Brush :=
  (* Step 1: Prepare user model geometry with current transforms *)
  let* um := getUserModel "geometry" in
  let* modelGeo :=
    match geometry um with
    | Some g => prepareGeometryForCSG g "UserModel"
    | None => throw (TypeError "clone")
    end in
  match modelGeo with
  | None => throw (Error "User model geometry preparation failed")
  | Some modelGeo =>
      (* BAKE the transform into the geometry vertices *)
      updateGeometry (Geometry.applyMatrix4 (matrixWorld um)) modelGeo ;;;
      let resultBrush : Brush := modelGeo in
      (* Step 2: UNION - Merge filler with user model FIRST *)
      let* filler := gets (fun w => fillerTransform (rig (state w))) in
      let* resultBrush := applyOperand filler (fun _ => "Filler") ADDITION resultBrush in
      (* Step 3: SUBTRACT - Remove base-trim (bottom) from merged result *)
      let* base := gets (fun w => baseTrim (rig (state w))) in
      let* resultBrush := applyOperand base (fun _ => "Base-trim") SUBTRACTION resultBrush in
      (* Step 4: SUBTRACT - Remove all screw holes from merged result *)
      let* screws := gets (fun w => screwMeshes (rig (state w))) in
      subtractScrews screws resultBrush
  end.

(** The weld tolerance passed to [mergeVertices]. *)
Definition WELD_TOLERANCE : R := 0.0001%R.

(** Mesh cleanup: [mergeVertices(resultBrush.geometry, 0.0001)], then
    [cleanedGeometry.computeVertexNormals()]. *)
Definition cleanup (resultBrush : Brush) : Js loc :=
  let* rg := readGeometry resultBrush in
  let* cleanedGeometry := allocGeometry (mergeVertices rg WELD_TOLERANCE) in
  updateGeometry Geometry.computeVertexNormals cleanedGeometry ;;;
  ret cleanedGeometry.

(** The rest of the [try] block: the displayed model takes the result and
    the controls are locked. The elapsed-time label and the Continue and
    Back buttons are left out of [Dom]. *)
Definition commit (cleanedGeometry : loc) : Js unit :=
  let* um := getUserModel "geometry" in
  match geometry um with
  | Some old => dispose old
  | None => throw (TypeError "dispose")
  end ;;;
  modifyUserModel (set_geometry (Some cleanedGeometry)) ;;;
  modifyUserModel (set_position (0, 0, 0)%R) ;;;
  modifyUserModel (set_rotation (0, 0, 0)%R) ;;;
  modifyUserModel updateMatrix ;;;
  (* Hide filler, trim helpers, guide and hooks *)
  modifyRig (fun r => set_fillerTransform (option_map (set_visible false) (fillerTransform r)) r) ;;;
  modifyRig (fun r => set_baseTrim (option_map (set_visible false) (baseTrim r)) r) ;;;
  screwsForEach (set_visible false) "visible" ;;;
  modifyRig (fun r => set_guide2mm (option_map (set_visible false) (guide2mm r)) r) ;;;
  modifyRig (fun r => set_hooks (option_map (set_visible false) (hooks r)) r) ;;;
  (* Lock the model *)
  modifyUi detachTransformControls ;;;
  (* Disable UI buttons *)
  modifyUi disableModeButtons ;;;
  modifyState (set_isProcessed true) ;;;
  (* Enable export button *)
  modifyUi (set_btn_export_disabled false) ;;;
  (* DISABLE all sliders and controls after processing *)
  modifyUi (setModelSlidersEnabled false) ;;;
  modifyUi (setFillerSlidersEnabled false) ;;;
  (* Disable step sections except Export *)
  modifyUi disableSteps23 ;;;
  (* Disable Process button (already processed) *)
  modifyUi (set_btn_process_disabled true) ;;;
  (* Convert Upload STL to Reset button *)
  modifyUi uploadBecomesReset ;;;
  updateInstruction "Processing complete! Click Export STL to download. Use Reset to start over." ;;;
  hideProcessing.

Definition doProcessAndMerge_try : Js unit :=
  refreshTransforms ;;;
  let* resultBrush := booleanSteps in
  let* cleanedGeometry := cleanup resultBrush in
  commit cleanedGeometry.

(** [catch (error) { ... }] of [doProcessAndMerge]. *)
Definition doProcessAndMerge_catch (error : JsError) : Js unit :=
  updateInstruction ("Boolean failed: " ++ message error ++ ". Check console.") ;;;
  hideProcessing.

(** [try { c } catch (error) { handler(error) }]. *)
Definition tryCatch {A} (c : Js A) (handler : JsError -> Js A) : Js A :=
  fun w => match c w with
           | (Returned a, w') => (Returned a, w')
           | (Thrown e, w') => handler e w'
           end.

Definition doProcessAndMerge : Js unit :=
  updateProcessingStatus "Running Boolean operations..." ;;;
  tryCatch doProcessAndMerge_try doProcessAndMerge_catch.

(** [processAndMerge]: what it does before it returns, and the callback
    it hands to [setTimeout(..., 50)], if any. The run itself starts when
    the timer fires, on the world it finds then. *)
Definition processAndMerge : Js (option (Js unit)) :=
  let* um := gets (fun w => userModel (state w)) in
  match um with
  | None => updateInstruction "Please import a model first." ;;; ret None
  | Some _ =>
      (* Disable the process button immediately to prevent double-clicks *)
      modifyUi (set_btn_process_disabled true) ;;;
      (* Show the liquid glass processing overlay *)
      showProcessing "Preparing mesh data..." ;;;
      (* Use setTimeout to allow the overlay to paint before heavy processing begins *)
      ret (Some doProcessAndMerge)
  end.

(** ** Import *)

(** The [reader.onload] handler of [importUserSTL(file)], given the bytes
    read and the name of the file. *)
Definition importUserSTL_try (contents : list Byte.byte) (file_name : string) : Js unit :=
  let* geo :=
    match stlParse contents with
    | inl e => throw e
    | inr g => allocGeometry g
    end in
  updateGeometry Geometry.computeVertexNormals geo ;;;
  updateGeometry Geometry.center geo ;;; (* Center the geometry *)
  (* Remove previous user model if exists *)
  let* previous := gets (fun w => userModel (state w)) in
  match previous with
  | Some m =>
      match geometry m with
      | Some old => dispose old
      | None => throw (TypeError "dispose")
      end
  | None => ret tt
  end ;;;
  let* rigHooks := gets (fun w => hooks (rig (state w))) in
  let mesh := set_name "UserModel" (newMesh geo) in
  (* Apply default rotation *)
  let mesh := set_rotation MODEL_ROTATION_OFFSET mesh in
  (* Position near the rig *)
  let mesh := match rigHooks with
              | Some h => set_position (position h) mesh
              | None => mesh
              end in
  modifyState (set_userModel (Some mesh)) ;;;
  (* Enable Step 2 *)
  modifyState (set_currentStep 2) ;;;
  modifyUi (onModelLoaded file_name) ;;;
  updateInstruction "Use Move/Rotate to align model. Click model to select, use G for move, R for rotate. Use view cube for orthographic views.".

Definition importUserSTL (contents : list Byte.byte) (file_name : string) : Js unit :=
  tryCatch (importUserSTL_try contents file_name)
           (fun _ => updateInstruction "Error loading STL file. Ensure it is a valid STL.").

(** ** Export *)

(** The geometry handed to the serializer: a clone of the model's
    geometry with the world matrix, then the +90 degree rotation about X,
    baked in. *)
Definition exportGeometry_build : Js loc :=
  (* Ensure matrix world is up to date *)
  modifyUserModel updateMatrixWorld ;;;
  let* um := getUserModel "geometry" in
  let* exportGeometry :=
    match geometry um with
    | Some g => clone g
    | None => throw (TypeError "clone")
    end in
  updateGeometry (Geometry.applyMatrix4 (matrixWorld um)) exportGeometry ;;;
  let rotationMatrix := THREE.makeRotationX (THREE.degToRad 90) in
  updateGeometry (Geometry.applyMatrix4 rotationMatrix) exportGeometry ;;;
  ret exportGeometry.

Definition exportSTL_try : Js (option (list Byte.byte)) :=
  let* exportGeometry := exportGeometry_build in
  let* g := readGeometry exportGeometry in
  match stlWrite g with
  | inl e => throw e
  | inr result =>
      match result with
      | [] => throw (Error "Generated STL file is empty (0 bytes)")
      | _ => ret (Some result)
      end
  end.

(** [exportSTL] up to the blob it hands to the save dialogs: [Some bytes]
    when a blob was produced. *)
Definition exportSTL : Js (option (list Byte.byte)) :=
  let* um := gets (fun w => userModel (state w)) in
  match um with
  | None => updateInstruction "No model to export." ;;; ret None
  | Some m =>
      let* processed := gets (fun w => isProcessed (state w)) in
      if negb processed then
        updateInstruction "Please run Process & Merge before exporting." ;;; ret None
      else
        updateInstruction "Generating STL file..." ;;;
        match geometry m with
        | None =>
            updateInstruction "Export error: Model has no geometry. Try processing again." ;;;
            ret None
        | Some g =>
            let* geo := readGeometry g in
            match attributes_position geo with
            | None | Some [] =>
                updateInstruction "Export error: Resulting model is empty." ;;; ret None
            | Some _ =>
                tryCatch exportSTL_try
                  (fun error =>
                     updateInstruction ("Export failed: " ++ message error ++ ". Check console.") ;;;
                     ret None)
            end
        end
  end.

End Pipeline.


(** ** The fusion pipeline in the words of its description *)

Section FusionDescription.
Context `{ThreeLibrary}.

(** "Normalize + bake": the operand a mesh contributes, read from the store
    [h]; none when the mesh or its geometry is missing, or when the
    geometry has no position buffer. *)
Definition operandOf (h : gmap loc BufferGeometry) (mesh : option Mesh)
  : option BufferGeometry :=
  match mesh with
  | Some m =>
      match geometry m with
      | Some l =>
          match h !! l with
          | Some g =>
              match attributes_position g with
              | Some _ => Some (Geometry.applyMatrix4 (matrixWorld m) (prepared g))
              | None => None
              end
          | None => None
          end
      | None => None
      end
  | None => None
  end.

Definition step (operation : Operation) (operand : option BufferGeometry)
  : list (Operation * BufferGeometry) :=
  match operand with
  | Some g => [(operation, g)]
  | None => []
  end.

(** The fixed operation order: filler (ADDITION), base-trim (SUBTRACTION),
    every screw hole in stored order (SUBTRACTION); a step whose operand is
    missing is left out. *)
Definition fusionPlan (h : gmap loc BufferGeometry) (r : Rig)
  : list (Operation * BufferGeometry) :=
  step ADDITION (operandOf h (fillerTransform r))
  ++ step SUBTRACTION (operandOf h (baseTrim r))
  ++ concat (map (fun screw => step SUBTRACTION (operandOf h screw)) (screwMeshes r)).

(** Each step consumes and replaces the running composite; the first
    evaluation that throws ends the fold with its error. *)
Fixpoint composeAll (plan : list (Operation * BufferGeometry)) (composite : BufferGeometry)
  : JsError + BufferGeometry :=
  match plan with
  | [] => inr composite
  | (operation, operand) :: rest =>
      match csgEvaluate composite operand operation with
      | inl e => inl e
      | inr composite' => composeAll rest composite'
      end
  end.

(** The cleaned composite: welded, then with recomputed normals. *)
Definition cleaned (composite : BufferGeometry) : BufferGeometry :=
  Geometry.computeVertexNormals (mergeVertices composite WELD_TOLERANCE).

End FusionDescription.

(** The state once every [updateMatrixWorld(true)] at the head of
    [doProcessAndMerge] has run. *)
Definition refreshRig (r : Rig) : Rig :=
  mkRig (fst (meshesForEach updateMatrixWorld (screwMeshes r)))
        (option_map updateMatrixWorld (baseTrim r))
        (option_map updateMatrixWorld (fillerTransform r))
        (guide2mm r) (hooks r) (sampleModel r).

Definition refreshState (s : AppState) : AppState :=
  mkState (currentStep s) (isProcessed s)
          (option_map updateMatrixWorld (userModel s))
          (refreshRig (rig s)).

(** The geometry reference of a mesh, if any, points into the store. *)
Definition allocated (h : gmap loc BufferGeometry) (mesh : option Mesh) : Prop :=
  match mesh with
  | Some m =>
      match geometry m with
      | Some l => is_Some (h !! l)
      | None => True
      end
  | None => True
  end.

Definition rigAllocated (h : gmap loc BufferGeometry) (r : Rig) : Prop :=
  allocated h (fillerTransform r) /\ allocated h (baseTrim r)
  /\ Forall (allocated h) (screwMeshes r).

(** No entry of [screwMeshes] is [null]. *)
Definition noNullScrew (r : Rig) : Prop :=
  Forall (fun screw : option Mesh => is_Some screw) (screwMeshes r).

(** ** A small stand-in for the library, to run the pipeline on examples *)

Module Demo.

Local Open Scope R_scope.

(** An evaluator that rejects an operand without vertices, keeps the
    composite on subtraction and appends the vertex streams on addition. *)
Definition evaluate (a b : BufferGeometry) (operation : Operation)
  : JsError + BufferGeometry :=
  match attributes_position b with
  | None | Some [] => inl (Error "empty operand")
  | Some pb =>
      match operation with
      | SUBTRACTION => inr a
      | ADDITION =>
          inr (mkGeometry (option_map (fun pa => (pa ++ pb)%list) (attributes_position a))
                          (attributes_normal a) (attributes_uv a) (index a))
      end
  end.

#[export] Instance library : ThreeLibrary := {|
  vertexNormals := fun _ ps => map (fun _ => (0, 0, 1)) ps;
  applyNormalMatrix := fun _ ns => ns;
  csgEvaluate := evaluate;
  mergeVertices := fun g _ => g;
  stlParse := fun _ =>
    inr (mkGeometry (Some [(0, 0, 0); (2, 0, 0); (0, 4, 0)]) None None None);
  stlWrite := fun _ => inr [Byte.x00]
|}.

Definition triangle : BufferGeometry :=
  mkGeometry (Some [(0, 0, 0); (1, 0, 0); (0, 1, 0)]) None None None.
Definition noPositions : BufferGeometry := mkGeometry None None None None.
Definition zeroVertices : BufferGeometry := mkGeometry (Some []) None None None.

Definition mesh (n : string) (g : loc) : Mesh :=
  mkMesh n (Some g) THREE.zero3 THREE.zero3 THREE.one3 THREE.identity THREE.identity
         THREE.identity true.

Definition page : Dom :=
  mkDom "" "" true false true false true false 2%nat false false "scan.stl" true
        (Some "UserModel").

(** Geometries: the model at 0, the filler at 1, screws at 2 and (without
    position buffer) 3, a geometry with zero vertices at 4. *)
Definition store : gmap loc BufferGeometry :=
  <[0%nat := triangle]> (<[1%nat := triangle]> (<[2%nat := triangle]>
    (<[3%nat := noPositions]> (<[4%nat := zeroVertices]> ∅)))).

Definition world (base : option Mesh) : World :=
  mkWorld store ∅
    (mkState 2 false (Some (mesh "UserModel" 0%nat))
       (mkRig [Some (mesh "Ant_Top" 2%nat); Some (mesh "L_Top" 3%nat)] base
              (Some (mesh "Filler" 1%nat)) None None None))
    page.

(** The model and a base-trim only: no filler, no screws. *)
Definition bare (base : option Mesh) : World :=
  mkWorld store ∅
    (mkState 2 false (Some (mesh "UserModel" 0%nat))
       (mkRig [] base None None None None))
    page.

End Demo.

(** [w'] differs from [w] by new objects in the store only: every object of
    [w] holds its value, and meshes, page and disposal marks are those of
    [w]. *)
Definition grown (w w' : World) : Prop :=
  exists h', w' = set_heap h' w /\ heap w ⊆ h'.

(** The point [p] moved by [- c]. *)
Definition shift (c p : Vec3) : Vec3 :=
  let '(cx, cy, cz) := c in
  let '(x, y, z) := p in
  (x - cx, y - cy, z - cz)%R.

(** ** The undo history *)

(** The module-level array [undoHistory] is kept beside the [World]: the
    functions below take it and return it. *)
Definition MAX_UNDO_STEPS : nat := 50.

(** A snapshot: each field is a clone of the vector, or [null]. *)
Record Snapshot : Type := mkSnapshot {
  modelPosition : option Vec3;
  modelRotation : option Vec3;
  fillerPosition : option Vec3;
  fillerScale : option Vec3
}.

Definition set_scale (s : Vec3) (m : Mesh) : Mesh :=
  mkMesh (name m) (geometry m) (position m) (rotation m) s (matrix m) (matrixWorld m)
         (parentMatrixWorld m) (visible m).

(** The object literal built at the head of [saveUndoState]. *)
Definition snapshotOf (s : AppState) : Snapshot :=
  mkSnapshot (option_map position (userModel s))
             (option_map rotation (userModel s))
             (option_map position (fillerTransform (rig s)))
             (option_map scale (fillerTransform (rig s))).

(** [saveUndoState]: [push], then one [shift] when the array has grown past
    [MAX_UNDO_STEPS]. *)
Definition saveUndoState (undoHistory : list Snapshot) (s : AppState) : list Snapshot :=
  let undoHistory := (undoHistory ++ [snapshotOf s])%list in
  if (MAX_UNDO_STEPS <? length undoHistory)%nat then tl undoHistory else undoHistory.

(** The body of [undo] after [const prevState = undoHistory[length - 1]].
    The slider widgets that [syncModelSlidersFromMesh] and
    [syncFillerSlidersFromMesh] refresh are not part of [Dom]. *)
Definition undo_restore (prevState : option Snapshot) : Js unit :=
  match prevState with
  | None => throw (TypeError "modelPosition")
  | Some prevState =>
      let* um := gets (fun w => userModel (state w)) in
      match modelPosition prevState, um with
      | Some p, Some _ =>
          modifyUserModel (set_position p) ;;;
          match modelRotation prevState with
          | Some r => modifyUserModel (set_rotation r)
          | None => throw (TypeError "x")
          end
      | _, _ => ret tt
      end ;;;
      let* filler := gets (fun w => fillerTransform (rig (state w))) in
      match fillerPosition prevState, filler with
      | Some p, Some _ =>
          modifyRig (fun r => set_fillerTransform
                                (option_map (set_position p) (fillerTransform r)) r) ;;;
          match fillerScale prevState with
          | Some s =>
              modifyRig (fun r => set_fillerTransform
                                    (option_map (set_scale s) (fillerTransform r)) r)
          | None => throw (TypeError "x")
          end
      | _, _ => ret tt
      end ;;;
      updateInstruction "Undo successful."
  end.

(** [undo]: the history it leaves, and what happened to the world. *)
Definition undo (undoHistory : list Snapshot) (w : World)
  : list Snapshot * (Outcome unit * World) :=
  if (length undoHistory <? 2)%nat then
    (undoHistory, updateInstruction "Nothing to undo." w)
  else
    (* Remove current state *)
    let undoHistory := removelast undoHistory in
    (* Get previous state *)
    (undoHistory, undo_restore (last undoHistory) w).

Section Session.
Context `{ThreeLibrary}.

(** The [onload] handler of [importUserSTL] with the history: the [try]
    block ends with [saveUndoState()] (and the file name shown, which the
    snapshot does not read). *)
Definition importUserSTL_session (contents : list Byte.byte) (file_name : string)
    (undoHistory : list Snapshot) (w : World) : list Snapshot * (Outcome unit * World) :=
  match importUserSTL_try contents file_name w with
  | (Returned _, w') => (saveUndoState undoHistory (state w'), (Returned tt, w'))
  | (Thrown _, w') =>
      (undoHistory, updateInstruction "Error loading STL file. Ensure it is a valid STL." w')
  end.

(** [window.loadSampleModel]: no [try], no centring, no snapshot. *)
Definition loadSampleModel : Js unit :=
  let* sample := gets (fun w => sampleModel (rig (state w))) in
  match sample with
  | Some sm =>
      (* Clone the sample model to act as user model *)
      let* geo :=
        match geometry sm with
        | Some g => clone g
        | None => throw (TypeError "clone")
        end in
      (* Remove previous user model if exists *)
      let* previous := gets (fun w => userModel (state w)) in
      match previous with
      | Some m =>
          match geometry m with
          | Some old => dispose old
          | None => throw (TypeError "dispose")
          end
      | None => ret tt
      end ;;;
      let* rigHooks := gets (fun w => hooks (rig (state w))) in
      let mesh := set_name "UserModel" (newMesh geo) in
      (* Apply default rotation *)
      let mesh := set_rotation MODEL_ROTATION_OFFSET mesh in
      (* Fix position *)
      let mesh := match rigHooks with
                  | Some h => set_position (position h) mesh
                  | None => mesh
                  end in
      modifyState (set_userModel (Some mesh)) ;;;
      (* Enable Step 2 *)
      modifyState (set_currentStep 2) ;;;
      modifyUi (fun d => onModelLoaded (filename_display d) d) ;;;
      updateInstruction "DEBUG: Sample model loaded."
  | None => ret tt
  end.

End Session.

(** ** Invariants of a computation *)

(** [c] leaves meshes, flags and page as it found them and only adds
    objects to the store, whatever its outcome. *)
Definition onlyAllocates {A} (c : Js A) : Prop := forall w, grown w (snd (c w)).

(** The geometry [exportSTL] hands to the writer, for a model [um] whose
    geometry holds [g]. *)
Definition exportedGeometry `{ThreeLibrary} (um : Mesh) (g : BufferGeometry)
  : BufferGeometry :=
  Geometry.applyMatrix4 (THREE.makeRotationX (THREE.degToRad 90))
    (Geometry.applyMatrix4 (matrixWorld (updateMatrixWorld um)) g).

(** ** More example worlds *)

Module Demo2.

(** As [Demo.world], with the model's geometry at [l] and the given
    [isProcessed]. *)
Definition worldWith (l : loc) (processed : bool) : World :=
  mkWorld Demo.store ∅
    (mkState 2 processed (Some (Demo.mesh "UserModel" l))
       (mkRig [Some (Demo.mesh "Ant_Top" 2%nat)] None
              (Some (Demo.mesh "Filler" 1%nat)) None None
              (Some (Demo.mesh "Sample" 2%nat))))
    Demo.page.

Definition poseA : Mesh :=
  mkMesh "UserModel" (Some 0%nat) (1, 2, 3)%R (0, 0, 0)%R THREE.one3 THREE.identity
         THREE.identity THREE.identity true.

Definition stateA : AppState :=
  mkState 2 false (Some poseA) (mkRig [] None None None None None).

End Demo2.

(** The rig with every mesh that takes part in the run, the guide and the
    hooks hidden; the sample is not touched. *)
Definition hideRig (r : Rig) : Rig :=
  mkRig (map (option_map (set_visible false)) (screwMeshes r))
        (option_map (set_visible false) (baseTrim r))
        (option_map (set_visible false) (fillerTransform r))
        (option_map (set_visible false) (guide2mm r))
        (option_map (set_visible false) (hooks r))
        (sampleModel r).

(** ** Animation: [Easing], [Tween] and [TWEEN] *)

Module Easing.
Module Cubic.

(** [t => --t * t * t + 1]: [t] is decremented first. *)
Definition Out (t : R) : R :=
  let t := (t - 1)%R in (t * t * t + 1)%R.

Definition InOut (t : R) : R :=
  if Rlt_dec t 0.5 then (4 * t * t * t)%R
  else ((t - 1) * (2 * t - 2) * (2 * t - 2) + 1)%R.

End Cubic.
End Easing.

(** A property of an animated object: a number, or [NaN], which is what
    the interpolation gives on a start value that is missing or [NaN]. *)
Inductive Num : Type :=
| Finite (r : R)
| NaN.

Section Tweens.

(** What the callbacks act on (in [setCameraView] and in the handler of
    the pole views: the cameras and the orbit target). The closures given to [onUpdate] read the animated
    object, which they share with the tween: a callback gets it as its
    first argument. No callback of [main.js] touches [TWEEN.tweens] or a
    tween. *)
Variable Scene : Type.

(** A [Tween]. [duration] is never zero in [main.js] (300, 500 or 800, and
    1000 by default); the division below is the one of the reals. *)
Record Tween : Type := mkTween {
  target : gmap string Num;
  toValues : gmap string R;
  duration : R;
  easingFunction : R -> R;
  startTime : R;
  startValues : gmap string Num;
  onUpdateCallback : option (gmap string Num -> R -> Scene -> Scene);
  onCompleteCallback : option (Scene -> Scene)
}.

(** [new Tween(target)]. [startValues] is not set before [start]; [update]
    does not read it before either. *)
Definition Tween_new (target : gmap string Num) : Tween :=
  mkTween target ∅ 1000 (fun t => t) (* Linear default *) (-1) ∅ None None.

Definition Tween_to (values : gmap string R) (duration : R) (this : Tween) : Tween :=
  mkTween (target this) values duration (easingFunction this) (startTime this)
          (startValues this) (onUpdateCallback this) (onCompleteCallback this).

Definition Tween_easing (easingFunction : R -> R) (this : Tween) : Tween :=
  mkTween (target this) (toValues this) (duration this) easingFunction (startTime this)
          (startValues this) (onUpdateCallback this) (onCompleteCallback this).

Definition Tween_onUpdate (callback : gmap string Num -> R -> Scene -> Scene)
    (this : Tween) : Tween :=
  mkTween (target this) (toValues this) (duration this) (easingFunction this)
          (startTime this) (startValues this) (Some callback) (onCompleteCallback this).

Definition Tween_onComplete (callback : Scene -> Scene) (this : Tween) : Tween :=
  mkTween (target this) (toValues this) (duration this) (easingFunction this)
          (startTime this) (startValues this) (onUpdateCallback this) (Some callback).

(** [TWEEN.add]. *)
Definition TWEEN_add (tween : Tween) (tweens : list Tween) : list Tween :=
  (tweens ++ [tween])%list.

(** [start()], with [now] for [performance.now()]: the start values are
    the target's properties under the keys of [toValues] (a key the target
    lacks has none). Returns the tween and [TWEEN.tweens]. *)
Definition Tween_start (now : R) (this : Tween) (tweens : list Tween)
  : Tween * list Tween :=
  let this :=
    mkTween (target this) (toValues this) (duration this) (easingFunction this) now
            (map_imap (fun key _ => target this !! key) (toValues this))
            (onUpdateCallback this) (onCompleteCallback this) in
  (this, TWEEN_add this tweens).

(** [startValues[key] + (toValues[key] - startValues[key]) * value], over
    the reals: the program rounds each operation in doubles, so that at
    value 1 its result is [to] only up to rounding. *)
Definition interpolate (start : option Num) (to : R) (value : R) : Num :=
  match start with
  | Some (Finite from) => Finite (from + (to - from) * value)
  | Some NaN | None => NaN
  end.

(** The loop [for (const key in this.toValues) this.target[key] = ...]:
    the keys of [toValues] get their interpolated value, the other
    properties of the target stay. *)
Definition animate (this : Tween) (value : R) : gmap string Num :=
  map_imap (fun key to => Some (interpolate (startValues this !! key) to value))
           (toValues this)
  ∪ target this.

(** [update(time)]: whether the tween goes on, the tween, the scene. *)
Definition Tween_update (time : R) (this : Tween) (scene : Scene)
  : bool * Tween * Scene :=
  if Req_dec_T (startTime this) (-1) then (true, this, scene)
  else
    let elapsed := (time - startTime this)%R in
    let progress := Rmin (elapsed / duration this) 1 in
    let value := easingFunction this progress in
    let this :=
      mkTween (animate this value) (toValues this) (duration this) (easingFunction this)
              (startTime this) (startValues this) (onUpdateCallback this)
              (onCompleteCallback this) in
    let scene := match onUpdateCallback this with
                 | Some callback => callback (target this) value scene
                 | None => scene
                 end in
    if Req_dec_T progress 1 then
      (false, this,
       match onCompleteCallback this with
       | Some callback => callback scene
       | None => scene
       end)
    else (true, this, scene).

(** The loop of [TWEEN.update] from index [i]: every turn takes one unit
    of [fuel]. [splice(i, 1); i--] is followed by the [i++] of the loop. *)
Fixpoint TWEEN_update_from (fuel : nat) (time : R) (i : Z) (tweens : list Tween)
    (scene : Scene) : option (list Tween * Scene) :=
  if (i <? Z.of_nat (length tweens))%Z then
    match fuel with
    | O => None
    | S fuel =>
        match tweens !! Z.to_nat i with
        | None => None
        | Some tween =>
            let '(alive, tween, scene) := Tween_update time tween scene in
            let tweens := <[Z.to_nat i := tween]> tweens in
            if alive then TWEEN_update_from fuel time (i + 1) tweens scene
            else
              let tweens := delete (Z.to_nat i) tweens in
              let i := (i - 1)%Z in
              TWEEN_update_from fuel time (i + 1) tweens scene
        end
    end
  else Some (tweens, scene).

(** [TWEEN.update(time)]. *)
Definition TWEEN_update (time : R) (tweens : list Tween) (scene : Scene)
  : option (list Tween * Scene) :=
  TWEEN_update_from (length tweens) time 0 tweens scene.

(** One pass over the list: every tween updated once, in order, on the
    scene left by the one before; those that report completion dropped. *)
Fixpoint onePass (time : R) (tweens : list Tween) (scene : Scene)
  : list Tween * Scene :=
  match tweens with
  | [] => ([], scene)
  | tween :: rest =>
      let '(alive, tween, scene) := Tween_update time tween scene in
      let '(rest, scene) := onePass time rest scene in
      (if alive then tween :: rest else rest, scene)
  end.

End Tweens.

Arguments mkTween {Scene}.
Arguments target {Scene}.
Arguments toValues {Scene}.
Arguments duration {Scene}.
Arguments easingFunction {Scene}.
Arguments startTime {Scene}.
Arguments startValues {Scene}.
Arguments onUpdateCallback {Scene}.
Arguments onCompleteCallback {Scene}.
Arguments Tween_new {Scene}.
Arguments Tween_to {Scene}.
Arguments Tween_easing {Scene}.
Arguments Tween_onUpdate {Scene}.
Arguments Tween_onComplete {Scene}.
Arguments TWEEN_add {Scene}.
Arguments Tween_start {Scene}.
Arguments animate {Scene}.
Arguments Tween_update {Scene}.
Arguments TWEEN_update_from {Scene}.
Arguments TWEEN_update {Scene}.
Arguments onePass {Scene}.

(** ** Camera views *)

(** The two cameras and the orbit controls, as far as positions go: the
    orientation that [lookAt] sets and the projection matrices are left
    out. [activeCamera], [controls.object] and [transformControls.camera]
    are [orthoCamera] when [isOrthoView] and [camera] otherwise: the code
    assigns them together. *)
Record Cameras : Type := mkCameras {
  camera_position : Vec3;
  camera_up : Vec3;
  camera_zoom : R;
  orthoCamera_position : Vec3;
  orthoCamera_up : Vec3;
  orthoCamera_zoom : R;
  controls_target : Vec3;
  controls_enableRotate : bool;
  isOrthoView : bool;
  lastPerspectivePos : option Vec3    (* [state.lastPerspectivePos] *)
}.

Definition activeCamera_position (c : Cameras) : Vec3 :=
  if isOrthoView c then orthoCamera_position c else camera_position c.
Definition activeCamera_up (c : Cameras) : Vec3 :=
  if isOrthoView c then orthoCamera_up c else camera_up c.
Definition activeCamera_zoom (c : Cameras) : R :=
  if isOrthoView c then orthoCamera_zoom c else camera_zoom c.

Definition set_camera_position (p : Vec3) (c : Cameras) : Cameras :=
  mkCameras p (camera_up c) (camera_zoom c) (orthoCamera_position c) (orthoCamera_up c)
            (orthoCamera_zoom c) (controls_target c) (controls_enableRotate c)
            (isOrthoView c) (lastPerspectivePos c).
Definition set_camera_up (u : Vec3) (c : Cameras) : Cameras :=
  mkCameras (camera_position c) u (camera_zoom c) (orthoCamera_position c)
            (orthoCamera_up c) (orthoCamera_zoom c) (controls_target c)
            (controls_enableRotate c) (isOrthoView c) (lastPerspectivePos c).
Definition set_orthoCamera_position (p : Vec3) (c : Cameras) : Cameras :=
  mkCameras (camera_position c) (camera_up c) (camera_zoom c) p (orthoCamera_up c)
            (orthoCamera_zoom c) (controls_target c) (controls_enableRotate c)
            (isOrthoView c) (lastPerspectivePos c).
Definition set_orthoCamera_up (u : Vec3) (c : Cameras) : Cameras :=
  mkCameras (camera_position c) (camera_up c) (camera_zoom c) (orthoCamera_position c) u
            (orthoCamera_zoom c) (controls_target c) (controls_enableRotate c)
            (isOrthoView c) (lastPerspectivePos c).
Definition set_orthoCamera_zoom (z : R) (c : Cameras) : Cameras :=
  mkCameras (camera_position c) (camera_up c) (camera_zoom c) (orthoCamera_position c)
            (orthoCamera_up c) z (controls_target c) (controls_enableRotate c)
            (isOrthoView c) (lastPerspectivePos c).
Definition set_controls_target (p : Vec3) (c : Cameras) : Cameras :=
  mkCameras (camera_position c) (camera_up c) (camera_zoom c) (orthoCamera_position c)
            (orthoCamera_up c) (orthoCamera_zoom c) p (controls_enableRotate c)
            (isOrthoView c) (lastPerspectivePos c).
Definition set_activeCamera_position (p : Vec3) (c : Cameras) : Cameras :=
  if isOrthoView c then set_orthoCamera_position p c else set_camera_position p c.
Definition set_activeCamera_up (u : Vec3) (c : Cameras) : Cameras :=
  if isOrthoView c then set_orthoCamera_up u c else set_camera_up u c.

Definition setActiveCamera (toOrtho : bool) (c : Cameras) : Cameras :=
  if Bool.eqb toOrtho (isOrthoView c) then c
  else
    mkCameras (camera_position c) (camera_up c) (camera_zoom c) (orthoCamera_position c)
              (orthoCamera_up c) (orthoCamera_zoom c) (controls_target c) true
              toOrtho (lastPerspectivePos c).

(** A property of the animated object read as a number. The object that
    [setCameraView] animates holds a number under each of its seven keys;
    the other case does not occur there. *)
Definition numberOf (v : option Num) : R :=
  match v with
  | Some (Finite r) => r
  | Some NaN | None => 0%R
  end.

Section CameraViews.

(** [controls.update()] of the orbit controls. *)
Variable controls_update : Cameras -> Cameras.

(** The end position and the up vector of a view other than '3d': the
    [switch] of [setCameraView]; no case assigns for an unknown view. *)
Definition viewEnd (view : string) (endTarget : Vec3) : Vec3 * Vec3 :=
  let dist := 100%R in
  let '(tx, ty, tz) := endTarget in
  if String.eqb view "front" then ((tx, ty, tz + dist), (0, 1, 0))%R
  else if String.eqb view "back" then ((tx, ty, tz - dist), (0, 1, 0))%R
  else if String.eqb view "left" then ((tx - dist, ty, tz), (0, 1, 0))%R
  else if String.eqb view "right" then ((tx + dist, ty, tz), (0, 1, 0))%R
  else if String.eqb view "top" then ((tx, ty + dist, tz + 0.01), (0, 0, -1))%R
  else if String.eqb view "bottom" then ((tx, ty - dist, tz + 0.01), (0, 0, 1))%R
  else ((0, 0, 0), (0, 1, 0))%R.

(** [setCameraView(view)], with [now] for [performance.now()] in [start]:
    the cameras and [TWEEN.tweens]. *)
Definition setCameraView (view : string) (now : R) (c : Cameras)
    (tweens : list (Tween Cameras)) : Cameras * list (Tween Cameras) :=
  (* We want to animate from current state to new state *)
  let currentPos := activeCamera_position c in
  let currentTarget := controls_target c in
  let currentZoom := activeCamera_zoom c in
  (* Determine end state *)
  let endTarget := currentTarget in
  let '(endPos, endUp, isNewOrtho) :=
    if String.eqb view "3d" then
      (* Restore last perspective pos or default *)
      (match lastPerspectivePos c with
       | Some p => p
       | None =>
           let '(tx, ty, tz) := currentTarget in (tx + 100, ty + 100, tz + 100)%R
       end, (0, 1, 0)%R, false)
    else
      let '(endPos, endUp) := viewEnd view endTarget in (endPos, endUp, true) in
  let endZoom := 1%R in
  (* Animation values *)
  let anim : gmap string Num :=
    let '(x, y, z) := currentPos in
    let '(tx, ty, tz) := currentTarget in
    <["x" := Finite x]> (<["y" := Finite y]> (<["z" := Finite z]>
      (<["tx" := Finite tx]> (<["ty" := Finite ty]> (<["tz" := Finite tz]>
        (<["zoom" := Finite currentZoom]> ∅)))))) in
  let targetAnim : gmap string R :=
    let '(x, y, z) := endPos in
    let '(tx, ty, tz) := endTarget in
    <["x" := x]> (<["y" := y]> (<["z" := z]>
      (<["tx" := tx]> (<["ty" := ty]> (<["tz" := tz]>
        (<["zoom" := endZoom]> ∅)))))) in
  let position_of (anim : gmap string Num) : Vec3 :=
    (numberOf (anim !! "x"), numberOf (anim !! "y"), numberOf (anim !! "z")) in
  let target_of (anim : gmap string Num) : Vec3 :=
    (numberOf (anim !! "tx"), numberOf (anim !! "ty"), numberOf (anim !! "tz")) in
  if negb (Bool.eqb isNewOrtho (isOrthoView c)) then
    (* Mode change *)
    if isNewOrtho then
      (* Perspective -> Ortho *)
      let c := setActiveCamera false c in (* Use perspective for animation *)
      let tween :=
        (Tween_onComplete
           (fun c =>
              (* Switch to Ortho *)
              let c := setActiveCamera true c in
              let c := set_orthoCamera_position endPos c in
              let c := set_orthoCamera_up endUp c in
              let c := set_orthoCamera_zoom 1 c in
              controls_update c)
           (Tween_onUpdate
              (fun anim _ c =>
                 set_controls_target (target_of anim)
                   (set_camera_position (position_of anim) c))
              (Tween_easing Easing.Cubic.InOut
                 (Tween_to targetAnim 500 (Tween_new anim))))) in
      (c, snd (Tween_start now tween tweens))
    else
      (* Ortho -> Perspective *)
      let c := setActiveCamera false c in (* Switch to perspective *)
      (* Reset UP vector *)
      let c := set_camera_up (0, 1, 0)%R c in
      let tween :=
        (Tween_onUpdate
           (fun anim _ c =>
              set_controls_target (target_of anim)
                (set_camera_position (position_of anim) c))
           (Tween_easing Easing.Cubic.InOut
              (Tween_to targetAnim 800 (Tween_new anim)))) in
      (c, snd (Tween_start now tween tweens))
  else
    (* Same mode (Ortho->Ortho or Persp->Persp [3d reset]): just animate *)
    let tween :=
      (Tween_onUpdate
         (fun anim _ c =>
            let c := set_activeCamera_position (position_of anim) c in
            let c := set_controls_target (target_of anim) c in
            if isNewOrtho then set_activeCamera_up endUp c else c)
         (Tween_easing Easing.Cubic.InOut
            (Tween_to targetAnim 500 (Tween_new anim)))) in
    (c, snd (Tween_start now tween tweens)).

(** [Vector3.subVectors], [Vector3.length] and [Vector3.lerpVectors]
    ([v1 + (v2 - v1) * alpha] on each axis), over the reals: the program
    rounds each operation in doubles, so that at alpha 1 its result is
    [v2] only up to rounding. *)
Definition subVectors (a b : Vec3) : Vec3 :=
  let '(ax, ay, az) := a in
  let '(bx, by_, bz) := b in
  (ax - bx, ay - by_, az - bz)%R.

Definition Vector3_length (v : Vec3) : R :=
  let '(x, y, z) := v in sqrt (x * x + y * y + z * z).

Definition lerpVectors (v1 v2 : Vec3) (alpha : R) : Vec3 :=
  let '(x1, y1, z1) := v1 in
  let '(x2, y2, z2) := v2 in
  (x1 + (x2 - x1) * alpha, y1 + (y2 - y1) * alpha, z1 + (z2 - z1) * alpha)%R.

(** The position the handler below animates to: about 45 degrees above or
    below the target, at 0.7 times the present distance on each axis. *)
Definition poleExit (c : Cameras) : Vec3 :=
  let '(_, py, _) := activeCamera_position c in
  let '(tx, ty, tz) := controls_target c in
  (* Store current camera Y position to determine if we were in Top or Bottom view *)
  let wasTopView := if Rgt_dec py ty then true else false in
  (* Calculate target position for perspective camera *)
  let targetToCamera := subVectors (activeCamera_position c) (controls_target c) in
  let distance := Vector3_length targetToCamera in
  (* Position camera at ~45 degrees from top/bottom *)
  let newY := if wasTopView then (distance * 0.7)%R else (- distance * 0.7)%R in
  let horizontalDist := (distance * 0.7)%R in
  (tx + horizontalDist, ty + newY, tz + horizontalDist)%R.

(** The [mousedown] handler of the canvas that leaves a Top or Bottom
    view, for a click with [button]. Stopping the event is left out. *)
Definition poleView_mousedown (button : Z) (now : R) (c : Cameras)
    (tweens : list (Tween Cameras)) : Cameras * list (Tween Cameras) :=
  (* Only handle left-click (button 0) which is used for rotation *)
  if negb (button =? 0)%Z then (c, tweens)
  else
    (* Check if we're in a Top/Bottom view (non-standard up vector) *)
    let '(_, upY, _) := activeCamera_up c in
    if Rlt_dec (Rabs upY) 0.1 then
      let endPos := poleExit c in
      (* Reset up vectors immediately *)
      let c := set_camera_up (0, 1, 0)%R c in
      let c := set_orthoCamera_up (0, 1, 0)%R c in
      (* Switch to perspective *)
      let c :=
        if isOrthoView c then
          setActiveCamera false (set_camera_position (activeCamera_position c) c)
        else c in
      (* Animate to the new position *)
      let startPos := camera_position c in
      let anim : gmap string Num := {["t" := Finite 0]} in
      let tween :=
        Tween_onComplete controls_update
          (Tween_onUpdate
             (fun anim _ c =>
                set_camera_position (lerpVectors startPos endPos (numberOf (anim !! "t"))) c)
             (Tween_easing Easing.Cubic.Out
                (Tween_to {["t" := 1%R]} 300 (Tween_new anim)))) in
      (c, snd (Tween_start now tween tweens))
    else (c, tweens).

End CameraViews.

(** ** Loading the rig template *)

(** Mesh names are taken as ASCII strings, as those of the rig file are.
    [toLowerCase] is then the lowering of the letters A to Z; on letters
    outside ASCII JavaScript does more (it lowers the Kelvin sign to k),
    and the statements about names below are for ASCII names only. *)
Definition isAscii (s : string) : bool :=
  forallb (fun c => (Ascii.nat_of_ascii c <? 128)%nat) (list_ascii_of_string s).

Definition toLowerCase_char (c : Ascii.ascii) : Ascii.ascii :=
  let n := Ascii.nat_of_ascii c in
  if ((65 <=? n) && (n <=? 90))%nat then Ascii.ascii_of_nat (n + 32) else c.

Fixpoint toLowerCase (s : string) : string :=
  match s with
  | EmptyString => EmptyString
  | String c rest => String (toLowerCase_char c) (toLowerCase rest)
  end.

(** [s.startsWith(searchString)] and [s.includes(searchString)]. *)
Definition startsWith (s searchString : string) : bool := String.prefix searchString s.

Fixpoint includes (s searchString : string) : bool :=
  String.prefix searchString s
  || match s with
     | EmptyString => false
     | String _ rest => includes rest searchString
     end.

Definition set_sampleModel (m : option Mesh) (r : Rig) : Rig :=
  mkRig (screwMeshes r) (baseTrim r) (fillerTransform r) (guide2mm r) (hooks r) m.

(** [state.rig] with [state.originalFillerPosition] and
    [state.originalFillerScale]. *)
Record RigState : Type := mkRigState {
  loadedRig : Rig;
  originalFillerPosition : Vec3;
  originalFillerScale : Vec3
}.

(** The initial value of these fields of [state]. *)
Definition initialRigState : RigState :=
  mkRigState (mkRig [] None None None None None) (0, 0, 0)%R (1, 1, 1)%R.

Section RigTemplate.

(** [new THREE.EdgesGeometry(geometry)] of three.js, given what
    [child.geometry] holds: the edges, or the error it throws (it reads the
    position buffer of the geometry). *)
Variable EdgesGeometry : option BufferGeometry -> JsError + BufferGeometry.

(** The callback of [gltf.scene.traverse] on a child that is a mesh, with
    the store [h] of the geometries of the file: the error thrown, if any,
    the child as the callback leaves it, and the state. Materials are left
    out, and so is the line object that holds the edges of the hooks. *)
Definition loadRigTemplate_visit (h : gmap loc BufferGeometry) (child : Mesh)
    (st : RigState) : option JsError * Mesh * RigState :=
  let lowered := toLowerCase (name child) in
  if includes lowered "base" && includes lowered "trim" then
    let child := set_visible true child in
    (None, child, mkRigState (set_baseTrim (Some child) (loadedRig st))
                             (originalFillerPosition st) (originalFillerScale st))
  else if includes lowered "filler" then
    let child := set_visible true child in
    (None, child, mkRigState (set_fillerTransform (Some child) (loadedRig st))
                             (position child) (scale child))
  else if includes lowered "guide" || includes lowered "2mm" then
    let child := set_visible true child in
    (None, child, mkRigState (set_guide2mm (Some child) (loadedRig st))
                             (originalFillerPosition st) (originalFillerScale st))
  else if includes lowered "hook" then
    (* [state.rig.hooks = child] comes first *)
    match EdgesGeometry (geometry child ≫= fun l => h !! l) with
    | inl error =>
        (* thrown: the rest of the branch does not run *)
        (Some error, child,
         mkRigState (set_hooks (Some child) (loadedRig st))
                    (originalFillerPosition st) (originalFillerScale st))
    | inr _ =>
        let child := set_visible true child in
        (None, child, mkRigState (set_hooks (Some child) (loadedRig st))
                                 (originalFillerPosition st) (originalFillerScale st))
    end
  else if includes lowered "sample"
          || (includes lowered "sample" && includes lowered "model") then
    (* Hide sample, will be replaced by user's scan *)
    let child := set_visible false child in
    (None, child, mkRigState (set_sampleModel (Some child) (loadedRig st))
                             (originalFillerPosition st) (originalFillerScale st))
  else if startsWith lowered "ant_" || startsWith lowered "l_"
          || startsWith lowered "r_" then
    (* Screw components: Ant_Top, Ant_Body, L_Top, L_Body, R_Top, R_Body *)
    let child := set_visible true child in
    (None, child,
     mkRigState (set_screwMeshes (screwMeshes (loadedRig st) ++ [Some child])
                                 (loadedRig st))
                (originalFillerPosition st) (originalFillerScale st))
  else if includes lowered "original" then
    (* Hide original collection *)
    (None, set_visible false child, st)
  else
    (* Hide other meshes *)
    (None, set_visible false child, st).

(** [gltf.scene.traverse] over the meshes of the file, in the order of the
    traversal: an error thrown by the callback ends it, and the meshes
    after that one are not visited. *)
Fixpoint loadRigTemplate_traverse (h : gmap loc BufferGeometry) (meshes : list Mesh)
    (st : RigState) : option JsError * list Mesh * RigState :=
  match meshes with
  | [] => (None, [], st)
  | child :: rest =>
      match loadRigTemplate_visit h child st with
      | (Some error, child, st) => (Some error, child :: rest, st)
      | (None, child, st) =>
          let '(thrown, rest, st) := loadRigTemplate_traverse h rest st in
          (thrown, child :: rest, st)
      end
  end.

(** The state a traversal without error leaves: the callback's, mesh after
    mesh. *)
Definition visited (h : gmap loc BufferGeometry) (meshes : list Mesh) (st : RigState) : RigState :=
  fold_left (fun st child => snd (loadRigTemplate_visit h child st)) meshes st.

(** The meshes taken for the hooks, and those of them whose edges
    [EdgesGeometry] builds without throwing. *)
Definition hookName (n : string) : bool :=
  let n := toLowerCase n in
  negb (includes n "base" && includes n "trim")
  && negb (includes n "filler")
  && negb (includes n "guide") && negb (includes n "2mm")
  && includes n "hook".

Definition edgesBuilt (h : gmap loc BufferGeometry) (child : Mesh) : Prop :=
  hookName (name child) = true ->
  exists edges, EdgesGeometry (geometry child ≫= fun l => h !! l) = inr edges.

End RigTemplate.

(** The names taken for a screw component: one of the three prefixes, and
    none of the words that give a mesh another role. *)
Definition screwName (n : string) : bool :=
  let n := toLowerCase n in
  (startsWith n "ant_" || startsWith n "l_" || startsWith n "r_")
  && negb (includes n "base" && includes n "trim")
  && negb (includes n "filler")
  && negb (includes n "guide") && negb (includes n "2mm")
  && negb (includes n "hook")
  && negb (includes n "sample").

(** The names taken for the arch filler. *)
Definition fillerName (n : string) : bool :=
  let n := toLowerCase n in
  negb (includes n "base" && includes n "trim") && includes n "filler".

(** The meshes shown after loading: those with a role, the sample apart. *)
Definition shownName (n : string) : bool :=
  let n := toLowerCase n in
  (includes n "base" && includes n "trim")
  || includes n "filler" || includes n "guide" || includes n "2mm" || includes n "hook"
  || (negb (includes n "sample")
      && (startsWith n "ant_" || startsWith n "l_" || startsWith n "r_")).

(** ** Example tweens and meshes *)

Module Demo3.

(** A tween as [setCameraView] builds them, on an object with a property
    that is animated and one that is not. *)
Definition tween : Tween unit :=
  Tween_easing Easing.Cubic.InOut
    (Tween_to {["x" := 10%R]} 500
       (Tween_new {["x" := Finite 0; "zoom" := Finite 2]})).

(** The same, half-way. *)
Definition running : Tween unit :=
  mkTween {["x" := Finite 0; "zoom" := Finite 2]} {["x" := 10%R]} 500
          Easing.Cubic.InOut 0 {["x" := Finite 0]} None None.

(** Meshes of a rig file, in traversal order. *)
Definition meshes : list Mesh :=
  [Demo.mesh "Base_Trim" 4%nat; Demo.mesh "Arch_Filler_Old" 1%nat;
   Demo.mesh "Ant_Top" 2%nat; Demo.mesh "Sample_Model" 0%nat;
   Demo.mesh "L_Hook" 2%nat; Demo.mesh "Arch_Filler" 1%nat;
   Demo.mesh "R_Body" 3%nat; Demo.mesh "Plate" 0%nat].

(** An edge constructor that throws on a geometry without position
    buffer and returns the geometry otherwise. *)
Definition edges (g : option BufferGeometry) : JsError + BufferGeometry :=
  match g with
  | Some g =>
      match attributes_position g with
      | Some _ => inr g
      | None => inl (TypeError "count")
      end
  | None => inr (mkGeometry None None None None)
  end.

(** The perspective camera in use, looking at the origin. *)
Definition cameras : Cameras :=
  mkCameras (100, 100, 100)%R (0, 1, 0)%R 1 (0, 0, 100)%R (0, 1, 0)%R 1 (0, 0, 0)%R
            true false None.

(** The orthographic camera in use, in the Top view. *)
Definition topView : Cameras :=
  mkCameras (100, 100, 100)%R (0, 1, 0)%R 1 (0, 100, 0.01)%R (0, 0, -1)%R 1 (0, 0, 0)%R
            true true None.

End Demo3.
(** * Properties *)

(** ** The normalizer *)

Section NormalizerFacts.
Context `{ThreeLibrary}.

Lemma set_heap_set_heap h1 h2 w : set_heap h2 (set_heap h1 w) = set_heap h2 w.
Proof. reflexivity. Qed.

Lemma fresh_not_allocated (h : gmap loc BufferGeometry) : h !! fresh (dom h) = None.
Proof. apply not_elem_of_dom, is_fresh. Qed.

Lemma allocated_not_fresh (h : gmap loc BufferGeometry) l g :
  h !! l = Some g -> l <> fresh (dom h).
Proof. intros Hl ->. rewrite fresh_not_allocated in Hl. discriminate. Qed.

(** What [prepareGeometryForCSG] returns and the store it leaves: one new
    object, holding [prepared g]; [null] exactly when [g] has no positions. *)
Lemma prepareGeometryForCSG_eq l nm w g :
  heap w !! l = Some g ->
  prepareGeometryForCSG l nm w =
    (Returned (match attributes_position g with
               | Some _ => Some (fresh (dom (heap w)))
               | None => None
               end),
     set_heap (<[fresh (dom (heap w)) := prepared g]> (heap w)) w).
Proof.
  intros Hl.
  unfold prepareGeometryForCSG, bind, clone, allocGeometry. rewrite Hl.
  unfold readGeometry at 1. cbn [heap set_heap]. rewrite lookup_insert_eq.
  unfold prepared.
  destruct g as [[pos|] nrm uvs idx]; cbn [attributes_position]; [|reflexivity].
  destruct idx as [idx|], nrm as [nrm|], uvs as [uvs|];
    cbn [index attributes_normal attributes_uv isNone when ret];
    unfold updateGeometry, readGeometry;
    repeat (cbn [heap set_heap index attributes_normal attributes_uv attributes_position
                 isNone when ret Geometry.setIndex Geometry.computeVertexNormals
                 Geometry.setAttribute_uv];
            rewrite ?lookup_insert_eq, ?set_heap_set_heap, ?insert_insert_eq);
    reflexivity.
Qed.

Lemma lookup_repeat {A} (x : A) (n i : nat) : i < n -> repeat x n !! i = Some x.
Proof.
  revert i. induction n as [|n IH]; intros i Hi; [lia|].
  destruct i as [|i]; [reflexivity|]. cbn. apply IH. lia.
Qed.

End NormalizerFacts.

Section NormalizerClaims.
Context `{ThreeLibrary}.

(** C8. [prepareGeometryForCSG] returns [null] exactly when the input
    geometry has no position buffer, and otherwise returns a geometry; it
    never throws on a geometry. In every case each object that was in the
    store, the input among them, holds the value it held before, and a
    returned geometry is a new object, distinct from the input; meshes,
    page and disposal marks are as before. *)
Theorem prepareGeometryForCSG_null_iff_no_position
    (l : loc) (nm : string) (w : World) (g : BufferGeometry) :
  heap w !! l = Some g ->
  exists (result : option loc) (w' : World),
    prepareGeometryForCSG l nm w = (Returned result, w')
    /\ (result = None <-> attributes_position g = None)
    /\ (forall l0 g0, heap w !! l0 = Some g0 -> heap w' !! l0 = Some g0)
    /\ heap w' !! l = Some g
    /\ (forall l', result = Some l' ->
          heap w !! l' = None /\ l' <> l /\ is_Some (heap w' !! l'))
    /\ state w' = state w /\ ui w' = ui w /\ disposed w' = disposed w.
Proof.
  intros Hl.
  eexists _, _. split; [apply (prepareGeometryForCSG_eq l nm w g Hl)|].
  cbn [heap set_heap state ui disposed].
  assert (Hpres : forall l0 g0, heap w !! l0 = Some g0 ->
            <[fresh (dom (heap w)) := prepared g]> (heap w) !! l0 = Some g0).
  { intros l0 g0 H0. rewrite lookup_insert_ne; [exact H0|].
    intros E. apply (allocated_not_fresh _ _ _ H0). symmetry; exact E. }
  repeat split; auto.
  - destruct (attributes_position g); [discriminate|reflexivity].
  - intros E. rewrite E. reflexivity.
  - destruct (attributes_position g); [|discriminate].
    injection H0 as <-. apply fresh_not_allocated.
  - destruct (attributes_position g); [|discriminate].
    injection H0 as <-. intros E. symmetry in E. revert E. apply (allocated_not_fresh _ _ _ Hl).
  - destruct (attributes_position g); [|discriminate].
    injection H0 as <-. rewrite lookup_insert_eq. eauto.
Qed.

(** C9. When the input has positions [pos], [prepareGeometryForCSG] returns
    a geometry with the same positions in which: a missing index has become
    the identity index of length [length pos] (entry [i] is [i]); missing
    normals are the vertex normals computed from the resulting index and
    the positions; a missing UV attribute is [length pos] pairs of zeros.
    An index, normals or UVs that were present are kept. *)
Theorem prepareGeometryForCSG_fills_missing
    (l : loc) (nm : string) (w : World) (g : BufferGeometry) (pos : list Vec3) :
  heap w !! l = Some g ->
  attributes_position g = Some pos ->
  exists (l' : loc) (g' : BufferGeometry) (w' : World),
    prepareGeometryForCSG l nm w = (Returned (Some l'), w')
    /\ heap w' !! l' = Some g'
    /\ attributes_position g' = Some pos
    /\ (index g = None ->
          exists idx, index g' = Some idx /\ length idx = length pos
                      /\ forall i, i < length pos -> idx !! i = Some i)
    /\ (attributes_normal g = None ->
          attributes_normal g' = Some (vertexNormals (index g') pos))
    /\ (attributes_uv g = None ->
          exists uvs, attributes_uv g' = Some uvs /\ length uvs = length pos
                      /\ forall i, i < length pos -> uvs !! i = Some (0%R, 0%R))
    /\ (forall idx, index g = Some idx -> index g' = Some idx)
    /\ (forall n, attributes_normal g = Some n -> attributes_normal g' = Some n)
    /\ (forall u, attributes_uv g = Some u -> attributes_uv g' = Some u).
Proof.
  intros Hl Hpos.
  exists (fresh (dom (heap w))), (prepared g), (set_heap (<[fresh (dom (heap w)) := prepared g]> (heap w)) w).
  split. { rewrite (prepareGeometryForCSG_eq l nm w g Hl), Hpos. reflexivity. }
  split. { cbn [heap set_heap]. apply lookup_insert_eq. }
  unfold prepared. rewrite Hpos.
  cbn [attributes_position attributes_normal attributes_uv index].
  repeat split.
  - intros ->. eexists. split; [reflexivity|]. split; [apply length_seq|].
    intros i Hi. apply lookup_seq. split; [reflexivity|exact Hi].
  - intros ->. reflexivity.
  - intros ->. eexists. split; [reflexivity|]. split; [apply repeat_length|].
    intros i Hi. apply lookup_repeat. exact Hi.
  - intros idx ->. reflexivity.
  - intros n ->. reflexivity.
  - intros u ->. reflexivity.
Qed.

End NormalizerClaims.


(** ** The boolean steps *)

Section PipelineFacts.
Context `{ThreeLibrary}.

Lemma bind_returned {A B} (c : Js A) (k : A -> Js B) w a w' :
  c w = (Returned a, w') -> bind c k w = k a w'.
Proof. intros E. unfold bind. rewrite E. reflexivity. Qed.

Lemma bind_thrown {A B} (c : Js A) (k : A -> Js B) w e w' :
  c w = (Thrown e, w') -> bind c k w = (Thrown e, w').
Proof. intros E. unfold bind. rewrite E. reflexivity. Qed.

Lemma grown_refl w : grown w w.
Proof. exists (heap w). split; [destruct w; reflexivity|reflexivity]. Qed.

Lemma grown_trans w1 w2 w3 : grown w1 w2 -> grown w2 w3 -> grown w1 w3.
Proof.
  intros (h2 & -> & S2) (h3 & -> & S3). exists h3. split; [reflexivity|].
  cbn [heap set_heap] in S3. etransitivity; eassumption.
Qed.

Lemma grown_alloc w g : grown w (set_heap (<[fresh (dom (heap w)) := g]> (heap w)) w).
Proof.
  eexists. split; [reflexivity|]. apply insert_subseteq, fresh_not_allocated.
Qed.

Lemma grown_lookup w w' l g : grown w w' -> heap w !! l = Some g -> heap w' !! l = Some g.
Proof. intros (h' & -> & S) Hl. cbn [heap set_heap]. eapply lookup_weaken; eassumption. Qed.

Lemma grown_state w w' : grown w w' -> state w' = state w.
Proof. intros (h' & -> & _). reflexivity. Qed.

Lemma grown_disposed w w' : grown w w' -> disposed w' = disposed w.
Proof. intros (h' & -> & _). reflexivity. Qed.

Lemma allocated_grown w w' mesh :
  grown w w' -> allocated (heap w) mesh -> allocated (heap w') mesh.
Proof.
  intros G. unfold allocated. destruct mesh as [m|]; [|trivial].
  destruct (geometry m) as [l|]; [|trivial].
  intros [g Hg]. exists g. eapply grown_lookup; eassumption.
Qed.

Lemma operandOf_grown w w' mesh :
  grown w w' -> allocated (heap w) mesh -> operandOf (heap w') mesh = operandOf (heap w) mesh.
Proof.
  intros G. unfold allocated, operandOf. destruct mesh as [m|]; [|reflexivity].
  destruct (geometry m) as [l|]; [|reflexivity].
  intros [g Hg]. rewrite Hg, (grown_lookup _ _ _ _ G Hg). reflexivity.
Qed.

Lemma updateGeometry_eq f l w g :
  heap w !! l = Some g ->
  updateGeometry f l w = (Returned tt, set_heap (<[l := f g]> (heap w)) w).
Proof. intros Hl. unfold updateGeometry. rewrite Hl. reflexivity. Qed.

Lemma readGeometry_eq l w g : heap w !! l = Some g -> readGeometry l w = (Returned g, w).
Proof. intros Hl. unfold readGeometry. rewrite Hl. reflexivity. Qed.

Lemma evaluate_eq a b op w ga gb :
  heap w !! a = Some ga -> heap w !! b = Some gb ->
  evaluate a b op w =
    match csgEvaluate ga gb op with
    | inl e => (Thrown e, w)
    | inr c => (Returned (fresh (dom (heap w))),
                set_heap (<[fresh (dom (heap w)) := c]> (heap w)) w)
    end.
Proof.
  intros Ha Hb. unfold evaluate.
  rewrite (bind_returned _ _ _ _ _ (readGeometry_eq _ _ _ Ha)).
  rewrite (bind_returned _ _ _ _ _ (readGeometry_eq _ _ _ Hb)).
  destruct (csgEvaluate ga gb op); reflexivity.
Qed.

(** One operand step against its description. *)
Lemma applyOperand_spec mesh label op r w gr :
  heap w !! r = Some gr ->
  allocated (heap w) mesh ->
  exists w', grown w w' /\
    match operandOf (heap w) mesh with
    | None => applyOperand mesh label op r w = (Returned r, w')
    | Some g =>
        match csgEvaluate gr g op with
        | inl e => applyOperand mesh label op r w = (Thrown e, w')
        | inr c => exists r', applyOperand mesh label op r w = (Returned r', w')
                              /\ heap w' !! r' = Some c
        end
    end.
Proof.
  intros Hr Hal. unfold applyOperand, operandOf, allocated in *.
  destruct mesh as [m|]; [|exists w; split; [apply grown_refl|reflexivity]].
  destruct (geometry m) as [mg|]; [|exists w; split; [apply grown_refl|reflexivity]].
  destruct Hal as [g0 Hg0]. rewrite Hg0.
  rewrite (bind_returned _ _ _ _ _ (prepareGeometryForCSG_eq mg (label m) w g0 Hg0)).
  set (f := fresh (dom (heap w))).
  destruct (attributes_position g0) as [pos|] eqn:Hpos.
  2:{ eexists. split; [apply grown_alloc|reflexivity]. }
  set (w1 := set_heap (<[f := prepared g0]> (heap w)) w).
  assert (H1 : heap w1 !! f = Some (prepared g0)) by apply lookup_insert_eq.
  rewrite (bind_returned _ _ _ _ _ (updateGeometry_eq _ _ _ _ H1)).
  subst w1. cbn [heap set_heap]. rewrite set_heap_set_heap, insert_insert_eq.
  set (baked := Geometry.applyMatrix4 (matrixWorld m) (prepared g0)).
  set (w2 := set_heap (<[f := baked]> (heap w)) w).
  assert (G2 : grown w w2) by apply grown_alloc.
  assert (H2r : heap w2 !! r = Some gr) by (eapply grown_lookup; eassumption).
  assert (H2f : heap w2 !! f = Some baked) by apply lookup_insert_eq.
  rewrite (evaluate_eq _ _ _ _ _ _ H2r H2f).
  destruct (csgEvaluate gr baked op) as [e|c].
  - exists w2. split; [exact G2|reflexivity].
  - eexists. split; [eapply grown_trans; [exact G2|apply grown_alloc]|].
    eexists. split; [reflexivity|]. apply lookup_insert_eq.
Qed.

Lemma composeAll_app p1 p2 g :
  composeAll (p1 ++ p2) g =
    match composeAll p1 g with
    | inl e => inl e
    | inr c => composeAll p2 c
    end.
Proof.
  revert g. induction p1 as [|[op o] p1 IH]; intros g; [reflexivity|].
  cbn. destruct (csgEvaluate g o op); [reflexivity|apply IH].
Qed.

Lemma composeAll_step op operand g :
  composeAll (step op operand) g =
    match operand with
    | None => inr g
    | Some o => csgEvaluate g o op
    end.
Proof.
  destruct operand as [o|]; [|reflexivity].
  cbn. destruct (csgEvaluate g o op); reflexivity.
Qed.

(** The loop over the screws against its description. *)
Lemma subtractScrews_spec screws : forall r w gr,
  heap w !! r = Some gr ->
  Forall (allocated (heap w)) screws ->
  exists w', grown w w' /\
    match composeAll (concat (map (fun screw => step SUBTRACTION (operandOf (heap w) screw))
                                  screws)) gr with
    | inl e => subtractScrews screws r w = (Thrown e, w')
    | inr c => exists r', subtractScrews screws r w = (Returned r', w')
                          /\ heap w' !! r' = Some c
    end.
Proof.
  induction screws as [|screw rest IH]; intros r w gr Hr Hal.
  - exists w. split; [apply grown_refl|]. cbn. eauto.
  - inversion Hal as [|? ? Hs Hrest]; subst.
    cbn [map concat subtractScrews]. rewrite composeAll_app, composeAll_step.
    destruct (applyOperand_spec screw name SUBTRACTION r w gr Hr Hs) as (w1 & G1 & S1).
    assert (Hrest1 : Forall (allocated (heap w1)) rest).
    { eapply Forall_impl; [exact Hrest|]. intros; eapply allocated_grown; eassumption. }
    assert (Eplan : map (fun screw => step SUBTRACTION (operandOf (heap w1) screw)) rest
                    = map (fun screw => step SUBTRACTION (operandOf (heap w) screw)) rest).
    { apply List.map_ext_Forall. eapply Forall_impl; [exact Hrest|].
      intros s Hs'. cbn. rewrite (operandOf_grown _ _ _ G1 Hs'). reflexivity. }
    destruct (operandOf (heap w) screw) as [o|].
    + destruct (csgEvaluate gr o SUBTRACTION) as [e|c].
      * exists w1. split; [exact G1|]. apply bind_thrown. exact S1.
      * destruct S1 as (r1 & S1 & Hr1).
        destruct (IH r1 w1 c Hr1 Hrest1) as (w2 & G2 & S2).
        exists w2. split; [eapply grown_trans; eassumption|].
        rewrite Eplan in S2. rewrite (bind_returned _ _ _ _ _ S1). exact S2.
    + assert (Hr1 : heap w1 !! r = Some gr) by (eapply grown_lookup; eassumption).
      destruct (IH r w1 gr Hr1 Hrest1) as (w2 & G2 & S2).
      exists w2. split; [eapply grown_trans; eassumption|].
      rewrite Eplan in S2. rewrite (bind_returned _ _ _ _ _ S1). exact S2.
Qed.

Lemma getUserModel_eq property w um :
  userModel (state w) = Some um -> getUserModel property w = (Returned um, w).
Proof. intros E. unfold getUserModel. rewrite E. reflexivity. Qed.

(** Steps 1 to 4 against the description of the fusion. *)
Lemma booleanSteps_spec w um l g pos :
  userModel (state w) = Some um ->
  geometry um = Some l ->
  heap w !! l = Some g ->
  attributes_position g = Some pos ->
  rigAllocated (heap w) (rig (state w)) ->
  exists w', grown w w' /\
    match composeAll (fusionPlan (heap w) (rig (state w)))
                     (Geometry.applyMatrix4 (matrixWorld um) (prepared g)) with
    | inl e => booleanSteps w = (Thrown e, w')
    | inr c => exists r, booleanSteps w = (Returned r, w') /\ heap w' !! r = Some c
    end.
Proof.
  intros Hum Hgeo Hl Hpos (Hfill & Hbase & Hscrews).
  unfold booleanSteps.
  rewrite (bind_returned _ _ _ _ _ (getUserModel_eq _ _ _ Hum)). rewrite Hgeo.
  rewrite (bind_returned _ _ _ _ _ (prepareGeometryForCSG_eq l "UserModel" w g Hl)).
  rewrite Hpos.
  set (f := fresh (dom (heap w))).
  set (w1 := set_heap (<[f := prepared g]> (heap w)) w).
  assert (H1 : heap w1 !! f = Some (prepared g)) by apply lookup_insert_eq.
  rewrite (bind_returned _ _ _ _ _ (updateGeometry_eq _ _ _ _ H1)).
  subst w1. cbn [heap set_heap]. rewrite set_heap_set_heap, insert_insert_eq.
  set (model := Geometry.applyMatrix4 (matrixWorld um) (prepared g)).
  set (w2 := set_heap (<[f := model]> (heap w)) w).
  assert (G2 : grown w w2) by apply grown_alloc.
  assert (H2 : heap w2 !! f = Some model) by apply lookup_insert_eq.
  rewrite (bind_returned (gets _) _ w2 _ w2 eq_refl).
  change (state w2) with (state w).
  unfold fusionPlan. rewrite composeAll_app, composeAll_step.
  (* Step 2 *)
  destruct (applyOperand_spec (fillerTransform (rig (state w))) (fun _ => "Filler")
              ADDITION f w2 model H2 (allocated_grown _ _ _ G2 Hfill)) as (w3 & G3 & S3).
  rewrite (operandOf_grown _ _ _ G2 Hfill) in S3.
  assert (G13 : grown w w3) by (eapply grown_trans; eassumption).
  assert (Step3 : forall r3 c3, heap w3 !! r3 = Some c3 ->
    exists w', grown w w' /\
      match
        composeAll (step SUBTRACTION (operandOf (heap w) (baseTrim (rig (state w))))
                    ++ concat (map (fun screw => step SUBTRACTION (operandOf (heap w) screw))
                                   (screwMeshes (rig (state w))))) c3
      with
      | inl e =>
          (let* base := gets (fun w => baseTrim (rig (state w))) in
           let* resultBrush := applyOperand base (fun _ => "Base-trim") SUBTRACTION r3 in
           let* screws := gets (fun w => screwMeshes (rig (state w))) in
           subtractScrews screws resultBrush) w3 = (Thrown e, w')
      | inr c =>
          exists r,
            (let* base := gets (fun w => baseTrim (rig (state w))) in
             let* resultBrush := applyOperand base (fun _ => "Base-trim") SUBTRACTION r3 in
             let* screws := gets (fun w => screwMeshes (rig (state w))) in
             subtractScrews screws resultBrush) w3 = (Returned r, w')
            /\ heap w' !! r = Some c
      end).
  { intros r3 c3 H3.
    rewrite (bind_returned (gets _) _ w3 _ w3 eq_refl).
    rewrite (grown_state _ _ G13). rewrite composeAll_app, composeAll_step.
    destruct (applyOperand_spec (baseTrim (rig (state w))) (fun _ => "Base-trim")
                SUBTRACTION r3 w3 c3 H3 (allocated_grown _ _ _ G13 Hbase)) as (w4 & G4 & S4).
    rewrite (operandOf_grown _ _ _ G13 Hbase) in S4.
    assert (G14 : grown w w4) by (eapply grown_trans; eassumption).
    assert (Step4 : forall r4 c4, heap w4 !! r4 = Some c4 ->
      exists w', grown w w' /\
        match composeAll (concat (map (fun screw => step SUBTRACTION (operandOf (heap w) screw))
                                      (screwMeshes (rig (state w))))) c4 with
        | inl e =>
            (let* screws := gets (fun w => screwMeshes (rig (state w))) in
             subtractScrews screws r4) w4 = (Thrown e, w')
        | inr c =>
            exists r,
              (let* screws := gets (fun w => screwMeshes (rig (state w))) in
               subtractScrews screws r4) w4 = (Returned r, w')
              /\ heap w' !! r = Some c
        end).
    { intros r4 c4 H4.
      rewrite (bind_returned (gets _) _ w4 _ w4 eq_refl).
      rewrite (grown_state _ _ G14).
      assert (Hal4 : Forall (allocated (heap w4)) (screwMeshes (rig (state w)))).
      { eapply Forall_impl; [exact Hscrews|]. intros; eapply allocated_grown; eassumption. }
      destruct (subtractScrews_spec _ r4 w4 c4 H4 Hal4) as (w5 & G5 & S5).
      assert (Eplan : map (fun screw => step SUBTRACTION (operandOf (heap w4) screw))
                          (screwMeshes (rig (state w)))
                      = map (fun screw => step SUBTRACTION (operandOf (heap w) screw))
                            (screwMeshes (rig (state w)))).
      { apply List.map_ext_Forall. eapply Forall_impl; [exact Hscrews|].
        intros s Hs. cbn. rewrite (operandOf_grown _ _ _ G14 Hs). reflexivity. }
      rewrite Eplan in S5.
      exists w5. split; [eapply grown_trans; eassumption|exact S5]. }
    destruct (operandOf (heap w) (baseTrim (rig (state w)))) as [o|].
    - destruct (csgEvaluate c3 o SUBTRACTION) as [e|c].
      + exists w4. split; [exact G14|]. apply bind_thrown. exact S4.
      + destruct S4 as (r4 & S4 & H4).
        destruct (Step4 r4 c H4) as (w' & G' & S').
        exists w'. split; [exact G'|]. rewrite (bind_returned _ _ _ _ _ S4). exact S'.
    - assert (H4 : heap w4 !! r3 = Some c3) by exact (grown_lookup _ _ _ _ G4 H3).
      destruct (Step4 r3 c3 H4) as (w' & G' & S').
      exists w'. split; [exact G'|]. rewrite (bind_returned _ _ _ _ _ S4). exact S'. }
  destruct (operandOf (heap w) (fillerTransform (rig (state w)))) as [o|].
  - destruct (csgEvaluate model o ADDITION) as [e|c].
    + exists w3. split; [exact G13|]. apply bind_thrown. exact S3.
    + destruct S3 as (r3 & S3 & H3).
      destruct (Step3 r3 c H3) as (w' & G' & S').
      exists w'. split; [exact G'|]. rewrite (bind_returned _ _ _ _ _ S3). exact S'.
  - assert (H3 : heap w3 !! f = Some model) by exact (grown_lookup _ _ _ _ G3 H2).
    destruct (Step3 f model H3) as (w' & G' & S').
    exists w'. split; [exact G'|]. rewrite (bind_returned _ _ _ _ _ S3). exact S'.
Qed.

End PipelineFacts.

(** ** The whole run *)

Section RunFacts.
Context `{ThreeLibrary}.

Lemma meshesForEach_ok f ms :
  Forall (fun screw : option Mesh => is_Some screw) ms -> snd (meshesForEach f ms) = true.
Proof.
  induction 1 as [|screw rest [m ->] _ IH]; [reflexivity|].
  cbn. destruct (meshesForEach f rest). exact IH.
Qed.

Lemma meshesForEach_noNull f ms :
  Forall (fun screw : option Mesh => is_Some screw) ms ->
  Forall (fun screw : option Mesh => is_Some screw) (fst (meshesForEach f ms)).
Proof.
  induction 1 as [|screw rest [m ->] _ IH]; [constructor|].
  cbn. destruct (meshesForEach f rest). constructor; [eauto|exact IH].
Qed.

Lemma meshesForEach_allocated h f ms :
  (forall m, geometry (f m) = geometry m) ->
  Forall (allocated h) ms -> Forall (allocated h) (fst (meshesForEach f ms)).
Proof.
  intros Hf. induction 1 as [|screw rest Hs Hrest IH]; [constructor|].
  destruct screw as [m|]; cbn.
  - destruct (meshesForEach f rest). constructor; [|exact IH].
    unfold allocated in *. rewrite Hf. exact Hs.
  - constructor; [exact I|exact Hrest].
Qed.

Lemma allocated_map h f mesh :
  (forall m, geometry (f m) = geometry m) ->
  allocated h mesh -> allocated h (option_map f mesh).
Proof.
  intros Hf. destruct mesh as [m|]; [|trivial]. unfold allocated. cbn. rewrite Hf. trivial.
Qed.

Lemma rigAllocated_refresh h r : rigAllocated h r -> rigAllocated h (refreshRig r).
Proof.
  intros (Hf & Hb & Hs). unfold rigAllocated, refreshRig.
  cbn [fillerTransform baseTrim screwMeshes].
  split; [|split].
  - apply allocated_map; [reflexivity|exact Hf].
  - apply allocated_map; [reflexivity|exact Hb].
  - apply meshesForEach_allocated; [reflexivity|exact Hs].
Qed.

Lemma noNullScrew_refresh r : noNullScrew r -> noNullScrew (refreshRig r).
Proof. unfold noNullScrew, refreshRig. cbn [screwMeshes]. apply meshesForEach_noNull. Qed.

(** The refresh succeeds when there is a model and no screw entry is
    [null]; it rewrites the matrices only. *)
Lemma refreshTransforms_eq w um :
  userModel (state w) = Some um ->
  noNullScrew (rig (state w)) ->
  refreshTransforms w = (Returned tt, set_state (refreshState (state w)) w).
Proof.
  intros Hum Hnn. unfold refreshTransforms.
  rewrite (bind_returned _ _ _ _ _ (getUserModel_eq _ _ _ Hum)).
  pose proof (meshesForEach_ok updateMatrixWorld _ Hnn) as Hok.
  unfold refreshState, refreshRig, screwsForEach, modifyUserModel, modifyRig, modifyState,
    modify, gets, bind, ret.
  cbn [state set_state rig set_rig screwMeshes set_fillerTransform set_baseTrim
       set_userModel userModel currentStep isProcessed heap disposed ui
       baseTrim fillerTransform guide2mm hooks sampleModel].
  destruct (meshesForEach updateMatrixWorld (screwMeshes (rig (state w)))) as [ms' ok].
  cbn in Hok. subst ok. reflexivity.
Qed.

Lemma cleanup_eq r w c :
  heap w !! r = Some c ->
  cleanup r w = (Returned (fresh (dom (heap w))),
                 set_heap (<[fresh (dom (heap w)) := cleaned c]> (heap w)) w).
Proof.
  intros Hr. unfold cleanup.
  rewrite (bind_returned _ _ _ _ _ (readGeometry_eq _ _ _ Hr)).
  unfold bind at 1. unfold allocGeometry.
  set (f := fresh (dom (heap w))).
  set (w1 := set_heap (<[f := mergeVertices c WELD_TOLERANCE]> (heap w)) w).
  assert (H1 : heap w1 !! f = Some (mergeVertices c WELD_TOLERANCE)) by apply lookup_insert_eq.
  rewrite (bind_returned _ _ _ _ _ (updateGeometry_eq _ _ _ _ H1)).
  subst w1. cbn [heap set_heap]. rewrite set_heap_set_heap, insert_insert_eq. reflexivity.
Qed.

(** The model after [commit]: the new geometry, position and rotation at
    zero, the local matrix recomputed. *)
Lemma commit_spec cl w um old :
  userModel (state w) = Some um ->
  geometry um = Some old ->
  noNullScrew (rig (state w)) ->
  exists w',
    commit cl w = (Returned tt, w')
    /\ heap w' = heap w
    /\ disposed w' = {[ old ]} ∪ disposed w
    /\ userModel (state w')
       = Some (updateMatrix (set_rotation (0, 0, 0)%R (set_position (0, 0, 0)%R
                                (set_geometry (Some cl) um))))
    /\ isProcessed (state w') = true
    /\ btn_export_disabled (ui w') = false
    /\ btn_process_disabled (ui w') = true
    /\ transformControls_enabled (ui w') = false
    /\ model_sliders_enabled (ui w') = false
    /\ filler_sliders_enabled (ui w') = false
    /\ processing_overlay_hidden (ui w') = true.
Proof.
  intros Hum Hgeo Hnn. unfold commit.
  rewrite (bind_returned _ _ _ _ _ (getUserModel_eq _ _ _ Hum)). rewrite Hgeo.
  pose proof (meshesForEach_ok (set_visible false) _ Hnn) as Hok.
  unfold screwsForEach, modifyUserModel, modifyRig, modifyState, modifyUi, updateInstruction,
    hideProcessing, dispose, modify, gets, bind, ret.
  cbn [state set_state rig set_rig screwMeshes set_fillerTransform set_baseTrim
       set_userModel userModel currentStep isProcessed heap disposed ui set_disposed
       baseTrim fillerTransform guide2mm hooks sampleModel set_guide2mm set_hooks
       set_isProcessed set_ui].
  destruct (meshesForEach (set_visible false) (screwMeshes (rig (state w)))) as [ms' ok].
  cbn in Hok. subst ok.
  eexists. split; [reflexivity|].
  cbn. rewrite Hum. cbn. repeat split; reflexivity.
Qed.

(** The run against the description: a throw of the evaluator leaves the
    store, the meshes (up to their refreshed matrices) and the disposal marks
    alone and reports the error; otherwise the model takes the cleaned
    composite. *)
Lemma doProcessAndMerge_spec w um l g pos :
  userModel (state w) = Some um ->
  geometry um = Some l ->
  heap w !! l = Some g ->
  attributes_position g = Some pos ->
  rigAllocated (heap w) (rig (state w)) ->
  noNullScrew (rig (state w)) ->
  match composeAll (fusionPlan (heap w) (refreshRig (rig (state w))))
                   (Geometry.applyMatrix4 (matrixWorld (updateMatrixWorld um)) (prepared g)) with
  | inl e =>
      exists w',
        doProcessAndMerge w = (Returned tt, w')
        /\ (forall l0 g0, heap w !! l0 = Some g0 -> heap w' !! l0 = Some g0)
        /\ state w' = refreshState (state w)
        /\ disposed w' = disposed w
        /\ ui w' = set_processing_hidden true
                     (set_instruction ("Boolean failed: " ++ message e ++ ". Check console.")
                        (set_processing_status "Running Boolean operations..." (ui w)))
  | inr c =>
      exists w' cl,
        doProcessAndMerge w = (Returned tt, w')
        /\ heap w !! cl = None
        /\ heap w' !! cl = Some (cleaned c)
        /\ (forall l0 g0, heap w !! l0 = Some g0 -> heap w' !! l0 = Some g0)
        /\ disposed w' = {[ l ]} ∪ disposed w
        /\ userModel (state w')
           = Some (updateMatrix (set_rotation (0, 0, 0)%R (set_position (0, 0, 0)%R
                                    (set_geometry (Some cl) (updateMatrixWorld um)))))
        /\ isProcessed (state w') = true
        /\ btn_export_disabled (ui w') = false
        /\ transformControls_enabled (ui w') = false
        /\ model_sliders_enabled (ui w') = false
        /\ filler_sliders_enabled (ui w') = false
  end.
Proof.
  intros Hum Hgeo Hl Hpos Hal Hnn.
  set (w0 := set_ui (set_processing_status "Running Boolean operations..." (ui w)) w).
  set (w1 := set_state (refreshState (state w0)) w0).
  assert (Hum1 : userModel (state w1) = Some (updateMatrixWorld um)).
  { cbn. rewrite Hum. reflexivity. }
  assert (Erun : forall k : Brush -> Js unit,
            (updateProcessingStatus "Running Boolean operations..." ;;;
             tryCatch (refreshTransforms ;;; bind booleanSteps k) doProcessAndMerge_catch) w
            = tryCatch (bind booleanSteps k) doProcessAndMerge_catch w1).
  { intros k. unfold updateProcessingStatus, modifyUi, modify. unfold bind at 1.
    fold w0. unfold tryCatch.
    rewrite (bind_returned _ _ _ _ _ (refreshTransforms_eq w0 um Hum Hnn)). reflexivity. }
  unfold doProcessAndMerge, doProcessAndMerge_try.
  destruct (booleanSteps_spec w1 (updateMatrixWorld um) l g pos Hum1 Hgeo Hl Hpos
              (rigAllocated_refresh _ _ Hal)) as (w2 & G2 & S2).
  change (heap w1) with (heap w) in S2.
  change (rig (state w1)) with (refreshRig (rig (state w))) in S2.
  destruct (composeAll _ _) as [e|c].
  - eexists. split.
    { rewrite Erun. unfold tryCatch.
      rewrite (bind_thrown _ _ _ _ _ S2). reflexivity. }
    destruct G2 as (h2 & -> & Sub). cbn [heap set_heap] in Sub.
    repeat split. intros l0 g0 H0. cbn. eapply lookup_weaken; eassumption.
  - destruct S2 as (r & S2 & Hr).
    set (cl := fresh (dom (heap w2))).
    set (w3 := set_heap (<[cl := cleaned c]> (heap w2)) w2).
    assert (G3 : grown w2 w3) by apply grown_alloc.
    assert (G13 : grown w1 w3) by (eapply grown_trans; eassumption).
    assert (Hum3 : userModel (state w3) = Some (updateMatrixWorld um)).
    { rewrite (grown_state _ _ G13). exact Hum1. }
    assert (Hnn3 : noNullScrew (rig (state w3))).
    { rewrite (grown_state _ _ G13). apply noNullScrew_refresh. exact Hnn. }
    destruct (commit_spec cl w3 _ l Hum3 Hgeo Hnn3)
      as (w4 & E4 & Hh & Hd & Hu & Hp & Hx & _ & Ht & Hm & Hf & _).
    exists w4, cl. split.
    { rewrite Erun. unfold tryCatch.
      rewrite (bind_returned _ _ _ _ _ S2).
      rewrite (bind_returned _ _ _ _ _ (cleanup_eq _ _ _ Hr)).
      fold cl. fold w3. rewrite E4. reflexivity. }
    rewrite Hh, Hd, (grown_disposed _ _ G13).
    repeat split; try assumption.
    + destruct (heap w !! cl) as [x|] eqn:Ecl; [|reflexivity].
      pose proof (grown_lookup w1 w2 cl x G2 Ecl) as E2.
      unfold cl in E2. rewrite fresh_not_allocated in E2. discriminate.
    + apply lookup_insert_eq.
    + intros l0 g0 H0. exact (grown_lookup w1 w3 l0 g0 G13 H0).
Qed.

End RunFacts.

(** ** The claims on the fusion run *)

Section FusionClaims.
Context `{ThreeLibrary}.

(** C1. Steps 1 to 4 of [doProcessAndMerge] apply the boolean operations in
    a fixed order. The initial composite is the user model, normalized and
    baked with its world matrix. The filler, when it contributes an operand,
    is unioned (ADDITION) first; then the base-trim, when it contributes one,
    is subtracted; then every entry of [screwMeshes] that contributes one is
    subtracted, in the stored order. A mesh contributes its geometry
    normalized and baked; an entry that is [null], has no geometry, or whose
    geometry has no position buffer contributes nothing and is skipped, and
    the run goes on. The first evaluation that throws ends the steps with
    its error; otherwise the result is the composite of the whole chain. *)
Theorem booleanSteps_fixed_order
    (w : World) (um : Mesh) (l : loc) (g : BufferGeometry) (pos : list Vec3) :
  userModel (state w) = Some um ->
  geometry um = Some l ->
  heap w !! l = Some g ->
  attributes_position g = Some pos ->
  rigAllocated (heap w) (rig (state w)) ->
  let operand := operandOf (heap w) in
  let model := Geometry.applyMatrix4 (matrixWorld um) (prepared g) in
  let plan :=
    (step ADDITION (operand (fillerTransform (rig (state w))))
     ++ step SUBTRACTION (operand (baseTrim (rig (state w))))
     ++ concat (map (fun screw => step SUBTRACTION (operand screw))
                    (screwMeshes (rig (state w)))))%list in
  (exists w', grown w w' /\
     match composeAll plan model with
     | inl e => booleanSteps w = (Thrown e, w')
     | inr composite =>
         exists r, booleanSteps w = (Returned r, w') /\ heap w' !! r = Some composite
     end)
  /\ operand None = None
  /\ (forall m, geometry m = None -> operand (Some m) = None)
  /\ (forall m lm gm, geometry m = Some lm -> heap w !! lm = Some gm ->
        operand (Some m)
        = match attributes_position gm with
          | Some _ => Some (Geometry.applyMatrix4 (matrixWorld m) (prepared gm))
          | None => None
          end)
  /\ (forall op, step op None = [] /\ forall o, step op (Some o) = [(op, o)]).
Proof.
  intros Hum Hgeo Hl Hpos Hal. cbv zeta.
  split; [exact (booleanSteps_spec w um l g pos Hum Hgeo Hl Hpos Hal)|].
  split; [reflexivity|].
  split; [intros m Hm; unfold operandOf; rewrite Hm; reflexivity|].
  split; [intros m lm gm Hm Hlm; unfold operandOf; rewrite Hm, Hlm; reflexivity|].
  intros op. split; [reflexivity|intros o; reflexivity].
Qed.

(** C2. If a boolean evaluation of the run throws [e], [doProcessAndMerge]
    installs no composite: the user model still points to the same geometry
    object, which, like every object of the store, holds the value it held
    before; position and rotation of the model are as before; nothing has
    been disposed. The instruction line reads
    "Boolean failed: <message of e>. Check console.", the export button is
    as disabled as it was, and [state.isProcessed] is as before. *)
Theorem doProcessAndMerge_failure_commits_nothing
    (w : World) (um : Mesh) (l : loc) (g : BufferGeometry) (pos : list Vec3) (e : JsError) :
  userModel (state w) = Some um ->
  geometry um = Some l ->
  heap w !! l = Some g ->
  attributes_position g = Some pos ->
  rigAllocated (heap w) (rig (state w)) ->
  noNullScrew (rig (state w)) ->
  composeAll (fusionPlan (heap w) (refreshRig (rig (state w))))
             (Geometry.applyMatrix4 (matrixWorld (updateMatrixWorld um)) (prepared g))
  = inl e ->
  exists w' um',
    doProcessAndMerge w = (Returned tt, w')
    /\ userModel (state w') = Some um'
    /\ geometry um' = Some l
    /\ heap w' !! l = Some g
    /\ (forall l0 g0, heap w !! l0 = Some g0 -> heap w' !! l0 = Some g0)
    /\ position um' = position um
    /\ rotation um' = rotation um
    /\ scale um' = scale um
    /\ disposed w' = disposed w
    /\ instruction_text (ui w') = "Boolean failed: " ++ message e ++ ". Check console."
    /\ btn_export_disabled (ui w') = btn_export_disabled (ui w)
    /\ isProcessed (state w') = isProcessed (state w).
Proof.
  intros Hum Hgeo Hl Hpos Hal Hnn Hthrow.
  pose proof (doProcessAndMerge_spec w um l g pos Hum Hgeo Hl Hpos Hal Hnn) as S.
  rewrite Hthrow in S. destruct S as (w' & E & Hheap & Hst & Hd & Hui).
  exists w', (updateMatrixWorld um).
  split; [exact E|].
  rewrite Hst, Hui. cbn. rewrite Hum.
  repeat split; auto.
Qed.

(** C3. On a run in which no evaluation throws, [doProcessAndMerge] puts a
    new geometry object on the user model, holding the composite after
    [mergeVertices] and [computeVertexNormals]; the model's position and
    rotation are (0, 0, 0); the geometry it had is disposed, processing is
    marked done and the export button is enabled. *)
Theorem doProcessAndMerge_success_replaces_geometry
    (w : World) (um : Mesh) (l : loc) (g : BufferGeometry) (pos : list Vec3)
    (composite : BufferGeometry) :
  userModel (state w) = Some um ->
  geometry um = Some l ->
  heap w !! l = Some g ->
  attributes_position g = Some pos ->
  rigAllocated (heap w) (rig (state w)) ->
  noNullScrew (rig (state w)) ->
  composeAll (fusionPlan (heap w) (refreshRig (rig (state w))))
             (Geometry.applyMatrix4 (matrixWorld (updateMatrixWorld um)) (prepared g))
  = inr composite ->
  exists w' um' cl,
    doProcessAndMerge w = (Returned tt, w')
    /\ userModel (state w') = Some um'
    /\ geometry um' = Some cl
    /\ heap w !! cl = None
    /\ heap w' !! cl
       = Some (Geometry.computeVertexNormals (mergeVertices composite WELD_TOLERANCE))
    /\ position um' = (0, 0, 0)%R
    /\ rotation um' = (0, 0, 0)%R
    /\ name um' = name um
    /\ scale um' = scale um
    /\ l ∈ disposed w'
    /\ isProcessed (state w') = true
    /\ btn_export_disabled (ui w') = false.
Proof.
  intros Hum Hgeo Hl Hpos Hal Hnn Hok.
  pose proof (doProcessAndMerge_spec w um l g pos Hum Hgeo Hl Hpos Hal Hnn) as S.
  rewrite Hok in S.
  destruct S as (w' & cl & E & Hnew & Hcl & _ & Hd & Hu & Hp & Hx & _).
  eexists w', _, cl.
  split; [exact E|]. split; [exact Hu|].
  rewrite Hd. repeat split; auto.
  apply elem_of_union_l, elem_of_singleton. reflexivity.
Qed.

(** X25. [cleanup] runs two passes on the fusion result, in this order and
    without condition: the [mergeVertices] of three.js with the tolerance
    0.0001 (that is 1/10000), which yields a new geometry, then
    [computeVertexNormals] on that geometry. The normals of the outcome are
    the vertex normals computed from the welded index and positions,
    whatever normals the welded geometry carried; its positions, UVs and
    index are the welded ones. The fusion result itself and every other
    object stay as they were. Which vertices [mergeVertices] merges is
    decided in three.js and is not stated here. *)
Theorem cleanup_welds_then_recomputes_normals
    (r : Brush) (w : World) (composite : BufferGeometry) :
  heap w !! r = Some composite ->
  let welded := mergeVertices composite WELD_TOLERANCE in
  exists cl w' final,
    cleanup r w = (Returned cl, w')
    /\ WELD_TOLERANCE = (1 / 10000)%R
    /\ heap w !! cl = None
    /\ heap w' !! cl = Some final
    /\ final = Geometry.computeVertexNormals welded
    /\ (forall ps, attributes_position welded = Some ps ->
          attributes_normal final = Some (vertexNormals (index welded) ps))
    /\ attributes_position final = attributes_position welded
    /\ attributes_uv final = attributes_uv welded
    /\ index final = index welded
    /\ grown w w'.
Proof.
  intros Hr welded.
  exists (fresh (dom (heap w))), (set_heap (<[fresh (dom (heap w)) := cleaned composite]> (heap w)) w),
    (cleaned composite).
  split; [exact (cleanup_eq r w composite Hr)|].
  split; [unfold WELD_TOLERANCE; lra|].
  split; [apply fresh_not_allocated|].
  split; [apply lookup_insert_eq|].
  split; [reflexivity|].
  unfold cleaned, Geometry.computeVertexNormals. fold welded.
  destruct (attributes_position welded) as [ps|] eqn:Eps; cbn.
  - repeat split; try reflexivity.
    + intros ps' [= <-]. reflexivity.
    + apply grown_alloc.
  - repeat split; try reflexivity; try exact Eps.
    + intros ps' [=].
    + apply grown_alloc.
Qed.

End FusionClaims.

Section BaseTrimClaims.
Context `{ThreeLibrary}.

(** C6, as the code has it. A base-trim whose geometry has no position
    buffer is skipped: the run goes on with the filler and the screws only,
    and when none of their evaluations throws it succeeds and gives the user
    model the cleaned composite. A base-trim whose geometry has a position
    buffer (be it with zero vertices) takes part in the subtraction; when
    the evaluator throws on it, the run fails, and the user model's geometry
    object, its value, and the model's position and rotation are as before
    the call, with the error reported on the instruction line. *)
Theorem doProcessAndMerge_malformed_baseTrim
    (w : World) (um : Mesh) (l : loc) (g : BufferGeometry) (pos : list Vec3)
    (mb : Mesh) (lb : loc) (gb : BufferGeometry) :
  userModel (state w) = Some um ->
  geometry um = Some l ->
  heap w !! l = Some g ->
  attributes_position g = Some pos ->
  rigAllocated (heap w) (rig (state w)) ->
  noNullScrew (rig (state w)) ->
  baseTrim (rig (state w)) = Some mb ->
  geometry mb = Some lb ->
  heap w !! lb = Some gb ->
  let r := refreshRig (rig (state w)) in
  let model := Geometry.applyMatrix4 (matrixWorld (updateMatrixWorld um)) (prepared g) in
  let unionFiller := step ADDITION (operandOf (heap w) (fillerTransform r)) in
  let subtractScrewHoles :=
    concat (map (fun screw => step SUBTRACTION (operandOf (heap w) screw)) (screwMeshes r)) in
  (attributes_position gb = None ->
   forall composite,
     composeAll (unionFiller ++ subtractScrewHoles)%list model = inr composite ->
     exists w' um' cl,
       doProcessAndMerge w = (Returned tt, w')
       /\ userModel (state w') = Some um'
       /\ geometry um' = Some cl
       /\ heap w !! cl = None
       /\ heap w' !! cl = Some (cleaned composite)
       /\ isProcessed (state w') = true
       /\ btn_export_disabled (ui w') = false)
  /\
  (forall ps merged e,
     attributes_position gb = Some ps ->
     composeAll unionFiller model = inr merged ->
     csgEvaluate merged
       (Geometry.applyMatrix4 (matrixWorld (updateMatrixWorld mb)) (prepared gb))
       SUBTRACTION = inl e ->
     exists w' um',
       doProcessAndMerge w = (Returned tt, w')
       /\ userModel (state w') = Some um'
       /\ geometry um' = Some l
       /\ heap w' !! l = Some g
       /\ position um' = position um
       /\ rotation um' = rotation um
       /\ instruction_text (ui w') = "Boolean failed: " ++ message e ++ ". Check console."
       /\ btn_export_disabled (ui w') = btn_export_disabled (ui w)
       /\ isProcessed (state w') = isProcessed (state w)).
Proof.
  intros Hum Hgeo Hl Hpos Hal Hnn Hb Hgb Hlb. cbv zeta.
  pose proof (doProcessAndMerge_spec w um l g pos Hum Hgeo Hl Hpos Hal Hnn) as S.
  unfold fusionPlan in S.
  assert (Hop : operandOf (heap w) (baseTrim (refreshRig (rig (state w))))
                = match attributes_position gb with
                  | Some _ => Some (Geometry.applyMatrix4 (matrixWorld (updateMatrixWorld mb))
                                      (prepared gb))
                  | None => None
                  end).
  { unfold refreshRig. cbn [baseTrim]. rewrite Hb. cbn [option_map operandOf].
    change (geometry (updateMatrixWorld mb)) with (geometry mb). rewrite Hgb, Hlb.
    reflexivity. }
  rewrite Hop in S. split.
  - intros Hnone composite Hok. rewrite Hnone in S. cbn [step app] in S.
    rewrite Hok in S.
    destruct S as (w' & cl & E & Hnew & Hcl & _ & _ & Hu & Hp & Hx & _).
    eexists w', _, cl. repeat split; eauto.
  - intros ps merged e Hsome Hfill Hthrow. rewrite Hsome in S.
    rewrite composeAll_app, Hfill, composeAll_app, composeAll_step, Hthrow in S.
    destruct S as (w' & E & Hheap & Hst & Hd & Hui).
    exists w', (updateMatrixWorld um).
    split; [exact E|]. rewrite Hst, Hui. cbn. rewrite Hum.
    repeat split; auto.
Qed.

End BaseTrimClaims.

(** ** Rotations, translations and bounding boxes *)

Section MathFacts.
Local Open Scope R_scope.

Lemma degToRad_90 : THREE.degToRad 90 = PI / 2.
Proof. unfold THREE.degToRad, THREE.DEG2RAD. field. Qed.

Lemma degToRad_neg90 : THREE.degToRad (-90) = - (PI / 2).
Proof. unfold THREE.degToRad, THREE.DEG2RAD. field. Qed.

(** A matrix whose last row is (0, 0, 0, 1) acts on a point without
    perspective divide. *)
Lemma applyMatrix4_affine n11 n12 n13 n14 n21 n22 n23 n24 n31 n32 n33 n34 x y z :
  THREE.Vector3_applyMatrix4
    ((n11, n12, n13, n14), (n21, n22, n23, n24), (n31, n32, n33, n34), (0, 0, 0, 1))
    (x, y, z)
  = (n11 * x + n12 * y + n13 * z + n14,
     n21 * x + n22 * y + n23 * z + n24,
     n31 * x + n32 * y + n33 * z + n34).
Proof.
  unfold THREE.Vector3_applyMatrix4.
  replace (0 * x + 0 * y + 0 * z + 1) with 1 by ring.
  f_equal; [f_equal|]; field.
Qed.

Lemma makeRotationX_90 :
  THREE.makeRotationX (THREE.degToRad 90)
  = ((1, 0, 0, 0), (0, 0, -1, 0), (0, 1, 0, 0), (0, 0, 0, 1)).
Proof.
  unfold THREE.makeRotationX. rewrite degToRad_90, cos_PI2, sin_PI2. reflexivity.
Qed.

Lemma makeRotationX_neg90 :
  THREE.makeRotationX (THREE.degToRad (-90))
  = ((1, 0, 0, 0), (0, 0, 1, 0), (0, -1, 0, 0), (0, 0, 0, 1)).
Proof.
  unfold THREE.makeRotationX. rewrite degToRad_neg90, cos_neg, sin_neg, cos_PI2, sin_PI2.
  repeat f_equal; ring.
Qed.

(** An Euler rotation about X alone is [makeRotationX]. *)
Lemma makeRotationFromEuler_x theta :
  THREE.makeRotationFromEuler (theta, 0, 0) = THREE.makeRotationX theta.
Proof.
  unfold THREE.makeRotationFromEuler, THREE.makeRotationX. rewrite cos_0, sin_0.
  repeat f_equal; ring.
Qed.

Lemma offset_is_rotationX :
  THREE.makeRotationFromEuler MODEL_ROTATION_OFFSET = THREE.makeRotationX (THREE.degToRad (-90)).
Proof. apply makeRotationFromEuler_x. Qed.

Lemma Rmin_shift a b c : Rmin (a - c) (b - c) = Rmin a b - c.
Proof. unfold Rmin. destruct (Rle_dec (a - c) (b - c)), (Rle_dec a b); lra. Qed.

Lemma Rmax_shift a b c : Rmax (a - c) (b - c) = Rmax a b - c.
Proof. unfold Rmax. destruct (Rle_dec (a - c) (b - c)), (Rle_dec a b); lra. Qed.

Lemma expandByPoint_shift c b p :
  THREE.expandByPoint (option_map (fun '(lo, hi) => (shift c lo, shift c hi)) b) (shift c p)
  = option_map (fun '(lo, hi) => (shift c lo, shift c hi)) (THREE.expandByPoint b p).
Proof.
  destruct c as [[cx cy] cz], p as [[x y] z].
  destruct b as [[[[x0 y0] z0] [[x1 y1] z1]]|]; cbn; [|reflexivity].
  rewrite !Rmin_shift, !Rmax_shift. reflexivity.
Qed.

Lemma setFromBufferAttribute_shift c ps : forall b,
  fold_left THREE.expandByPoint (map (shift c) ps)
            (option_map (fun '(lo, hi) => (shift c lo, shift c hi)) b)
  = option_map (fun '(lo, hi) => (shift c lo, shift c hi))
               (fold_left THREE.expandByPoint ps b).
Proof.
  induction ps as [|p ps IH]; intros b; [reflexivity|].
  cbn [map fold_left]. rewrite expandByPoint_shift. apply IH.
Qed.

(** Shifting the points by the centre of their box centres the box. *)
Lemma getCenter_shift_center ps :
  THREE.getCenter
    (THREE.setFromBufferAttribute
       (map (shift (THREE.getCenter (THREE.setFromBufferAttribute ps))) ps))
  = (0, 0, 0).
Proof.
  unfold THREE.setFromBufferAttribute.
  pose proof (setFromBufferAttribute_shift
                (THREE.getCenter (fold_left THREE.expandByPoint ps None)) ps None) as E.
  cbn [option_map] in E. rewrite E.
  destruct (fold_left THREE.expandByPoint ps None)
    as [[[[x0 y0] z0] [[x1 y1] z1]]|]; [|reflexivity].
  cbn. repeat f_equal; lra.
Qed.

Lemma translate_by_negated c p :
  THREE.Vector3_applyMatrix4 (THREE.makeTranslation (THREE.negate c)) p = shift c p.
Proof.
  destruct c as [[cx cy] cz], p as [[x y] z].
  unfold THREE.negate, THREE.makeTranslation. rewrite applyMatrix4_affine.
  cbn. repeat f_equal; ring.
Qed.

End MathFacts.

(** ** Export and import *)

Section ExportImportClaims.
Context `{ThreeLibrary}.

Lemma exportGeometry_build_eq w um l g :
  userModel (state w) = Some um ->
  geometry um = Some l ->
  heap w !! l = Some g ->
  exportGeometry_build w
  = (Returned (fresh (dom (heap w))),
     set_heap (<[fresh (dom (heap w)) :=
                   Geometry.applyMatrix4 (THREE.makeRotationX (THREE.degToRad 90))
                     (Geometry.applyMatrix4 (matrixWorld (updateMatrixWorld um)) g)]> (heap w))
       (set_state (set_userModel (Some (updateMatrixWorld um)) (state w)) w)).
Proof.
  intros Hum Hgeo Hl. unfold exportGeometry_build, modifyUserModel, modifyState, modify.
  unfold bind at 1. rewrite Hum. cbn [option_map].
  set (w1 := set_state (set_userModel (Some (updateMatrixWorld um)) (state w)) w).
  assert (Hum1 : userModel (state w1) = Some (updateMatrixWorld um)) by reflexivity.
  rewrite (bind_returned _ _ _ _ _ (getUserModel_eq _ _ _ Hum1)).
  change (geometry (updateMatrixWorld um)) with (geometry um). rewrite Hgeo.
  assert (Ecl : clone l w1 = (Returned (fresh (dom (heap w))),
                              set_heap (<[fresh (dom (heap w)) := g]> (heap w)) w1)).
  { unfold clone. change (heap w1) with (heap w). rewrite Hl. reflexivity. }
  rewrite (bind_returned _ _ _ _ _ Ecl).
  set (f := fresh (dom (heap w))).
  set (w2 := set_heap (<[f := g]> (heap w)) w1).
  assert (H2 : heap w2 !! f = Some g) by apply lookup_insert_eq.
  rewrite (bind_returned _ _ _ _ _ (updateGeometry_eq _ _ _ _ H2)).
  subst w2. cbn [heap set_heap]. rewrite set_heap_set_heap, insert_insert_eq.
  set (w3 := set_heap _ w1).
  assert (H3 : heap w3 !! f = Some (Geometry.applyMatrix4 (matrixWorld (updateMatrixWorld um)) g))
    by apply lookup_insert_eq.
  rewrite (bind_returned _ _ _ _ _ (updateGeometry_eq _ _ _ _ H3)).
  subst w3. cbn [heap set_heap]. rewrite set_heap_set_heap, insert_insert_eq.
  reflexivity.
Qed.

(** C5. For export, the model's geometry is cloned; the clone gets the
    model's refreshed world matrix baked in, and then the rotation by +90
    degrees about X; this geometry, and nothing else, goes to the STL
    writer: its positions are the model's positions through the two
    matrices, in the same order, with the same index and UVs. The rotation
    offset of the working scene is the rotation by -90 degrees about X, and
    the correction undoes it (and conversely). The model's own geometry
    object, and every other object of the store, is left as it was, and the
    model still points to it. *)
Theorem exportSTL_coordinate_correction
    (w : World) (um : Mesh) (l : loc) (g : BufferGeometry) :
  userModel (state w) = Some um ->
  geometry um = Some l ->
  heap w !! l = Some g ->
  let worldMatrix := matrixWorld (updateMatrixWorld um) in
  let correction := THREE.makeRotationX (THREE.degToRad 90) in
  let offset := THREE.makeRotationFromEuler MODEL_ROTATION_OFFSET in
  exists (exported : loc) (eg : BufferGeometry) (w' : World),
    exportGeometry_build w = (Returned exported, w')
    /\ heap w !! exported = None
    /\ heap w' !! exported = Some eg
    /\ eg = Geometry.applyMatrix4 correction (Geometry.applyMatrix4 worldMatrix g)
    /\ attributes_position eg
       = option_map (map (fun v => THREE.Vector3_applyMatrix4 correction
                                     (THREE.Vector3_applyMatrix4 worldMatrix v)))
                    (attributes_position g)
    /\ index eg = index g
    /\ attributes_uv eg = attributes_uv g
    /\ exportSTL_try w
       = (match stlWrite eg with
          | inl e => Thrown e
          | inr [] => Thrown (Error "Generated STL file is empty (0 bytes)")
          | inr bytes => Returned (Some bytes)
          end, w')
    /\ offset = THREE.makeRotationX (THREE.degToRad (-90))
    /\ (forall v, THREE.Vector3_applyMatrix4 correction (THREE.Vector3_applyMatrix4 offset v) = v)
    /\ (forall v, THREE.Vector3_applyMatrix4 offset (THREE.Vector3_applyMatrix4 correction v) = v)
    /\ THREE.multiplyMatrices correction offset = THREE.identity
    /\ (forall x y z, THREE.Vector3_applyMatrix4 correction (x, y, z) = (x, - z, y)%R)
    /\ heap w' !! l = Some g
    /\ (forall l0 g0, heap w !! l0 = Some g0 -> heap w' !! l0 = Some g0)
    /\ userModel (state w') = Some (updateMatrixWorld um)
    /\ geometry (updateMatrixWorld um) = Some l
    /\ disposed w' = disposed w.
Proof.
  intros Hum Hgeo Hl worldMatrix correction offset.
  pose proof (exportGeometry_build_eq w um l g Hum Hgeo Hl) as E.
  fold worldMatrix correction in E.
  set (eg := Geometry.applyMatrix4 correction (Geometry.applyMatrix4 worldMatrix g)) in *.
  set (f := fresh (dom (heap w))) in *.
  set (w' := set_heap (<[f := eg]> (heap w)) _) in *.
  assert (Hpres : forall l0 g0, heap w !! l0 = Some g0 -> heap w' !! l0 = Some g0).
  { intros l0 g0 H0. cbn. rewrite lookup_insert_ne; [exact H0|].
    intros E0. apply (allocated_not_fresh _ _ _ H0). symmetry; exact E0. }
  assert (Hoff : offset = THREE.makeRotationX (THREE.degToRad (-90)))
    by apply offset_is_rotationX.
  exists f, eg, w'.
  split; [exact E|].
  split; [apply fresh_not_allocated|].
  split; [apply lookup_insert_eq|].
  split; [reflexivity|].
  split. { unfold eg. cbn. destruct (attributes_position g); [|reflexivity]. cbn.
           rewrite map_map. reflexivity. }
  split; [reflexivity|]. split; [reflexivity|].
  split. { unfold exportSTL_try. rewrite (bind_returned _ _ _ _ _ E).
           assert (Hf : heap w' !! f = Some eg) by apply lookup_insert_eq.
           rewrite (bind_returned _ _ _ _ _ (readGeometry_eq _ _ _ Hf)).
           destruct (stlWrite eg) as [e|[|b bs]]; reflexivity. }
  split; [exact Hoff|].
  subst correction. rewrite Hoff, makeRotationX_90, makeRotationX_neg90.
  split. { intros [[x y] z]. rewrite !applyMatrix4_affine. repeat f_equal; ring. }
  split. { intros [[x y] z]. rewrite !applyMatrix4_affine. repeat f_equal; ring. }
  split. { unfold THREE.multiplyMatrices, THREE.mulRow, THREE.dot4, THREE.identity. cbn.
           repeat f_equal; ring. }
  split. { intros x y z. rewrite applyMatrix4_affine. repeat f_equal; ring. }
  split; [exact (Hpres l g Hl)|].
  split; [exact Hpres|].
  repeat split. exact Hgeo.
Qed.

(** C10. When the file parses and no earlier model lacks a geometry,
    [importUserSTL] makes a new geometry object the user model's geometry; it
    holds the parsed geometry after [computeVertexNormals] and [center].
    Its positions are the parsed positions moved by the negated centre of
    their bounding box, so the bounding box of the imported positions has
    its centre at the origin: a parsed position is kept as it was only when
    that centre already was the origin. The model gets the rotation offset
    and the position of the hooks. *)
Theorem importUserSTL_recenters
    (contents : list Byte.byte) (file_name : string) (w : World) (parsed : BufferGeometry) :
  stlParse contents = inr parsed ->
  (forall m, userModel (state w) = Some m -> is_Some (geometry m)) ->
  exists (w' : World) (um : Mesh) (gl : loc) (imported : BufferGeometry),
    importUserSTL contents file_name w = (Returned tt, w')
    /\ userModel (state w') = Some um
    /\ geometry um = Some gl
    /\ heap w !! gl = None
    /\ heap w' !! gl = Some imported
    /\ imported = Geometry.center (Geometry.computeVertexNormals parsed)
    /\ (forall ps, attributes_position parsed = Some ps ->
          let c := THREE.getCenter (THREE.setFromBufferAttribute ps) in
          attributes_position imported = Some (map (shift c) ps)
          /\ THREE.getCenter (Geometry.boundingBox imported) = (0, 0, 0)%R
          /\ (forall p, In p ps -> shift c p = p <-> c = (0, 0, 0)%R))
    /\ index imported = index parsed
    /\ rotation um = MODEL_ROTATION_OFFSET
    /\ position um = match hooks (rig (state w)) with
                     | Some h => position h
                     | None => (0, 0, 0)%R
                     end
    /\ (forall m old, userModel (state w) = Some m -> geometry m = Some old ->
          old ∈ disposed w').
Proof.
  intros Hparse Hprev.
  set (f := fresh (dom (heap w))).
  set (imported := Geometry.center (Geometry.computeVertexNormals parsed)).
  assert (Ehead : forall k : loc -> Js unit,
    bind (match stlParse contents with
          | inl e => throw e
          | inr g => allocGeometry g
          end)
         (fun geo => updateGeometry Geometry.computeVertexNormals geo ;;;
                     updateGeometry Geometry.center geo ;;; k geo) w
    = k f (set_heap (<[f := imported]> (heap w)) w)).
  { intros k. rewrite Hparse.
    rewrite (bind_returned (allocGeometry parsed) _ w f
               (set_heap (<[f := parsed]> (heap w)) w) eq_refl).
    set (w1 := set_heap (<[f := parsed]> (heap w)) w).
    assert (H1 : heap w1 !! f = Some parsed) by apply lookup_insert_eq.
    rewrite (bind_returned _ _ _ _ _ (updateGeometry_eq _ _ _ _ H1)).
    subst w1. cbn [heap set_heap]. rewrite set_heap_set_heap, insert_insert_eq.
    set (w2 := set_heap _ w).
    assert (H2 : heap w2 !! f = Some (Geometry.computeVertexNormals parsed))
      by apply lookup_insert_eq.
    rewrite (bind_returned _ _ _ _ _ (updateGeometry_eq _ _ _ _ H2)).
    subst w2. cbn [heap set_heap]. rewrite set_heap_set_heap, insert_insert_eq.
    reflexivity. }
  assert (Hpos : forall ps, attributes_position parsed = Some ps ->
            attributes_position imported
            = Some (map (shift (THREE.getCenter (THREE.setFromBufferAttribute ps))) ps)).
  { intros ps Hps. unfold imported, Geometry.center, Geometry.boundingBox,
      Geometry.computeVertexNormals, Geometry.applyMatrix4.
    rewrite Hps. cbn [attributes_position option_map]. f_equal.
    apply map_ext. intros p. apply translate_by_negated. }
  unfold importUserSTL, tryCatch, importUserSTL_try. rewrite Ehead.
  unfold gets, modifyState, modifyUi, updateInstruction, modify, dispose, bind, ret.
  cbn [state heap set_heap disposed ui].
  assert (Hcentre : forall ps, attributes_position parsed = Some ps ->
            attributes_position imported
            = Some (map (shift (THREE.getCenter (THREE.setFromBufferAttribute ps))) ps)
            /\ THREE.getCenter (Geometry.boundingBox imported) = (0, 0, 0)%R
            /\ (forall p, In p ps ->
                  shift (THREE.getCenter (THREE.setFromBufferAttribute ps)) p = p
                  <-> THREE.getCenter (THREE.setFromBufferAttribute ps) = (0, 0, 0)%R)).
  { intros ps Hps. split; [exact (Hpos ps Hps)|]. split.
    - unfold Geometry.boundingBox. rewrite (Hpos ps Hps). apply getCenter_shift_center.
    - intros p _. destruct (THREE.getCenter _) as [[cx cy] cz], p as [[x y] z].
      cbn. split.
      + intros [= Ex Ey Ez]. repeat f_equal; lra.
      + intros [= -> -> ->]. repeat f_equal; lra. }
  assert (Hidx : index imported = index parsed).
  { unfold imported, Geometry.center, Geometry.computeVertexNormals.
    destruct (attributes_position parsed); reflexivity. }
  destruct (userModel (state w)) as [m|] eqn:Hm.
  - destruct (Hprev m eq_refl) as [old Hold]. rewrite Hold.
    eexists _, _, f, imported. split; [reflexivity|].
    cbn [state set_state userModel set_userModel set_currentStep heap set_heap set_ui
         set_disposed disposed].
    split; [reflexivity|].
    split; [destruct (hooks (rig (state w))); reflexivity|].
    split; [apply fresh_not_allocated|]. split; [apply lookup_insert_eq|].
    split; [reflexivity|]. split; [exact Hcentre|]. split; [exact Hidx|].
    split; [destruct (hooks (rig (state w))); reflexivity|].
    split; [destruct (hooks (rig (state w))); reflexivity|].
    intros m' old' [= <-] Hold'. rewrite Hold in Hold'. injection Hold' as <-.
    apply elem_of_union_l, elem_of_singleton. reflexivity.
  - eexists _, _, f, imported. split; [reflexivity|].
    cbn [state set_state userModel set_userModel set_currentStep heap set_heap set_ui
         set_disposed disposed].
    split; [reflexivity|].
    split; [destruct (hooks (rig (state w))); reflexivity|].
    split; [apply fresh_not_allocated|]. split; [apply lookup_insert_eq|].
    split; [reflexivity|]. split; [exact Hcentre|]. split; [exact Hidx|].
    split; [destruct (hooks (rig (state w))); reflexivity|].
    split; [destruct (hooks (rig (state w))); reflexivity|].
    intros m' old' [=].
Qed.

End ExportImportClaims.

(** * Further properties *)

(** ** The undo history *)

Section UndoFacts.

Lemma saveUndoState_below h s :
  length h < MAX_UNDO_STEPS -> saveUndoState h s = (h ++ [snapshotOf s])%list.
Proof.
  intros Hlen. unfold saveUndoState.
  destruct (MAX_UNDO_STEPS <? length (h ++ [snapshotOf s]))%nat eqn:E; [|reflexivity].
  apply Nat.ltb_lt in E. rewrite length_app in E. cbn in E. lia.
Qed.

Lemma saveUndoState_full h s :
  length h = MAX_UNDO_STEPS -> saveUndoState h s = (tl h ++ [snapshotOf s])%list.
Proof.
  intros Hlen. unfold saveUndoState.
  destruct (MAX_UNDO_STEPS <? length (h ++ [snapshotOf s]))%nat eqn:E.
  - destruct h as [|x h]; [discriminate Hlen|reflexivity].
  - apply Nat.ltb_ge in E. rewrite length_app in E. cbn in E. lia.
Qed.

Lemma removelast_snoc {A} (l : list A) (x : A) : removelast (l ++ [x]) = l.
Proof. apply removelast_last. Qed.

Lemma last_snoc_Some {A} (l : list A) (x : A) : last (l ++ [x]) = Some x.
Proof. apply last_snoc. Qed.

(** What [undo_restore] does with a snapshot taken by [saveUndoState] in
    a state that had a model, when there is a model now. *)
Lemma undo_restore_snapshot s0 m0 w m :
  userModel s0 = Some m0 ->
  userModel (state w) = Some m ->
  exists w',
    undo_restore (Some (snapshotOf s0)) w = (Returned tt, w')
    /\ userModel (state w') = Some (set_rotation (rotation m0) (set_position (position m0) m))
    /\ fillerTransform (rig (state w'))
       = match fillerTransform (rig s0), fillerTransform (rig (state w)) with
         | Some f0, Some f => Some (set_scale (scale f0) (set_position (position f0) f))
         | _, current => current
         end
    /\ heap w' = heap w
    /\ disposed w' = disposed w
    /\ isProcessed (state w') = isProcessed (state w)
    /\ screwMeshes (rig (state w')) = screwMeshes (rig (state w))
    /\ baseTrim (rig (state w')) = baseTrim (rig (state w))
    /\ instruction_text (ui w') = "Undo successful.".
Proof.
  intros H0 Hm. unfold undo_restore, snapshotOf.
  cbn [modelPosition modelRotation fillerPosition fillerScale].
  rewrite H0. cbn [option_map].
  unfold gets, modifyUserModel, modifyRig, modifyState, updateInstruction, modifyUi, modify,
    bind, ret.
  rewrite Hm. cbn [state set_state userModel set_userModel option_map rig].
  destruct (fillerTransform (rig s0)) as [f0|]; cbn [option_map];
    destruct (fillerTransform (rig (state w))) as [f|] eqn:Ef;
    cbn [state set_state userModel set_userModel option_map rig set_rig fillerTransform
         set_fillerTransform];
    rewrite ?Ef; cbn [option_map];
    (eexists; split; [reflexivity|]); cbn; rewrite ?Ef, ?Hm; cbn; repeat split; reflexivity.
Qed.

End UndoFacts.

Section UndoProperties.

(** X1. [saveUndoState] keeps the history within [MAX_UNDO_STEPS] = 50
    entries: below the bound the snapshot is appended and nothing is lost;
    at the bound the oldest entry is dropped and the others keep their
    order. The snapshot of the current state is always the last entry. *)
Theorem saveUndoState_bounded (h : list Snapshot) (s : AppState) :
  length h <= MAX_UNDO_STEPS ->
  length (saveUndoState h s) <= MAX_UNDO_STEPS
  /\ last (saveUndoState h s) = Some (snapshotOf s)
  /\ (length h < MAX_UNDO_STEPS -> saveUndoState h s = (h ++ [snapshotOf s])%list)
  /\ (length h = MAX_UNDO_STEPS -> saveUndoState h s = (tl h ++ [snapshotOf s])%list).
Proof.
  intros Hlen.
  assert (Hcases : length h < MAX_UNDO_STEPS \/ length h = MAX_UNDO_STEPS) by lia.
  destruct Hcases as [Hlt|Heq].
  - rewrite (saveUndoState_below h s Hlt).
    split; [rewrite length_app; cbn; lia|].
    split; [apply last_snoc_Some|].
    split; [reflexivity|]. intros E. exfalso. lia.
  - rewrite (saveUndoState_full h s Heq).
    split. { rewrite length_app. unfold MAX_UNDO_STEPS in *. destruct h; cbn in *; lia. }
    split; [apply last_snoc_Some|].
    split; [intros E; exfalso; lia|reflexivity].
Qed.

(** X2. [undo] never empties the history. With fewer than two entries it
    changes nothing but the instruction line ("Nothing to undo."); with two
    or more it removes exactly the newest entry and keeps the others. *)
Theorem undo_history_discipline (h : list Snapshot) (w : World) :
  (length h < 2 ->
     undo h w = (h, (Returned tt, set_ui (set_instruction "Nothing to undo." (ui w)) w)))
  /\ (2 <= length h ->
        fst (undo h w) = removelast h
        /\ length (fst (undo h w)) = length h - 1
        /\ 1 <= length (fst (undo h w))
        /\ exists newest, h = (fst (undo h w) ++ [newest])%list).
Proof.
  unfold undo. split; intros Hlen.
  - destruct (length h <? 2)%nat eqn:E; [reflexivity|].
    apply Nat.ltb_ge in E. lia.
  - destruct (length h <? 2)%nat eqn:E; [apply Nat.ltb_lt in E; lia|].
    cbn [fst].
    destruct (exists_last (l := h)) as (h' & x & ->).
    { intros ->. cbn in Hlen. lia. }
    rewrite removelast_snoc, length_app in *. cbn in *.
    repeat split; try lia. exists x. reflexivity.
Qed.

(** X3. With a history [older ++ [previous; newest]], where [previous] was
    saved in a state that had a model, [undo] drops [newest] without
    reading it and applies [previous]: the model takes the position and
    rotation recorded there and the filler, when present then and now, the
    position and scale recorded there. The model's geometry and scale, the
    store, the disposal marks and [isProcessed] are as before. *)
Theorem undo_applies_entry_below_newest
    (older : list Snapshot) (s0 : AppState) (m0 : Mesh) (newest : Snapshot)
    (w : World) (m : Mesh) :
  userModel s0 = Some m0 ->
  userModel (state w) = Some m ->
  exists w' m',
    undo (older ++ [snapshotOf s0; newest]) w = ((older ++ [snapshotOf s0])%list, (Returned tt, w'))
    /\ userModel (state w') = Some m'
    /\ position m' = position m0
    /\ rotation m' = rotation m0
    /\ geometry m' = geometry m
    /\ scale m' = scale m
    /\ fillerTransform (rig (state w'))
       = match fillerTransform (rig s0), fillerTransform (rig (state w)) with
         | Some f0, Some f => Some (set_scale (scale f0) (set_position (position f0) f))
         | _, current => current
         end
    /\ heap w' = heap w
    /\ disposed w' = disposed w
    /\ isProcessed (state w') = isProcessed (state w)
    /\ instruction_text (ui w') = "Undo successful.".
Proof.
  intros H0 Hm.
  destruct (undo_restore_snapshot s0 m0 w m H0 Hm)
    as (w' & E & Hu & Hf & Hh & Hd & Hp & _ & _ & Hi).
  exists w', (set_rotation (rotation m0) (set_position (position m0) m)).
  split.
  { unfold undo.
    replace (older ++ [snapshotOf s0; newest])%list
      with ((older ++ [snapshotOf s0]) ++ [newest])%list by (rewrite <- app_assoc; reflexivity).
    destruct (length ((older ++ [snapshotOf s0]) ++ [newest]) <? 2)%nat eqn:El.
    { apply Nat.ltb_lt in El. rewrite !length_app in El. cbn in El. lia. }
    rewrite removelast_snoc, last_snoc_Some, E. reflexivity. }
  repeat split; assumption.
Qed.

(** What a save leaves, whatever the length of the history. *)
Lemma saveUndoState_cases h s :
  (length h < MAX_UNDO_STEPS /\ saveUndoState h s = (h ++ [snapshotOf s])%list)
  \/ (MAX_UNDO_STEPS <= length h /\ saveUndoState h s = (tl h ++ [snapshotOf s])%list).
Proof.
  destruct (Nat.lt_ge_cases (length h) MAX_UNDO_STEPS) as [Hlt|Hge].
  - left. split; [exact Hlt|apply saveUndoState_below; exact Hlt].
  - right. split; [exact Hge|]. unfold saveUndoState.
    destruct (MAX_UNDO_STEPS <? length (h ++ [snapshotOf s]))%nat eqn:E.
    + destruct h as [|x h]; [unfold MAX_UNDO_STEPS in Hge; cbn in Hge; lia|reflexivity].
    + apply Nat.ltb_ge in E. rewrite length_app in E. cbn in E. lia.
Qed.

(** X4. Two edits, each preceded by [saveUndoState] (as the drag and slider
    handlers do), then one [undo]: the model is back at the pose it had at
    the first of the two saves, whatever pose it had at the second, and the
    snapshot of the first save is the newest entry of the history left.
    With at most 48 entries before the two saves that history is the one
    the first save left; with more, the second save has dropped the oldest
    entry, and the history is the one of the first save without its first
    entry. *)
Theorem undo_after_two_saves
    (h0 : list Snapshot) (sA sB : AppState) (mA : Mesh) (w : World) (m : Mesh) :
  userModel sA = Some mA ->
  userModel (state w) = Some m ->
  exists w' m' left,
    undo (saveUndoState (saveUndoState h0 sA) sB) w = (left, (Returned tt, w'))
    /\ userModel (state w') = Some m'
    /\ position m' = position mA
    /\ rotation m' = rotation mA
    /\ geometry m' = geometry m
    /\ last left = Some (snapshotOf sA)
    /\ (length h0 + 2 <= MAX_UNDO_STEPS -> left = saveUndoState h0 sA)
    /\ (MAX_UNDO_STEPS < length h0 + 2 -> left = tl (saveUndoState h0 sA)).
Proof.
  intros HA Hm.
  destruct (undo_restore_snapshot sA mA w m HA Hm) as (w' & E & Hu & _).
  (* the history after the two saves ends with the two snapshots *)
  assert (S2 : exists rest,
             saveUndoState (saveUndoState h0 sA) sB
             = (rest ++ [snapshotOf sA; snapshotOf sB])%list
             /\ (length h0 + 2 <= MAX_UNDO_STEPS ->
                   (rest ++ [snapshotOf sA])%list = saveUndoState h0 sA)
             /\ (MAX_UNDO_STEPS < length h0 + 2 ->
                   (rest ++ [snapshotOf sA])%list = tl (saveUndoState h0 sA))).
  { destruct (saveUndoState_cases h0 sA) as [[L1 E1]|[L1 E1]];
      destruct (saveUndoState_cases (saveUndoState h0 sA) sB) as [[L2 E2]|[L2 E2]];
      rewrite E1 in *; rewrite length_app in L2; cbn [length] in L2;
      unfold MAX_UNDO_STEPS in *.
    - exists h0. rewrite E2, <- app_assoc. split; [reflexivity|].
      split; [reflexivity|]. intros Hgt. exfalso. lia.
    - destruct h0 as [|x h0]; cbn [length] in *; [exfalso; lia|].
      exists h0. rewrite E2. cbn [app tl]. rewrite <- app_assoc.
      split; [reflexivity|]. split; [intros Hle; exfalso; lia|].
      reflexivity.
    - exfalso. destruct h0; cbn [length tl] in *; lia.
    - destruct h0 as [|x [|y h0]]; cbn [length] in *; try (exfalso; lia).
      exists h0. rewrite E2. cbn [app tl]. rewrite <- app_assoc.
      split; [reflexivity|]. split; [intros Hle; exfalso; lia|].
      reflexivity. }
  destruct S2 as (rest & E2 & Hbelow & Hfull).
  exists w', (set_rotation (rotation mA) (set_position (position mA) m)),
    (rest ++ [snapshotOf sA])%list.
  split.
  { rewrite E2. unfold undo.
    replace (rest ++ [snapshotOf sA; snapshotOf sB])%list
      with ((rest ++ [snapshotOf sA]) ++ [snapshotOf sB])%list
      by (rewrite <- app_assoc; reflexivity).
    destruct (length ((rest ++ [snapshotOf sA]) ++ [snapshotOf sB]) <? 2)%nat eqn:El.
    { apply Nat.ltb_lt in El. rewrite !length_app in El. cbn in El. lia. }
    rewrite removelast_snoc, last_snoc_Some, E. reflexivity. }
  split; [exact Hu|]. split; [reflexivity|]. split; [reflexivity|].
  split; [reflexivity|]. split; [apply last_snoc_Some|].
  split; assumption.
Qed.

End UndoProperties.

(** ** Import and undo, processing and undo *)

Section SessionProperties.
Context `{ThreeLibrary}.

(** The world a successful [importUserSTL_try] leaves. *)
Lemma importUserSTL_try_returns contents file_name w parsed :
  stlParse contents = inr parsed ->
  (forall m, userModel (state w) = Some m -> is_Some (geometry m)) ->
  exists w' um,
    importUserSTL_try contents file_name w = (Returned tt, w')
    /\ userModel (state w') = Some um
    /\ geometry um = Some (fresh (dom (heap w)))
    /\ heap w' = <[fresh (dom (heap w)) :=
                     Geometry.center (Geometry.computeVertexNormals parsed)]> (heap w)
    /\ rotation um = MODEL_ROTATION_OFFSET
    /\ position um = match hooks (rig (state w)) with
                     | Some h => position h
                     | None => THREE.zero3
                     end
    /\ scale um = THREE.one3
    /\ parentMatrixWorld um = THREE.identity
    /\ rig (state w') = rig (state w)
    /\ isProcessed (state w') = isProcessed (state w)
    /\ btn_export_disabled (ui w') = btn_export_disabled (ui w).
Proof.
  intros Hparse Hprev.
  set (f := fresh (dom (heap w))).
  set (imported := Geometry.center (Geometry.computeVertexNormals parsed)).
  assert (Ehead : forall k : loc -> Js unit,
    bind (match stlParse contents with
          | inl e => throw e
          | inr g => allocGeometry g
          end)
         (fun geo => updateGeometry Geometry.computeVertexNormals geo ;;;
                     updateGeometry Geometry.center geo ;;; k geo) w
    = k f (set_heap (<[f := imported]> (heap w)) w)).
  { intros k. rewrite Hparse.
    rewrite (bind_returned (allocGeometry parsed) _ w f
               (set_heap (<[f := parsed]> (heap w)) w) eq_refl).
    set (w1 := set_heap (<[f := parsed]> (heap w)) w).
    assert (H1 : heap w1 !! f = Some parsed) by apply lookup_insert_eq.
    rewrite (bind_returned _ _ _ _ _ (updateGeometry_eq _ _ _ _ H1)).
    subst w1. cbn [heap set_heap]. rewrite set_heap_set_heap, insert_insert_eq.
    set (w2 := set_heap _ w).
    assert (H2 : heap w2 !! f = Some (Geometry.computeVertexNormals parsed))
      by apply lookup_insert_eq.
    rewrite (bind_returned _ _ _ _ _ (updateGeometry_eq _ _ _ _ H2)).
    subst w2. cbn [heap set_heap]. rewrite set_heap_set_heap, insert_insert_eq.
    reflexivity. }
  unfold importUserSTL_try. rewrite Ehead.
  unfold gets, modifyState, modifyUi, updateInstruction, modify, dispose, bind, ret.
  cbn [state heap set_heap disposed ui].
  destruct (userModel (state w)) as [m|] eqn:Hm.
  - destruct (Hprev m eq_refl) as [old Hold]. rewrite Hold.
    destruct (hooks (rig (state w))) eqn:Hh;
      (eexists _, _; split; [cbn; rewrite ?Hh; reflexivity|];
       cbn; rewrite ?Hh; repeat split; reflexivity).
  - destruct (hooks (rig (state w))) eqn:Hh;
      (eexists _, _; split; [cbn; rewrite ?Hh; reflexivity|];
       cbn; rewrite ?Hh; repeat split; reflexivity).
Qed.

(** X5. A successful import appends to the undo history a snapshot of the
    model as just placed (rotation offset, position of the hooks) and, below
    the bound of 50, keeps every earlier snapshot: the history is not
    cleared when another scan is loaded. When the file does not parse, the
    history is left as it was and the error line is shown. *)
Theorem importUserSTL_session_history
    (contents : list Byte.byte) (file_name : string) (h : list Snapshot) (w : World) :
  (forall m, userModel (state w) = Some m -> is_Some (geometry m)) ->
  match stlParse contents with
  | inr parsed =>
      exists w' snapshot,
        importUserSTL_session contents file_name h w
        = (saveUndoState h (state w'), (Returned tt, w'))
        /\ importUserSTL contents file_name w = (Returned tt, w')
        /\ last (saveUndoState h (state w')) = Some snapshot
        /\ modelRotation snapshot = Some MODEL_ROTATION_OFFSET
        /\ modelPosition snapshot = Some match hooks (rig (state w)) with
                                         | Some hk => position hk
                                         | None => THREE.zero3
                                         end
        /\ (length h < MAX_UNDO_STEPS ->
              saveUndoState h (state w') = (h ++ [snapshot])%list)
  | inl e =>
      exists w',
        importUserSTL_session contents file_name h w = (h, (Returned tt, w'))
        /\ importUserSTL contents file_name w = (Returned tt, w')
        /\ instruction_text (ui w') = "Error loading STL file. Ensure it is a valid STL."
        /\ state w' = state w /\ heap w' = heap w /\ disposed w' = disposed w
  end.
Proof.
  intros Hprev. destruct (stlParse contents) as [e|parsed] eqn:Hparse.
  - unfold importUserSTL_session, importUserSTL, tryCatch, importUserSTL_try.
    rewrite Hparse. cbn. eexists. repeat split.
  - destruct (importUserSTL_try_returns contents file_name w parsed Hparse Hprev)
      as (w' & um & E & Hu & _ & _ & Hr & Hp & _).
    exists w', (snapshotOf (state w')).
    unfold importUserSTL_session, importUserSTL, tryCatch. rewrite E.
    split; [reflexivity|]. split; [reflexivity|].
    split.
    { unfold saveUndoState.
      destruct (MAX_UNDO_STEPS <? length (h ++ [snapshotOf (state w')]))%nat eqn:El.
      - destruct h as [|x h]; [discriminate El|]. cbn [app tl]. apply last_snoc_Some.
      - apply last_snoc_Some. }
    split. { unfold snapshotOf. cbn [modelRotation]. rewrite Hu. cbn. rewrite Hr. reflexivity. }
    split. { unfold snapshotOf. cbn [modelPosition]. rewrite Hu. cbn. rewrite Hp. reflexivity. }
    intros Hlen. apply saveUndoState_below. exact Hlen.
Qed.

(** X6. [undo] is not locked by processing. After a successful run, an
    [undo] on a history with two or more entries gives the fused model the
    position and rotation of the entry below the newest, although its
    geometry is the composite that is already baked in world space;
    [isProcessed] stays set. *)
Theorem undo_after_processing_moves_fused_model
    (w : World) (um : Mesh) (l : loc) (g : BufferGeometry) (pos : list Vec3)
    (composite : BufferGeometry)
    (older : list Snapshot) (s0 : AppState) (m0 : Mesh) (newest : Snapshot) :
  userModel (state w) = Some um ->
  geometry um = Some l ->
  heap w !! l = Some g ->
  attributes_position g = Some pos ->
  rigAllocated (heap w) (rig (state w)) ->
  noNullScrew (rig (state w)) ->
  composeAll (fusionPlan (heap w) (refreshRig (rig (state w))))
             (Geometry.applyMatrix4 (matrixWorld (updateMatrixWorld um)) (prepared g))
  = inr composite ->
  userModel s0 = Some m0 ->
  exists w1 cl w2 m2,
    doProcessAndMerge w = (Returned tt, w1)
    /\ heap w1 !! cl = Some (cleaned composite)
    /\ undo (older ++ [snapshotOf s0; newest]) w1
       = ((older ++ [snapshotOf s0])%list, (Returned tt, w2))
    /\ userModel (state w2) = Some m2
    /\ geometry m2 = Some cl
    /\ heap w2 !! cl = Some (cleaned composite)
    /\ position m2 = position m0
    /\ rotation m2 = rotation m0
    /\ isProcessed (state w2) = true.
Proof.
  intros Hum Hgeo Hl Hpos Hal Hnn Hok H0.
  pose proof (doProcessAndMerge_spec w um l g pos Hum Hgeo Hl Hpos Hal Hnn) as S.
  rewrite Hok in S.
  destruct S as (w1 & cl & E & _ & Hcl & _ & _ & Hu & Hp & _).
  destruct (undo_restore_snapshot s0 m0 w1 _ H0 Hu)
    as (w2 & E2 & Hu2 & _ & Hh2 & _ & Hp2 & _).
  eexists w1, cl, w2, _.
  split; [exact E|]. split; [exact Hcl|].
  split.
  { unfold undo.
    replace (older ++ [snapshotOf s0; newest])%list
      with ((older ++ [snapshotOf s0]) ++ [newest])%list by (rewrite <- app_assoc; reflexivity).
    destruct (length ((older ++ [snapshotOf s0]) ++ [newest]) <? 2)%nat eqn:El.
    { apply Nat.ltb_lt in El. rewrite !length_app in El. cbn in El. lia. }
    rewrite removelast_snoc, last_snoc_Some, E2. reflexivity. }
  split; [exact Hu2|].
  rewrite Hh2, Hp2.
  repeat split; assumption.
Qed.


End SessionProperties.

(** ** What the boolean steps and the cleanup never touch *)

Section FrameFacts.
Context `{ThreeLibrary}.

Lemma readGeometry_none l w :
  heap w !! l = None -> readGeometry l w = (Thrown (TypeError "attributes"), w).
Proof. intros Hl. unfold readGeometry. rewrite Hl. reflexivity. Qed.

Lemma onlyAllocates_bind {A B} (c : Js A) (k : A -> Js B) :
  onlyAllocates c -> (forall a, onlyAllocates (k a)) -> onlyAllocates (bind c k).
Proof.
  intros Hc Hk w. unfold bind. specialize (Hc w).
  destruct (c w) as [[a|e] w1]; cbn [snd] in *; [|exact Hc].
  eapply grown_trans; [exact Hc|apply Hk].
Qed.

Lemma onlyAllocates_ret {A} (a : A) : onlyAllocates (ret a).
Proof. intros w. apply grown_refl. Qed.

Lemma onlyAllocates_throw {A} e : onlyAllocates (@throw A e).
Proof. intros w. apply grown_refl. Qed.

Lemma onlyAllocates_gets {A} (f : World -> A) : onlyAllocates (gets f).
Proof. intros w. apply grown_refl. Qed.

Lemma onlyAllocates_getUserModel p : onlyAllocates (getUserModel p).
Proof. intros w. unfold getUserModel. destruct (userModel (state w)); apply grown_refl. Qed.

Lemma onlyAllocates_prepare l nm : onlyAllocates (prepareGeometryForCSG l nm).
Proof.
  intros w. destruct (heap w !! l) as [g|] eqn:Hl.
  - rewrite (prepareGeometryForCSG_eq l nm w g Hl). apply grown_alloc.
  - unfold prepareGeometryForCSG, bind, clone. rewrite Hl. apply grown_refl.
Qed.

(** Baking into an object and evaluating against it: the object is
    rewritten, so this only allocates when the object is a fresh one. *)
Lemma bake_evaluate_grown m f r op w0 w g :
  heap w0 !! f = None ->
  w = set_heap (<[f := g]> (heap w0)) w0 ->
  grown w0 (snd ((updateGeometry (Geometry.applyMatrix4 m) f ;;; evaluate r f op) w)).
Proof.
  intros Hf ->.
  set (w1 := set_heap (<[f := g]> (heap w0)) w0).
  assert (H1 : heap w1 !! f = Some g) by apply lookup_insert_eq.
  rewrite (bind_returned _ _ _ _ _ (updateGeometry_eq _ _ _ _ H1)).
  subst w1. cbn [heap set_heap]. rewrite set_heap_set_heap, insert_insert_eq.
  set (w2 := set_heap _ w0).
  assert (G2 : grown w0 w2).
  { eexists. split; [reflexivity|]. apply insert_subseteq. exact Hf. }
  assert (H2f : heap w2 !! f = Some (Geometry.applyMatrix4 m g)) by apply lookup_insert_eq.
  destruct (heap w2 !! r) as [gr|] eqn:Hr.
  - rewrite (evaluate_eq _ _ op _ _ _ Hr H2f).
    destruct (csgEvaluate _ _ op); cbn [snd]; [exact G2|].
    eapply grown_trans; [exact G2|apply grown_alloc].
  - unfold evaluate. rewrite (bind_thrown _ _ _ _ _ (readGeometry_none _ _ Hr)). exact G2.
Qed.

Lemma onlyAllocates_applyOperand mesh label op r :
  onlyAllocates (applyOperand mesh label op r).
Proof.
  intros w. unfold applyOperand.
  destruct mesh as [m|]; [|apply grown_refl].
  destruct (geometry m) as [mg|]; [|apply grown_refl].
  destruct (heap w !! mg) as [g0|] eqn:Hg.
  - rewrite (bind_returned _ _ _ _ _ (prepareGeometryForCSG_eq mg (label m) w g0 Hg)).
    destruct (attributes_position g0); [|apply grown_alloc].
    eapply bake_evaluate_grown; [apply fresh_not_allocated|reflexivity].
  - unfold prepareGeometryForCSG, bind, clone. rewrite Hg. apply grown_refl.
Qed.

Lemma onlyAllocates_subtractScrews screws : forall r, onlyAllocates (subtractScrews screws r).
Proof.
  induction screws as [|screw rest IH]; intros r; cbn [subtractScrews].
  - apply onlyAllocates_ret.
  - apply onlyAllocates_bind; [apply onlyAllocates_applyOperand|exact IH].
Qed.

Lemma onlyAllocates_booleanSteps : onlyAllocates booleanSteps.
Proof.
  intros w. unfold booleanSteps.
  destruct (userModel (state w)) as [um|] eqn:Hum.
  2:{ unfold bind at 1, getUserModel. rewrite Hum. apply grown_refl. }
  rewrite (bind_returned _ _ _ _ _ (getUserModel_eq _ _ _ Hum)).
  destruct (geometry um) as [l|]; [|apply grown_refl].
  destruct (heap w !! l) as [g|] eqn:Hl.
  2:{ unfold prepareGeometryForCSG, bind, clone. rewrite Hl. apply grown_refl. }
  rewrite (bind_returned _ _ _ _ _ (prepareGeometryForCSG_eq l "UserModel" w g Hl)).
  destruct (attributes_position g); [|apply grown_alloc].
  set (f := fresh (dom (heap w))).
  set (w1 := set_heap (<[f := prepared g]> (heap w)) w).
  assert (H1 : heap w1 !! f = Some (prepared g)) by apply lookup_insert_eq.
  rewrite (bind_returned _ _ _ _ _ (updateGeometry_eq _ _ _ _ H1)).
  subst w1. cbn [heap set_heap]. rewrite set_heap_set_heap, insert_insert_eq.
  set (w2 := set_heap _ w).
  assert (G2 : grown w w2) by apply grown_alloc.
  eapply grown_trans; [exact G2|].
  assert (Hrest : onlyAllocates
    (let* filler := gets (fun w => fillerTransform (rig (state w))) in
     let* resultBrush := applyOperand filler (fun _ => "Filler") ADDITION f in
     let* base := gets (fun w => baseTrim (rig (state w))) in
     let* resultBrush := applyOperand base (fun _ => "Base-trim") SUBTRACTION resultBrush in
     let* screws := gets (fun w => screwMeshes (rig (state w))) in
     subtractScrews screws resultBrush)).
  { repeat first [ apply onlyAllocates_bind | intro | apply onlyAllocates_gets
                 | apply onlyAllocates_applyOperand | apply onlyAllocates_subtractScrews ]. }
  apply Hrest.
Qed.

Lemma onlyAllocates_cleanup r : onlyAllocates (cleanup r).
Proof.
  intros w. destruct (heap w !! r) as [c|] eqn:Hr.
  - rewrite (cleanup_eq r w c Hr). apply grown_alloc.
  - unfold cleanup. rewrite (bind_thrown _ _ _ _ _ (readGeometry_none _ _ Hr)).
    apply grown_refl.
Qed.

(** X7. Steps 1 to 4 and the cleanup only add objects to the store, on
    every world and whatever their outcome, thrown errors included: each
    geometry that existed keeps its value, and the meshes, the flags, the
    page and the disposal marks are those of the start. *)
Theorem booleanSteps_cleanup_only_allocate (w : World) :
  (let w' := snd (booleanSteps w) in
   (forall l g, heap w !! l = Some g -> heap w' !! l = Some g)
   /\ state w' = state w /\ ui w' = ui w /\ disposed w' = disposed w)
  /\ (forall r,
        let w' := snd (cleanup r w) in
        (forall l g, heap w !! l = Some g -> heap w' !! l = Some g)
        /\ state w' = state w /\ ui w' = ui w /\ disposed w' = disposed w).
Proof.
  split; [|intros r]; cbv zeta.
  - pose proof (onlyAllocates_booleanSteps w) as G.
    split; [intros l g; apply (grown_lookup _ _ l g G)|].
    destruct G as (h' & -> & _). repeat split.
  - pose proof (onlyAllocates_cleanup r w) as G.
    split; [intros l g; apply (grown_lookup _ _ l g G)|].
    destruct G as (h' & -> & _). repeat split.
Qed.

End FrameFacts.

(** ** The run is all or nothing *)

Section AtomicityFacts.
Context `{ThreeLibrary}.

Lemma meshesForEach_ok_inv f ms :
  snd (meshesForEach f ms) = true ->
  Forall (fun screw : option Mesh => is_Some screw) (fst (meshesForEach f ms)).
Proof.
  induction ms as [|[m|] rest IH]; cbn.
  - constructor.
  - destruct (meshesForEach f rest) as [rest' ok]. cbn in *. intros Hok.
    constructor; [eauto|apply IH; exact Hok].
  - discriminate.
Qed.

(** The refresh on a world with a model: the matrices are rewritten in any
    case; it throws exactly when it meets a [null] screw entry. *)
Lemma refreshTransforms_any w um :
  userModel (state w) = Some um ->
  exists o,
    refreshTransforms w = (o, set_state (refreshState (state w)) w)
    /\ (o = Returned tt /\ noNullScrew (refreshRig (rig (state w)))
        \/ exists e, o = Thrown e).
Proof.
  intros Hum. unfold refreshTransforms.
  rewrite (bind_returned _ _ _ _ _ (getUserModel_eq _ _ _ Hum)).
  pose proof (meshesForEach_ok_inv updateMatrixWorld (screwMeshes (rig (state w)))) as Hinv.
  unfold noNullScrew, refreshState, refreshRig, screwsForEach, modifyUserModel, modifyRig,
    modifyState, modify, gets, bind, ret.
  cbn [state set_state rig set_rig screwMeshes set_fillerTransform set_baseTrim
       set_userModel userModel currentStep isProcessed heap disposed ui
       baseTrim fillerTransform guide2mm hooks sampleModel].
  destruct (meshesForEach updateMatrixWorld (screwMeshes (rig (state w)))) as [ms' ok].
  cbn [fst snd] in *. destruct ok.
  - eexists. split; [reflexivity|]. left. split; [reflexivity|]. apply Hinv. reflexivity.
  - eexists. split; [reflexivity|]. right. eexists. reflexivity.
Qed.

(** Steps 1 to 4 return only when the model has a geometry. *)
Lemma booleanSteps_returned_geometry w um r w' :
  userModel (state w) = Some um ->
  booleanSteps w = (Returned r, w') ->
  is_Some (geometry um).
Proof.
  intros Hum. unfold booleanSteps.
  rewrite (bind_returned _ _ _ _ _ (getUserModel_eq _ _ _ Hum)).
  destruct (geometry um) as [l|]; [eauto|].
  unfold bind, throw. discriminate.
Qed.

(** The cleanup returns a new object. *)
Lemma cleanup_returned r w cl w' :
  cleanup r w = (Returned cl, w') ->
  heap w !! cl = None /\ is_Some (heap w' !! cl).
Proof.
  destruct (heap w !! r) as [c|] eqn:Hr.
  - rewrite (cleanup_eq r w c Hr). intros [= <- <-].
    split; [apply fresh_not_allocated|]. cbn [heap set_heap]. rewrite lookup_insert_eq. eauto.
  - unfold cleanup. rewrite (bind_thrown _ _ _ _ _ (readGeometry_none _ _ Hr)). discriminate.
Qed.

(** The [try] block on any world with a model. *)
Lemma doProcessAndMerge_try_cases w um :
  userModel (state w) = Some um ->
  exists o w1,
    doProcessAndMerge_try w = (o, w1)
    /\ (forall l g, heap w !! l = Some g -> heap w1 !! l = Some g)
    /\ match o with
       | Returned _ =>
           exists cl,
             userModel (state w1)
             = Some (updateMatrix (set_rotation (0, 0, 0)%R (set_position (0, 0, 0)%R
                                      (set_geometry (Some cl) (updateMatrixWorld um)))))
             /\ heap w !! cl = None
             /\ is_Some (heap w1 !! cl)
             /\ isProcessed (state w1) = true
             /\ btn_export_disabled (ui w1) = false
             /\ btn_process_disabled (ui w1) = true
             /\ processing_overlay_hidden (ui w1) = true
       | Thrown _ =>
           ui w1 = ui w
           /\ disposed w1 = disposed w
           /\ userModel (state w1) = Some (updateMatrixWorld um)
           /\ isProcessed (state w1) = isProcessed (state w)
       end.
Proof.
  intros Hum. unfold doProcessAndMerge_try.
  destruct (refreshTransforms_any w um Hum) as (o1 & E1 & Ho1).
  set (w1 := set_state (refreshState (state w)) w) in *.
  assert (Hum1 : userModel (state w1) = Some (updateMatrixWorld um)).
  { cbn. rewrite Hum. reflexivity. }
  destruct Ho1 as [[-> Hnn]|[e ->]].
  2:{ rewrite (bind_thrown _ _ _ _ _ E1). exists (Thrown e), w1.
      split; [reflexivity|]. split; [intros l g Hl; exact Hl|]. repeat split. exact Hum1. }
  rewrite (bind_returned _ _ _ _ _ E1).
  pose proof (onlyAllocates_booleanSteps w1) as G2.
  destruct (booleanSteps w1) as [[r|e] w2] eqn:E2; cbn [snd] in G2.
  2:{ rewrite (bind_thrown _ _ _ _ _ E2). exists (Thrown e), w2.
      split; [reflexivity|].
      split; [intros l g Hl; exact (grown_lookup w1 w2 l g G2 Hl)|].
      destruct G2 as (h2 & -> & _). repeat split. exact Hum1. }
  rewrite (bind_returned _ _ _ _ _ E2).
  destruct (booleanSteps_returned_geometry w1 _ r w2 Hum1 E2) as [l Hgeo].
  pose proof (onlyAllocates_cleanup r w2) as G3.
  destruct (cleanup r w2) as [[cl|e] w3] eqn:E3; cbn [snd] in G3.
  2:{ rewrite (bind_thrown _ _ _ _ _ E3). exists (Thrown e), w3.
      assert (G13 : grown w1 w3) by (eapply grown_trans; eassumption).
      split; [reflexivity|].
      split; [intros l0 g Hl; exact (grown_lookup w1 w3 l0 g G13 Hl)|].
      destruct G13 as (h3 & -> & _). repeat split. exact Hum1. }
  rewrite (bind_returned _ _ _ _ _ E3).
  assert (G13 : grown w1 w3) by (eapply grown_trans; eassumption).
  destruct (cleanup_returned r w2 cl w3 E3) as [Hnew Hcl].
  assert (Hum3 : userModel (state w3) = Some (updateMatrixWorld um)).
  { rewrite (grown_state _ _ G13). exact Hum1. }
  assert (Hnn3 : noNullScrew (rig (state w3))).
  { rewrite (grown_state _ _ G13). exact Hnn. }
  destruct (commit_spec cl w3 _ l Hum3 Hgeo Hnn3)
    as (w4 & E4 & Hh & Hd & Hu & Hp & Hx & Hpr & _ & _ & _ & Hov).
  exists (Returned tt), w4. split; [exact E4|].
  rewrite Hh.
  split; [intros l0 g Hl; exact (grown_lookup w1 w3 l0 g G13 Hl)|].
  exists cl. repeat split; try assumption.
  destruct (heap w !! cl) as [x|] eqn:Ecl; [|reflexivity].
  pose proof (grown_lookup w1 w2 cl x G2 Ecl) as E. rewrite Hnew in E. discriminate.
Qed.


End AtomicityFacts.

(** ** Failure of the model's own preparation *)

Section ModelPreparation.
Context `{ThreeLibrary}.

(** X9. When the user model's geometry has no position buffer, the run
    fails before any boolean evaluation, whatever the rig holds: the
    instruction line reads "Boolean failed: User model geometry preparation
    failed. Check console.", the model keeps its geometry object with its
    value, its position and rotation, and [isProcessed] and the export
    button are as before. *)
Theorem doProcessAndMerge_model_without_positions
    (w : World) (um : Mesh) (l : loc) (g : BufferGeometry) :
  userModel (state w) = Some um ->
  geometry um = Some l ->
  heap w !! l = Some g ->
  attributes_position g = None ->
  noNullScrew (rig (state w)) ->
  exists w' um',
    doProcessAndMerge w = (Returned tt, w')
    /\ instruction_text (ui w')
       = "Boolean failed: User model geometry preparation failed. Check console."
    /\ userModel (state w') = Some um'
    /\ geometry um' = Some l
    /\ heap w' !! l = Some g
    /\ position um' = position um
    /\ rotation um' = rotation um
    /\ disposed w' = disposed w
    /\ isProcessed (state w') = isProcessed (state w)
    /\ btn_export_disabled (ui w') = btn_export_disabled (ui w).
Proof.
  intros Hum Hgeo Hl Hpos Hnn.
  unfold doProcessAndMerge, updateProcessingStatus, modifyUi, modify.
  unfold bind at 1.
  set (w0 := set_ui _ w).
  unfold tryCatch, doProcessAndMerge_try.
  rewrite (bind_returned _ _ _ _ _ (refreshTransforms_eq w0 um Hum Hnn)).
  set (w1 := set_state (refreshState (state w0)) w0).
  assert (Hum1 : userModel (state w1) = Some (updateMatrixWorld um)).
  { cbn. rewrite Hum. reflexivity. }
  assert (E : booleanSteps w1
              = (Thrown (Error "User model geometry preparation failed"),
                 set_heap (<[fresh (dom (heap w1)) := prepared g]> (heap w1)) w1)).
  { unfold booleanSteps.
    rewrite (bind_returned _ _ _ _ _ (getUserModel_eq _ _ _ Hum1)).
    change (geometry (updateMatrixWorld um)) with (geometry um). rewrite Hgeo.
    assert (Hl1 : heap w1 !! l = Some g) by exact Hl.
    rewrite (bind_returned _ _ _ _ _ (prepareGeometryForCSG_eq l "UserModel" w1 g Hl1)).
    rewrite Hpos. reflexivity. }
  rewrite (bind_thrown _ _ _ _ _ E).
  eexists _, (updateMatrixWorld um). split; [reflexivity|].
  cbn. rewrite Hum. cbn.
  repeat split; auto.
  rewrite lookup_insert_ne; [exact Hl|].
  intros E0. apply (allocated_not_fresh _ _ _ Hl). symmetry. exact E0.
Qed.

End ModelPreparation.

(** ** Export *)

Section ExportProperties.
Context `{ThreeLibrary}.

Lemma updateMatrixWorld_idempotent m :
  updateMatrixWorld (updateMatrixWorld m) = updateMatrixWorld m.
Proof. destruct m. reflexivity. Qed.

Lemma exportSTL_try_eq w um l g :
  userModel (state w) = Some um ->
  geometry um = Some l ->
  heap w !! l = Some g ->
  exportSTL_try w
  = (match stlWrite (exportedGeometry um g) with
     | inl e => Thrown e
     | inr [] => Thrown (Error "Generated STL file is empty (0 bytes)")
     | inr bytes => Returned (Some bytes)
     end,
     set_heap (<[fresh (dom (heap w)) := exportedGeometry um g]> (heap w))
       (set_state (set_userModel (Some (updateMatrixWorld um)) (state w)) w)).
Proof.
  intros Hum Hgeo Hl. unfold exportSTL_try.
  rewrite (bind_returned _ _ _ _ _ (exportGeometry_build_eq w um l g Hum Hgeo Hl)).
  fold (exportedGeometry um g).
  set (w1 := set_heap _ _).
  assert (Hf : heap w1 !! fresh (dom (heap w)) = Some (exportedGeometry um g))
    by apply lookup_insert_eq.
  rewrite (bind_returned _ _ _ _ _ (readGeometry_eq _ _ _ Hf)).
  destruct (stlWrite (exportedGeometry um g)) as [e|[|b bs]]; reflexivity.
Qed.

(** When [exportSTL] yields a blob. *)
Lemma exportSTL_blob_inv w bytes w' :
  exportSTL w = (Returned (Some bytes), w') ->
  exists um l g p ps,
    userModel (state w) = Some um
    /\ geometry um = Some l
    /\ heap w !! l = Some g
    /\ attributes_position g = Some (p :: ps)
    /\ isProcessed (state w) = true
    /\ stlWrite (exportedGeometry um g) = inr bytes
    /\ bytes <> []
    /\ w' = set_heap (<[fresh (dom (heap w)) := exportedGeometry um g]> (heap w))
              (set_state (set_userModel (Some (updateMatrixWorld um)) (state w))
                 (set_ui (set_instruction "Generating STL file..." (ui w)) w)).
Proof.
  unfold exportSTL. unfold gets at 1. unfold bind at 1.
  destruct (userModel (state w)) as [um|] eqn:Hum.
  2:{ unfold updateInstruction, modifyUi, modify, bind, ret. discriminate. }
  unfold gets at 1. unfold bind at 1.
  destruct (isProcessed (state w)) eqn:Hp; cbn [negb].
  2:{ unfold updateInstruction, modifyUi, modify, bind, ret. discriminate. }
  unfold updateInstruction at 1, modifyUi, modify. unfold bind at 1.
  set (w0 := set_ui _ w).
  destruct (geometry um) as [l|] eqn:Hgeo.
  2:{ unfold updateInstruction, modifyUi, modify, bind, ret. discriminate. }
  destruct (heap w0 !! l) as [g|] eqn:Hl.
  2:{ rewrite (bind_thrown _ _ _ _ _ (readGeometry_none _ _ Hl)). discriminate. }
  rewrite (bind_returned _ _ _ _ _ (readGeometry_eq _ _ _ Hl)).
  destruct (attributes_position g) as [[|p ps]|] eqn:Hpos;
    try (unfold updateInstruction, modifyUi, modify, bind, ret; discriminate).
  unfold tryCatch. rewrite (exportSTL_try_eq w0 um l g Hum Hgeo Hl).
  destruct (stlWrite (exportedGeometry um g)) as [e|[|b bs]] eqn:Hw;
    try (unfold updateInstruction, modifyUi, modify, bind, ret; discriminate).
  intros [= <- <-].
  exists um, l, g, p, ps. repeat split; auto.
Qed.

(** When the writer gives a blob that is not empty, [exportSTL] yields it. *)
Lemma exportSTL_blob_eq w um l g p ps b bs :
  userModel (state w) = Some um ->
  geometry um = Some l ->
  heap w !! l = Some g ->
  attributes_position g = Some (p :: ps) ->
  isProcessed (state w) = true ->
  stlWrite (exportedGeometry um g) = inr (b :: bs) ->
  exportSTL w
  = (Returned (Some (b :: bs)),
     set_heap (<[fresh (dom (heap w)) := exportedGeometry um g]> (heap w))
       (set_state (set_userModel (Some (updateMatrixWorld um)) (state w))
          (set_ui (set_instruction "Generating STL file..." (ui w)) w))).
Proof.
  intros Hum Hgeo Hl Hpos Hp Hw.
  unfold exportSTL. unfold gets at 1. unfold bind at 1. rewrite Hum.
  unfold gets at 1. unfold bind at 1. rewrite Hp. cbn [negb].
  unfold updateInstruction at 1, modifyUi, modify. unfold bind at 1.
  set (w0 := set_ui _ w). rewrite Hgeo.
  assert (Hl0 : heap w0 !! l = Some g) by exact Hl.
  rewrite (bind_returned _ _ _ _ _ (readGeometry_eq _ _ _ Hl0)). rewrite Hpos.
  unfold tryCatch.
  rewrite (exportSTL_try_eq w0 um l g Hum Hgeo Hl0), Hw. reflexivity.
Qed.

(** X10. [exportSTL] yields a blob only for a processed model whose
    geometry has at least one vertex, the blob is never empty, and it is
    what the STL writer returns for the clone of the model's geometry with
    the world matrix and the +90 degree X rotation baked in. The model's
    geometry object keeps its value, nothing is disposed, and [isProcessed]
    is unchanged. *)
Theorem exportSTL_blob_only_when_processed
    (w : World) (bytes : list Byte.byte) (w' : World) :
  exportSTL w = (Returned (Some bytes), w') ->
  isProcessed (state w) = true
  /\ bytes <> []
  /\ exists um l g,
       userModel (state w) = Some um
       /\ geometry um = Some l
       /\ heap w !! l = Some g
       /\ attributes_position g <> None
       /\ attributes_position g <> Some []
       /\ stlWrite (Geometry.applyMatrix4 (THREE.makeRotationX (THREE.degToRad 90))
                      (Geometry.applyMatrix4 (matrixWorld (updateMatrixWorld um)) g))
          = inr bytes
       /\ heap w' !! l = Some g
       /\ disposed w' = disposed w
       /\ isProcessed (state w') = true.
Proof.
  intros E.
  destruct (exportSTL_blob_inv w bytes w' E)
    as (um & l & g & p & ps & Hum & Hgeo & Hl & Hpos & Hp & Hw & Hne & ->).
  split; [exact Hp|]. split; [exact Hne|].
  exists um, l, g. rewrite Hpos.
  repeat split; auto; try discriminate.
  cbn. rewrite lookup_insert_ne; [exact Hl|].
  intros E0. apply (allocated_not_fresh _ _ _ Hl). symmetry. exact E0.
Qed.

(** X11. Export can be repeated: when [exportSTL] has yielded a blob, a
    second [exportSTL] on the world it left yields the same blob. The
    correction is applied to a clone each time and does not accumulate. *)
Theorem exportSTL_repeatable (w : World) (bytes : list Byte.byte) (w1 : World) :
  exportSTL w = (Returned (Some bytes), w1) ->
  exists w2, exportSTL w1 = (Returned (Some bytes), w2).
Proof.
  intros E.
  destruct (exportSTL_blob_inv w bytes w1 E)
    as (um & l & g & p & ps & Hum & Hgeo & Hl & Hpos & Hp & Hw & Hne & ->).
  set (w1 := set_heap _ _).
  assert (Hum1 : userModel (state w1) = Some (updateMatrixWorld um)) by reflexivity.
  assert (Hgeo1 : geometry (updateMatrixWorld um) = Some l) by exact Hgeo.
  assert (Hl1 : heap w1 !! l = Some g).
  { cbn. rewrite lookup_insert_ne; [exact Hl|].
    intros E0. apply (allocated_not_fresh _ _ _ Hl). symmetry. exact E0. }
  unfold exportSTL. unfold gets at 1. unfold bind at 1. rewrite Hum1.
  unfold gets at 1. unfold bind at 1.
  change (isProcessed (state w1)) with (isProcessed (state w)). rewrite Hp. cbn [negb].
  unfold updateInstruction at 1, modifyUi, modify. unfold bind at 1.
  set (w2 := set_ui _ w1). rewrite Hgeo1.
  assert (Hl2 : heap w2 !! l = Some g) by exact Hl1.
  rewrite (bind_returned _ _ _ _ _ (readGeometry_eq _ _ _ Hl2)). rewrite Hpos.
  unfold tryCatch.
  rewrite (exportSTL_try_eq w2 (updateMatrixWorld um) l g Hum1 Hgeo1 Hl2).
  unfold exportedGeometry in *. rewrite updateMatrixWorld_idempotent, Hw.
  destruct bytes as [|b bs]; [contradiction Hne; reflexivity|].
  eexists. reflexivity.
Qed.

End ExportProperties.

(** ** Export after a successful run *)

Section AfterFusion.
Context `{ThreeLibrary}.
Local Open Scope R_scope.

Lemma applyMatrix4_identity v : THREE.Vector3_applyMatrix4 THREE.identity v = v.
Proof.
  destruct v as [[x y] z]. unfold THREE.identity. rewrite applyMatrix4_affine.
  repeat f_equal; ring.
Qed.

(** At position and rotation zero, scale one, under a parent with the
    identity as world matrix, the refreshed world matrix is the identity. *)
Lemma updateMatrixWorld_zero_pose m :
  position m = (0, 0, 0) -> rotation m = (0, 0, 0) -> scale m = THREE.one3 ->
  parentMatrixWorld m = THREE.identity ->
  matrixWorld (updateMatrixWorld m) = THREE.identity.
Proof.
  intros Hp Hr Hs Hpar. unfold updateMatrixWorld, updateMatrix.
  cbn [matrixWorld matrix parentMatrixWorld position rotation scale].
  rewrite Hp, Hr, Hs, Hpar.
  unfold THREE.compose, THREE.makeRotationFromEuler, THREE.one3, THREE.multiplyMatrices,
    THREE.mulRow, THREE.dot4, THREE.identity, THREE.column.
  rewrite cos_0, sin_0. repeat f_equal; ring.
Qed.

(** X12. After a successful run on a model with scale one placed under the
    scene root (as [importUserSTL] creates it), the world matrix that
    [exportSTL] refreshes and bakes is the identity matrix: the model's
    position, rotation and scale add nothing, and the exported positions
    are those of the cleaned composite with the matrix of the +90 degree
    rotation about X applied to each, in the same order and with the same
    index. *)
Theorem export_after_fusion_rotates_composite
    (w : World) (um : Mesh) (l : loc) (g : BufferGeometry) (pos : list Vec3)
    (composite : BufferGeometry) :
  userModel (state w) = Some um ->
  geometry um = Some l ->
  heap w !! l = Some g ->
  attributes_position g = Some pos ->
  rigAllocated (heap w) (rig (state w)) ->
  noNullScrew (rig (state w)) ->
  composeAll (fusionPlan (heap w) (refreshRig (rig (state w))))
             (Geometry.applyMatrix4 (matrixWorld (updateMatrixWorld um)) (prepared g))
  = inr composite ->
  scale um = THREE.one3 ->
  parentMatrixWorld um = THREE.identity ->
  exists w1 w2 exported eg um2,
    doProcessAndMerge w = (Returned tt, w1)
    /\ exportGeometry_build w1 = (Returned exported, w2)
    /\ userModel (state w2) = Some um2
    /\ matrixWorld um2 = THREE.identity
    /\ heap w2 !! exported = Some eg
    /\ attributes_position eg
       = option_map (map (THREE.Vector3_applyMatrix4
                            (THREE.makeRotationX (THREE.degToRad 90))))
                    (attributes_position (cleaned composite))
    /\ index eg = index (cleaned composite).
Proof.
  intros Hum Hgeo Hl Hpos Hal Hnn Hok Hs Hpar.
  pose proof (doProcessAndMerge_spec w um l g pos Hum Hgeo Hl Hpos Hal Hnn) as S.
  rewrite Hok in S.
  destruct S as (w1 & cl & E & _ & Hcl & _ & _ & Hu & _).
  set (um1 := updateMatrix (set_rotation (0, 0, 0) (set_position (0, 0, 0)
                (set_geometry (Some cl) (updateMatrixWorld um))))) in *.
  assert (Hmw : matrixWorld (updateMatrixWorld um1) = THREE.identity).
  { apply updateMatrixWorld_zero_pose; try reflexivity; assumption. }
  pose proof (exportGeometry_build_eq w1 um1 cl (cleaned composite) Hu eq_refl Hcl) as E2.
  eexists w1, _, _, _, (updateMatrixWorld um1). split; [exact E|]. split; [exact E2|].
  split; [reflexivity|].
  split; [exact Hmw|].
  split; [apply lookup_insert_eq|].
  split; [|reflexivity].
  rewrite Hmw.
  cbn [Geometry.applyMatrix4 attributes_position].
  destruct (attributes_position (cleaned composite)) as [ps|]; [|reflexivity].
  cbn [option_map]. f_equal. rewrite map_map. apply map_ext. intros v.
  rewrite applyMatrix4_identity. reflexivity.
Qed.

End AfterFusion.

(** ** Normalizing twice, the sample model, the rig after a run *)

Section MoreProperties.
Context `{ThreeLibrary}.

Lemma prepared_idempotent g : prepared (prepared g) = prepared g.
Proof.
  unfold prepared. destruct (attributes_position g) as [pos|] eqn:Hpos; cbn; [|rewrite Hpos];
    reflexivity.
Qed.

(** X13. Normalizing what [prepareGeometryForCSG] returned gives another
    new object with the same contents: the first result already has an
    index, normals and UVs, and the second pass adds nothing. *)
Theorem prepareGeometryForCSG_twice
    (l : loc) (nm : string) (w : World) (g : BufferGeometry) (pos : list Vec3) :
  heap w !! l = Some g ->
  attributes_position g = Some pos ->
  exists l1 w1 g1 l2 w2,
    prepareGeometryForCSG l nm w = (Returned (Some l1), w1)
    /\ heap w1 !! l1 = Some g1
    /\ index g1 <> None /\ attributes_normal g1 <> None /\ attributes_uv g1 <> None
    /\ prepareGeometryForCSG l1 nm w1 = (Returned (Some l2), w2)
    /\ l2 <> l1
    /\ heap w2 !! l2 = Some g1
    /\ heap w2 !! l1 = Some g1
    /\ heap w2 !! l = Some g.
Proof.
  intros Hl Hpos.
  set (l1 := fresh (dom (heap w))).
  set (w1 := set_heap (<[l1 := prepared g]> (heap w)) w).
  assert (H1 : heap w1 !! l1 = Some (prepared g)) by apply lookup_insert_eq.
  assert (Hl1 : heap w1 !! l = Some g).
  { cbn. rewrite lookup_insert_ne; [exact Hl|].
    intros E0. apply (allocated_not_fresh _ _ _ Hl). symmetry. exact E0. }
  assert (Hpos1 : attributes_position (prepared g) = Some pos).
  { unfold prepared. rewrite Hpos. reflexivity. }
  set (l2 := fresh (dom (heap w1))).
  exists l1, w1, (prepared g), l2,
    (set_heap (<[l2 := prepared (prepared g)]> (heap w1)) w1).
  split. { rewrite (prepareGeometryForCSG_eq l nm w g Hl), Hpos. reflexivity. }
  split; [exact H1|].
  split. { unfold prepared. rewrite Hpos. discriminate. }
  split. { unfold prepared. rewrite Hpos. discriminate. }
  split. { unfold prepared. rewrite Hpos. discriminate. }
  split. { rewrite (prepareGeometryForCSG_eq l1 nm w1 _ H1), Hpos1. reflexivity. }
  split. { intros E0. apply (allocated_not_fresh _ _ _ H1). symmetry. exact E0. }
  split. { cbn [heap set_heap]. rewrite lookup_insert_eq, prepared_idempotent. reflexivity. }
  split.
  { cbn [heap set_heap]. rewrite lookup_insert_ne; [exact H1|].
    intros E0. apply (allocated_not_fresh _ _ _ H1). symmetry. exact E0. }
  cbn [heap set_heap]. rewrite lookup_insert_ne; [exact Hl1|].
  intros E0. apply (allocated_not_fresh _ _ _ Hl1). symmetry. exact E0.
Qed.

(** X14. [loadSampleModel] does nothing at all when the rig has no sample.
    Otherwise the user model gets a clone of the sample's geometry: a new
    object with the sample's contents as they are (not recentred, normals
    not recomputed), while the sample's own object keeps its value and the
    rig still points to it; the model gets the rotation offset; the file
    name shown is not changed. *)
Theorem loadSampleModel_clones_sample (w : World) :
  (sampleModel (rig (state w)) = None -> loadSampleModel w = (Returned tt, w))
  /\ (forall sm ls gs,
        sampleModel (rig (state w)) = Some sm ->
        geometry sm = Some ls ->
        heap w !! ls = Some gs ->
        (forall m, userModel (state w) = Some m -> is_Some (geometry m)) ->
        exists w' um gl,
          loadSampleModel w = (Returned tt, w')
          /\ userModel (state w') = Some um
          /\ geometry um = Some gl
          /\ gl <> ls
          /\ heap w !! gl = None
          /\ heap w' !! gl = Some gs
          /\ heap w' !! ls = Some gs
          /\ sampleModel (rig (state w')) = Some sm
          /\ rotation um = MODEL_ROTATION_OFFSET
          /\ filename_display (ui w') = filename_display (ui w)
          /\ instruction_text (ui w') = "DEBUG: Sample model loaded."
          /\ (forall m old, userModel (state w) = Some m -> geometry m = Some old ->
                old ∈ disposed w')).
Proof.
  split.
  - intros Hs. unfold loadSampleModel, gets, bind. rewrite Hs. reflexivity.
  - intros sm ls gs Hs Hgs Hls Hprev.
    assert (Hne : fresh (dom (heap w)) <> ls).
    { intros E0. apply (allocated_not_fresh _ _ _ Hls). symmetry. exact E0. }
    unfold loadSampleModel. unfold gets at 1. unfold bind at 1. rewrite Hs, Hgs.
    assert (Ecl : clone ls w = (Returned (fresh (dom (heap w))),
                                set_heap (<[fresh (dom (heap w)) := gs]> (heap w)) w)).
    { unfold clone. rewrite Hls. reflexivity. }
    rewrite (bind_returned _ _ _ _ _ Ecl).
    unfold gets, modifyState, modifyUi, updateInstruction, modify, dispose, bind, ret.
    cbn [state heap set_heap disposed ui].
    destruct (userModel (state w)) as [m|] eqn:Hm.
    + destruct (Hprev m eq_refl) as [old Hold]. rewrite Hold.
      destruct (hooks (rig (state w))) eqn:Hh;
        (eexists _, _, _; split; [cbn; rewrite ?Hh; reflexivity|];
         cbn; rewrite ?Hh;
         split; [reflexivity|]; split; [reflexivity|]; split; [exact Hne|];
         split; [apply fresh_not_allocated|]; split; [apply lookup_insert_eq|];
         split; [rewrite lookup_insert_ne; [exact Hls|exact Hne]|];
         split; [exact Hs|]; split; [reflexivity|]; split; [reflexivity|];
         split; [reflexivity|];
         intros m' old' [= <-] Hold'; rewrite Hold in Hold'; injection Hold' as <-;
         apply elem_of_union_l, elem_of_singleton; reflexivity).
    + destruct (hooks (rig (state w))) eqn:Hh;
        (eexists _, _, _; split; [cbn; rewrite ?Hh; reflexivity|];
         cbn; rewrite ?Hh;
         split; [reflexivity|]; split; [reflexivity|]; split; [exact Hne|];
         split; [apply fresh_not_allocated|]; split; [apply lookup_insert_eq|];
         split; [rewrite lookup_insert_ne; [exact Hls|exact Hne]|];
         split; [exact Hs|]; split; [reflexivity|]; split; [reflexivity|];
         split; [reflexivity|];
         intros m' old' [=]).
Qed.

End MoreProperties.

Section RigAfterRun.
Context `{ThreeLibrary}.

Lemma meshesForEach_map f ms :
  Forall (fun screw : option Mesh => is_Some screw) ms ->
  fst (meshesForEach f ms) = map (option_map f) ms.
Proof.
  induction 1 as [|screw rest [m ->] _ IH]; [reflexivity|].
  cbn. destruct (meshesForEach f rest). cbn in *. rewrite IH. reflexivity.
Qed.

(** The rig [commit] leaves. *)
Lemma commit_rig cl w um old :
  userModel (state w) = Some um ->
  geometry um = Some old ->
  noNullScrew (rig (state w)) ->
  rig (state (snd (commit cl w))) = hideRig (rig (state w)).
Proof.
  intros Hum Hgeo Hnn. unfold commit.
  rewrite (bind_returned _ _ _ _ _ (getUserModel_eq _ _ _ Hum)). rewrite Hgeo.
  pose proof (meshesForEach_ok (set_visible false) _ Hnn) as Hok.
  pose proof (meshesForEach_map (set_visible false) _ Hnn) as Hmap.
  unfold hideRig, screwsForEach, modifyUserModel, modifyRig, modifyState, modifyUi,
    updateInstruction, hideProcessing, dispose, modify, gets, bind, ret.
  cbn [state set_state rig set_rig screwMeshes set_fillerTransform set_baseTrim
       set_userModel userModel currentStep isProcessed heap disposed ui set_disposed
       baseTrim fillerTransform guide2mm hooks sampleModel set_guide2mm set_hooks
       set_isProcessed set_ui].
  destruct (meshesForEach (set_visible false) (screwMeshes (rig (state w)))) as [ms' ok].
  cbn in Hok, Hmap. subst ok ms'. reflexivity.
Qed.

(** X15. After a successful run the filler, the base-trim, every screw
    mesh, the 2 mm guide and the hooks are hidden; each still points to the
    geometry it had (which keeps its value), and the sample model is not
    touched. *)
Theorem doProcessAndMerge_success_hides_rig
    (w : World) (um : Mesh) (l : loc) (g : BufferGeometry) (pos : list Vec3)
    (composite : BufferGeometry) :
  userModel (state w) = Some um ->
  geometry um = Some l ->
  heap w !! l = Some g ->
  attributes_position g = Some pos ->
  rigAllocated (heap w) (rig (state w)) ->
  noNullScrew (rig (state w)) ->
  composeAll (fusionPlan (heap w) (refreshRig (rig (state w))))
             (Geometry.applyMatrix4 (matrixWorld (updateMatrixWorld um)) (prepared g))
  = inr composite ->
  exists w',
    doProcessAndMerge w = (Returned tt, w')
    /\ rig (state w') = hideRig (refreshRig (rig (state w)))
    /\ (forall m, In (Some m) (screwMeshes (rig (state w'))) -> visible m = false)
    /\ (forall m, fillerTransform (rig (state w')) = Some m -> visible m = false)
    /\ (forall m, baseTrim (rig (state w')) = Some m -> visible m = false)
    /\ (forall m, guide2mm (rig (state w')) = Some m -> visible m = false)
    /\ (forall m, hooks (rig (state w')) = Some m -> visible m = false)
    /\ map (option_map geometry) (screwMeshes (rig (state w')))
       = map (option_map geometry) (screwMeshes (rig (state w)))
    /\ option_map geometry (fillerTransform (rig (state w')))
       = option_map geometry (fillerTransform (rig (state w)))
    /\ option_map geometry (baseTrim (rig (state w')))
       = option_map geometry (baseTrim (rig (state w)))
    /\ sampleModel (rig (state w')) = sampleModel (rig (state w))
    /\ (forall l0 g0, heap w !! l0 = Some g0 -> heap w' !! l0 = Some g0).
Proof.
  intros Hum Hgeo Hl Hpos Hal Hnn Hok.
  pose proof (doProcessAndMerge_spec w um l g pos Hum Hgeo Hl Hpos Hal Hnn) as S.
  rewrite Hok in S.
  destruct S as (w' & cl & E & Hnew & _ & Hheap & _ & Hu & _).
  (* the same run, followed through the [try] block *)
  assert (Hrig : rig (state w') = hideRig (refreshRig (rig (state w)))).
  { revert E.
    unfold doProcessAndMerge, updateProcessingStatus, modifyUi, modify.
    unfold bind at 1. set (w0 := set_ui _ w). unfold tryCatch, doProcessAndMerge_try.
    rewrite (bind_returned _ _ _ _ _ (refreshTransforms_eq w0 um Hum Hnn)).
    set (w1 := set_state (refreshState (state w0)) w0).
    assert (Hum1 : userModel (state w1) = Some (updateMatrixWorld um)).
    { cbn. rewrite Hum. reflexivity. }
    pose proof (onlyAllocates_booleanSteps w1) as G2.
    destruct (booleanSteps w1) as [[r|e] w2] eqn:E2; cbn [snd] in G2.
    2:{ rewrite (bind_thrown _ _ _ _ _ E2). intros [= <-]. exfalso.
        revert Hu. cbn. rewrite (grown_state _ _ G2). cbn. rewrite Hum. cbn.
        intros [= Ecl]. rewrite Hgeo in Ecl. injection Ecl as ->.
        rewrite Hl in Hnew. discriminate. }
    rewrite (bind_returned _ _ _ _ _ E2).
    pose proof (onlyAllocates_cleanup r w2) as G3.
    destruct (cleanup r w2) as [[cl'|e] w3] eqn:E3; cbn [snd] in G3.
    2:{ rewrite (bind_thrown _ _ _ _ _ E3). intros [= <-]. exfalso.
        assert (G13 : grown w1 w3) by (eapply grown_trans; eassumption).
        revert Hu. cbn. rewrite (grown_state _ _ G13). cbn. rewrite Hum. cbn.
        intros [= Ecl]. rewrite Hgeo in Ecl. injection Ecl as ->.
        rewrite Hl in Hnew. discriminate. }
    rewrite (bind_returned _ _ _ _ _ E3).
    assert (G13 : grown w1 w3) by (eapply grown_trans; eassumption).
    assert (Hum3 : userModel (state w3) = Some (updateMatrixWorld um)).
    { rewrite (grown_state _ _ G13). exact Hum1. }
    assert (Hnn3 : noNullScrew (rig (state w3))).
    { rewrite (grown_state _ _ G13). apply noNullScrew_refresh. exact Hnn. }
    pose proof (commit_rig cl' w3 _ l Hum3 Hgeo Hnn3) as Hr.
    destruct (commit cl' w3) as [[[]|e] w4] eqn:E4; cbn [snd] in Hr.
    - intros [= <-]. rewrite Hr, (grown_state _ _ G13). reflexivity.
    - destruct (commit_spec cl' w3 _ l Hum3 Hgeo Hnn3) as (w5 & E5 & _).
      rewrite E4 in E5. discriminate. }
  exists w'. split; [exact E|]. split; [exact Hrig|].
  rewrite Hrig. unfold hideRig, refreshRig.
  cbn [screwMeshes fillerTransform baseTrim guide2mm hooks sampleModel].
  rewrite (meshesForEach_map updateMatrixWorld _ Hnn).
  split.
  { intros m Hin. apply in_map_iff in Hin. destruct Hin as ([m1|] & Em & _); [|discriminate].
    cbn in Em. injection Em as <-. reflexivity. }
  split. { intros m. destruct (fillerTransform (rig (state w))); cbn; [|discriminate].
           intros [= <-]. reflexivity. }
  split. { intros m. destruct (baseTrim (rig (state w))); cbn; [|discriminate].
           intros [= <-]. reflexivity. }
  split. { intros m. destruct (guide2mm (rig (state w))); cbn; [|discriminate].
           intros [= <-]. reflexivity. }
  split. { intros m. destruct (hooks (rig (state w))); cbn; [|discriminate].
           intros [= <-]. reflexivity. }
  split. { rewrite !map_map. apply map_ext. intros [m|]; reflexivity. }
  split. { destruct (fillerTransform (rig (state w))); reflexivity. }
  split. { destruct (baseTrim (rig (state w))); reflexivity. }
  split; [reflexivity|exact Hheap].
Qed.

End RigAfterRun.

(** ** Animation *)

Section EasingFacts.

Lemma cube_le (a b : R) : (a <= b -> a * a * a <= b * b * b)%R.
Proof.
  intros Hab.
  assert (E : (b * b * b - a * a * a
               = (b - a) * ((a + b / 2) * (a + b / 2) + 3 / 4 * (b * b)))%R) by field.
  pose proof (Rle_0_sqr (a + b / 2)) as S1. pose proof (Rle_0_sqr b) as S2.
  unfold Rsqr in S1, S2.
  assert (P : (0 <= (b - a) * ((a + b / 2) * (a + b / 2) + 3 / 4 * (b * b)))%R).
  { apply Rmult_le_pos; lra. }
  lra.
Qed.

Lemma InOut_below (t : R) : (t < 0.5 -> Easing.Cubic.InOut t = 4 * t * t * t)%R.
Proof. intros Ht. unfold Easing.Cubic.InOut. destruct (Rlt_dec t 0.5); [reflexivity|lra]. Qed.

Lemma InOut_above (t : R) :
  (0.5 <= t -> Easing.Cubic.InOut t = 4 * ((t - 1) * (t - 1) * (t - 1)) + 1)%R.
Proof.
  intros Ht. unfold Easing.Cubic.InOut. destruct (Rlt_dec t 0.5); [lra|ring].
Qed.

Lemma InOut_one : Easing.Cubic.InOut 1 = 1%R.
Proof. rewrite InOut_above by lra. ring. Qed.

Lemma InOut_monotone (a b : R) :
  (a <= b)%R -> (Easing.Cubic.InOut a <= Easing.Cubic.InOut b)%R.
Proof.
  intros Hab.
  destruct (Rlt_dec a 0.5) as [Ha|Ha]; destruct (Rlt_dec b 0.5) as [Hb|Hb].
  - rewrite !InOut_below by assumption.
    pose proof (cube_le a b Hab). lra.
  - rewrite InOut_below by assumption. rewrite InOut_above by lra.
    pose proof (cube_le a 0.5 ltac:(lra)).
    pose proof (cube_le (0.5 - 1) (b - 1) ltac:(lra)). lra.
  - lra.
  - rewrite !InOut_above by lra.
    pose proof (cube_le (a - 1) (b - 1) ltac:(lra)). lra.
Qed.

Lemma InOut_unit (t : R) :
  (0 <= t <= 1)%R -> (0 <= Easing.Cubic.InOut t <= 1)%R.
Proof.
  intros [H0 H1].
  assert (E0 : Easing.Cubic.InOut 0 = 0%R) by (rewrite InOut_below by lra; ring).
  pose proof (InOut_monotone 0 t H0). pose proof (InOut_monotone t 1 H1).
  rewrite InOut_one in *. lra.
Qed.

(** X17. Both cubic easings start at 0, end at 1 and never decrease, so an
    animation never moves backwards and stays within [0, 1] on [0, 1];
    [InOut] is symmetric about the half-way point. *)
Theorem Easing_Cubic_monotone :
  Easing.Cubic.Out 0 = 0%R /\ Easing.Cubic.Out 1 = 1%R
  /\ Easing.Cubic.InOut 0 = 0%R /\ Easing.Cubic.InOut 1 = 1%R
  /\ (forall a b : R, (a <= b)%R -> (Easing.Cubic.Out a <= Easing.Cubic.Out b)%R)
  /\ (forall a b : R, (a <= b)%R -> (Easing.Cubic.InOut a <= Easing.Cubic.InOut b)%R)
  /\ (forall t : R, (0 <= t <= 1)%R ->
        (0 <= Easing.Cubic.Out t <= 1)%R /\ (0 <= Easing.Cubic.InOut t <= 1)%R)
  /\ (forall t : R, Easing.Cubic.InOut (1 - t) = (1 - Easing.Cubic.InOut t)%R).
Proof.
  assert (O0 : Easing.Cubic.Out 0 = 0%R) by (unfold Easing.Cubic.Out; ring).
  assert (O1 : Easing.Cubic.Out 1 = 1%R) by (unfold Easing.Cubic.Out; ring).
  assert (Om : forall a b : R, (a <= b)%R -> (Easing.Cubic.Out a <= Easing.Cubic.Out b)%R).
  { intros a b Hab. unfold Easing.Cubic.Out. cbv zeta.
    pose proof (cube_le (a - 1) (b - 1) ltac:(lra)). lra. }
  split; [exact O0|]. split; [exact O1|].
  split; [rewrite InOut_below by lra; ring|].
  split; [exact InOut_one|].
  split; [exact Om|]. split; [exact InOut_monotone|].
  split.
  - intros t [H0 H1]. split; [|apply InOut_unit; lra].
    pose proof (Om 0%R t H0). pose proof (Om t 1%R H1). lra.
  - intros t. destruct (Rlt_dec t 0.5) as [Ht|Ht].
    + rewrite (InOut_below t Ht), InOut_above by lra. ring.
    + destruct (Req_dec_T t 0.5) as [->|Hne].
      * replace (1 - 0.5)%R with 0.5%R by lra. rewrite InOut_above by lra. lra.
      * rewrite (InOut_above t) by lra. rewrite InOut_below by lra. ring.
Qed.

End EasingFacts.

Section TweenFacts.
Context {Scene : Type}.

Lemma insert_middle {A} (done rest : list A) (x y : A) :
  <[length done := y]> (done ++ x :: rest)%list = (done ++ y :: rest)%list.
Proof. induction done as [|d done IH]; cbn; [reflexivity|]. f_equal. exact IH. Qed.

Lemma delete_at_middle {A} (done rest : list A) (x : A) :
  delete (length done) (done ++ x :: rest)%list = (done ++ rest)%list.
Proof. induction done as [|d done IH]; cbn; [reflexivity|]. f_equal. exact IH. Qed.

(** The loop, started behind a part [done] that it has already passed. *)
Lemma TWEEN_update_from_onePass (time : R) :
  forall (todo done : list (Tween Scene)) (fuel : nat) (scene : Scene),
    length todo <= fuel ->
    TWEEN_update_from fuel time (Z.of_nat (length done)) (done ++ todo)%list scene
    = Some ((done ++ fst (onePass time todo scene))%list, snd (onePass time todo scene)).
Proof.
  induction todo as [|tween rest IH]; intros done fuel scene Hlen.
  - cbn [onePass fst snd]. rewrite !app_nil_r.
    destruct fuel; cbn; rewrite Z.ltb_irrefl; reflexivity.
  - destruct fuel as [|fuel]; [cbn in Hlen; lia|].
    cbn [TWEEN_update_from onePass].
    assert (Hlt : (Z.of_nat (length done) <? Z.of_nat (length (done ++ tween :: rest)%list))%Z
                  = true).
    { apply Z.ltb_lt. rewrite length_app. cbn. lia. }
    rewrite Hlt, Nat2Z.id, (list_lookup_middle done rest tween _ eq_refl).
    destruct (Tween_update time tween scene) as [[alive tween'] scene'].
    rewrite insert_middle.
    cbn in Hlen.
    destruct alive.
    + replace (Z.of_nat (length done) + 1)%Z
        with (Z.of_nat (length (done ++ [tween'])%list)) by (rewrite length_app; cbn; lia).
      replace (done ++ tween' :: rest)%list with ((done ++ [tween']) ++ rest)%list
        by (rewrite <- app_assoc; reflexivity).
      rewrite (IH (done ++ [tween'])%list fuel scene') by lia.
      destruct (onePass time rest scene') as [rest' scene'']. cbn [fst snd].
      rewrite <- app_assoc. reflexivity.
    + rewrite delete_at_middle.
      replace (Z.of_nat (length done) - 1 + 1)%Z with (Z.of_nat (length done)) by lia.
      rewrite (IH done fuel scene') by lia.
      destruct (onePass time rest scene') as [rest' scene'']. reflexivity.
Qed.

Lemma onePass_length (time : R) :
  forall (tweens : list (Tween Scene)) (scene : Scene),
    length (fst (onePass time tweens scene)) <= length tweens.
Proof.
  induction tweens as [|tween rest IH]; intros scene; [reflexivity|].
  cbn [onePass]. destruct (Tween_update time tween scene) as [[alive tween'] scene'].
  specialize (IH scene'). destruct (onePass time rest scene') as [rest' scene''].
  cbn [fst] in *. destruct alive; cbn; lia.
Qed.

(** X18. [TWEEN.update] returns, and the loop that removes entries while
    it walks the array is one pass over it: every tween is updated exactly
    once, in order, none is skipped when the one before it is removed, and
    the array keeps exactly those whose [update] did not report completion.
    More fuel than the length of the array changes nothing. *)
Theorem TWEEN_update_is_one_pass
    (time : R) (tweens : list (Tween Scene)) (scene : Scene) :
  TWEEN_update time tweens scene = Some (onePass time tweens scene)
  /\ (forall fuel, length tweens <= fuel ->
        TWEEN_update_from fuel time 0 tweens scene = Some (onePass time tweens scene))
  /\ length (fst (onePass time tweens scene)) <= length tweens.
Proof.
  assert (G : forall fuel, length tweens <= fuel ->
                TWEEN_update_from fuel time 0 tweens scene
                = Some (onePass time tweens scene)).
  { intros fuel Hlen.
    pose proof (TWEEN_update_from_onePass time tweens [] fuel scene Hlen) as E.
    cbn [length app] in E. change (Z.of_nat 0) with 0%Z in E. rewrite E.
    destruct (onePass time tweens scene). reflexivity. }
  split; [apply G; reflexivity|]. split; [exact G|apply onePass_length].
Qed.

Lemma animate_lookup_key (this : Tween Scene) (value : R) (key : string) (to : R) :
  toValues this !! key = Some to ->
  animate this value !! key = Some (interpolate (startValues this !! key) to value).
Proof.
  intros Hto. unfold animate. rewrite lookup_union, map_lookup_imap, Hto. cbn.
  destruct (target this !! key); reflexivity.
Qed.

Lemma animate_lookup_other (this : Tween Scene) (value : R) (key : string) :
  toValues this !! key = None ->
  animate this value !! key = target this !! key.
Proof.
  intros Hto. unfold animate. rewrite lookup_union, map_lookup_imap, Hto. cbn.
  destruct (target this !! key); reflexivity.
Qed.

Lemma progress_one (elapsed d : R) : (0 < d -> d <= elapsed -> Rmin (elapsed / d) 1 = 1)%R.
Proof.
  intros Hd Hle. apply Rmin_right.
  apply (Rmult_le_reg_r d); [exact Hd|]. unfold Rdiv.
  rewrite Rmult_assoc, Rinv_l by lra. lra.
Qed.

Lemma progress_below (elapsed d : R) :
  (0 < d -> 0 <= elapsed -> elapsed < d ->
   Rmin (elapsed / d) 1 = elapsed / d /\ 0 <= elapsed / d < 1)%R.
Proof.
  intros Hd H0 Hlt.
  assert (Hq : (0 <= elapsed / d < 1)%R).
  { split.
    - apply (Rmult_le_reg_r d); [exact Hd|]. unfold Rdiv.
      rewrite Rmult_assoc, Rinv_l by lra. lra.
    - apply (Rmult_lt_reg_r d); [exact Hd|]. unfold Rdiv.
      rewrite Rmult_assoc, Rinv_l by lra. lra. }
  split; [apply Rmin_left; lra|exact Hq].
Qed.

(** [update] on a started tween at or past the end of its duration. *)
Lemma Tween_update_late (time : R) (this : Tween Scene) (scene : Scene) :
  startTime this <> (-1)%R ->
  (0 < duration this)%R ->
  (startTime this + duration this <= time)%R ->
  easingFunction this 1%R = 1%R ->
  Tween_update time this scene
  = (false,
     mkTween (animate this 1) (toValues this) (duration this) (easingFunction this)
             (startTime this) (startValues this) (onUpdateCallback this)
             (onCompleteCallback this),
     let scene := match onUpdateCallback this with
                  | Some callback => callback (animate this 1) 1%R scene
                  | None => scene
                  end in
     match onCompleteCallback this with
     | Some callback => callback scene
     | None => scene
     end).
Proof.
  intros Hstart Hd Hlate Hease. unfold Tween_update.
  destruct (Req_dec_T (startTime this) (-1)) as [E|_]; [contradiction|].
  rewrite (progress_one (time - startTime this) (duration this) Hd) by lra.
  destruct (Req_dec_T 1 1) as [_|N]; [|contradiction N; reflexivity].
  rewrite Hease. reflexivity.
Qed.

(** X19. A tween started at [now] and updated at a time at or past
    [now + duration] (with an easing that gives 1 at 1, as both cubic
    easings and the linear default do) reports completion. Every animated
    property then holds what the formula
    [start + (to - start) * value] gives at value 1 for the value the
    property had when the tween started; a property the target lacked then
    is [NaN]; the other properties of the target are untouched; [onUpdate]
    runs, with that value 1, before [onComplete]. [start] appends the tween
    to [TWEEN]'s array. *)
Theorem Tween_reaches_its_target
    (now time : R) (this : Tween Scene) (tweens : list (Tween Scene)) (scene : Scene) :
  now <> (-1)%R ->
  (0 < duration this)%R ->
  (now + duration this <= time)%R ->
  easingFunction this 1%R = 1%R ->
  exists started finished,
    Tween_start now this tweens = (started, (tweens ++ [started])%list)
    /\ Tween_update time started scene
       = (false, finished,
          let scene := match onUpdateCallback this with
                       | Some callback => callback (target finished) 1%R scene
                       | None => scene
                       end in
          match onCompleteCallback this with
          | Some callback => callback scene
          | None => scene
          end)
    /\ (forall key to,
          toValues this !! key = Some to ->
          target finished !! key = Some (interpolate (target this !! key) to 1))
    /\ (forall key to,
          toValues this !! key = Some to -> target this !! key = None ->
          target finished !! key = Some NaN)
    /\ (forall key, toValues this !! key = None ->
          target finished !! key = target this !! key).
Proof.
  intros Hnow Hd Hlate Hease.
  set (started := mkTween (target this) (toValues this) (duration this)
                    (easingFunction this) now
                    (map_imap (fun key _ => target this !! key) (toValues this))
                    (onUpdateCallback this) (onCompleteCallback this)).
  exists started,
    (mkTween (animate started 1) (toValues this) (duration this) (easingFunction this)
       now (startValues started) (onUpdateCallback this) (onCompleteCallback this)).
  split; [reflexivity|].
  split.
  { rewrite (Tween_update_late time started scene Hnow Hd Hlate Hease). reflexivity. }
  cbn [target].
  assert (K : forall key to,
             toValues this !! key = Some to ->
             animate started 1 !! key = Some (interpolate (target this !! key) to 1)).
  { intros key to Hto.
    rewrite (animate_lookup_key started 1 key to Hto).
    change (startValues started)
      with (map_imap (fun key (_ : R) => target this !! key) (toValues this)).
    rewrite map_lookup_imap, Hto. reflexivity. }
  split; [exact K|]. split.
  - intros key to Hto Hnone. rewrite (K key to Hto), Hnone. reflexivity.
  - intros key Hnone. apply (animate_lookup_other started 1 key Hnone).
Qed.

(** X20. In real arithmetic (the program rounds each operation in
    doubles, which this statement leaves aside): while a started tween
    with [Easing.Cubic.InOut] runs, it does not overshoot. At any time
    from its start on, each animated property that was a number at the
    start lies between its start value and its target value, and the tween
    goes on exactly as long as the time is before [startTime + duration]. *)
Theorem Tween_update_stays_between
    (time : R) (this : Tween Scene) (scene : Scene) :
  startTime this <> (-1)%R ->
  (0 < duration this)%R ->
  (startTime this <= time)%R ->
  easingFunction this = Easing.Cubic.InOut ->
  (fst (fst (Tween_update time this scene)) = true
   <-> (time < startTime this + duration this)%R)
  /\ forall key to from,
       toValues this !! key = Some to ->
       startValues this !! key = Some (Finite from) ->
       exists v,
         target (snd (fst (Tween_update time this scene))) !! key = Some (Finite v)
         /\ (Rmin from to <= v <= Rmax from to)%R.
Proof.
  intros Hstart Hd Hafter Hease.
  unfold Tween_update.
  destruct (Req_dec_T (startTime this) (-1)) as [E|_]; [contradiction|].
  set (progress := Rmin ((time - startTime this) / duration this) 1).
  assert (Hp : (0 <= progress <= 1)%R
               /\ (progress = 1%R <-> (startTime this + duration this <= time)%R)).
  { subst progress.
    destruct (Rlt_dec time (startTime this + duration this)) as [Hlt|Hge].
    - destruct (progress_below (time - startTime this) (duration this) Hd) as [-> Hq];
        [lra|lra|]. split; [lra|]. split; lra.
    - rewrite (progress_one (time - startTime this) (duration this) Hd) by lra.
      split; [lra|]. split; [lra|reflexivity]. }
  destruct Hp as [Hunit Hone].
  pose proof (InOut_unit progress Hunit) as He.
  rewrite Hease.
  split.
  - destruct (Req_dec_T progress 1) as [E|N]; cbn [fst].
    + split; [discriminate|]. intros Hlt. apply Hone in E. lra.
    + split; [|reflexivity]. intros _.
      destruct (Rlt_dec time (startTime this + duration this)) as [Hlt|Hge]; [exact Hlt|].
      exfalso. apply N, Hone. lra.
  - intros key to from Hto Hfrom.
    exists (from + (to - from) * Easing.Cubic.InOut progress)%R.
    split.
    + destruct (Req_dec_T progress 1); cbn [fst snd target];
        rewrite (animate_lookup_key this _ key to Hto), Hfrom; reflexivity.
    + unfold Rmin, Rmax. destruct (Rle_dec from to); nra.
Qed.

End TweenFacts.

(** ** Camera views *)

Section CameraFacts.
Variable controls_update : Cameras -> Cameras.

Ltac lookups :=
  repeat first [rewrite lookup_insert_eq | rewrite lookup_insert_ne by discriminate].

(** The animated object of [setCameraView] at the end of its tween: the
    position is the last step of the interpolation from the position at
    the click; the target, interpolated from itself to itself, is the
    target at the click. *)
Lemma anim_end (x y z tx ty tz zoom ex ey ez : R) (tween : Tween Cameras) :
  toValues tween
  = <["x" := ex]> (<["y" := ey]> (<["z" := ez]>
      (<["tx" := tx]> (<["ty" := ty]> (<["tz" := tz]> (<["zoom" := 1%R]> ∅)))))) ->
  startValues tween
  = map_imap (fun key (_ : R) =>
                (<["x" := Finite x]> (<["y" := Finite y]> (<["z" := Finite z]>
                  (<["tx" := Finite tx]> (<["ty" := Finite ty]> (<["tz" := Finite tz]>
                    (<["zoom" := Finite zoom]> (∅ : gmap string Num)))))))) !! key)
             (toValues tween) ->
  (numberOf (animate tween 1 !! "x"), numberOf (animate tween 1 !! "y"),
   numberOf (animate tween 1 !! "z")) = lerpVectors (x, y, z) (ex, ey, ez) 1
  /\ (numberOf (animate tween 1 !! "tx"), numberOf (animate tween 1 !! "ty"),
      numberOf (animate tween 1 !! "tz")) = (tx, ty, tz).
Proof.
  intros Hto Hstart.
  assert (K : forall key to from,
             toValues tween !! key = Some to ->
             (<["x" := Finite x]> (<["y" := Finite y]> (<["z" := Finite z]>
                (<["tx" := Finite tx]> (<["ty" := Finite ty]> (<["tz" := Finite tz]>
                  (<["zoom" := Finite zoom]> (∅ : gmap string Num)))))))) !! key
             = Some (Finite from) ->
             numberOf (animate tween 1 !! key) = (from + (to - from) * 1)%R).
  { intros key to from Hk Hf.
    rewrite (animate_lookup_key tween 1 key to Hk), Hstart, map_lookup_imap, Hk.
    cbn. rewrite Hf. reflexivity. }
  split.
  - unfold lerpVectors. f_equal; [f_equal|].
    all: eapply K; [rewrite Hto; lookups; reflexivity|lookups; reflexivity].
  - transitivity (tx + (tx - tx) * 1, ty + (ty - ty) * 1, tz + (tz - tz) * 1)%R;
      [|f_equal; [f_equal|]; ring].
    f_equal; [f_equal|].
    all: eapply K; [rewrite Hto; lookups; reflexivity|lookups; reflexivity].
Qed.



End CameraFacts.

(** ** Loading the rig template *)

Section RigTemplateFacts.
Variable EdgesGeometry : option BufferGeometry -> JsError + BufferGeometry.
Variable h : gmap loc BufferGeometry.

(** Whether the callback throws: only on a mesh taken for the hooks, when
    the edge constructor does. *)
Lemma visit_thrown (child : Mesh) (st : RigState) :
  fst (fst (loadRigTemplate_visit EdgesGeometry h child st))
  = if hookName (name child) then
      match EdgesGeometry (geometry child ≫= fun l => h !! l) with
      | inl error => Some error
      | inr _ => None
      end
    else None.
Proof.
  unfold loadRigTemplate_visit, hookName. cbv zeta.
  set (n := toLowerCase (name child)).
  destruct (includes n "base" && includes n "trim") eqn:Ebt; [reflexivity|].
  destruct (includes n "filler") eqn:Ef; [reflexivity|].
  destruct (includes n "guide") eqn:Eg; [reflexivity|].
  destruct (includes n "2mm") eqn:E2; [reflexivity|].
  cbn [orb andb negb].
  destruct (includes n "hook") eqn:Eh.
  - destruct (EdgesGeometry _); reflexivity.
  - destruct (includes n "sample"); cbn [orb andb]; [reflexivity|].
    destruct (startsWith n "ant_" || startsWith n "l_" || startsWith n "r_");
      [reflexivity|].
    destruct (includes n "original"); reflexivity.
Qed.

Lemma visit_screws (child : Mesh) (st : RigState) :
  screwMeshes (loadedRig (snd (loadRigTemplate_visit EdgesGeometry h child st)))
  = (screwMeshes (loadedRig st)
     ++ if screwName (name child) then [Some (set_visible true child)] else [])%list.
Proof.
  unfold loadRigTemplate_visit, screwName. cbv zeta.
  set (n := toLowerCase (name child)).
  destruct (includes n "base" && includes n "trim") eqn:Ebt;
    [cbn; rewrite andb_false_r, app_nil_r; reflexivity|].
  destruct (includes n "filler") eqn:Ef;
    [cbn; rewrite ?andb_false_r, app_nil_r; reflexivity|].
  destruct (includes n "guide") eqn:Eg;
    [cbn; rewrite ?andb_false_r, app_nil_r; reflexivity|].
  destruct (includes n "2mm") eqn:E2;
    [cbn; rewrite ?andb_false_r, app_nil_r; reflexivity|].
  destruct (includes n "hook") eqn:Eh.
  { cbn [orb andb negb]. rewrite ?andb_false_r, app_nil_r.
    destruct (EdgesGeometry _); reflexivity. }
  destruct (includes n "sample") eqn:Es;
    [cbn; rewrite ?andb_false_r, app_nil_r; reflexivity|].
  cbn [orb andb negb].
  destruct (startsWith n "ant_" || startsWith n "l_" || startsWith n "r_") eqn:Ep;
    [reflexivity|].
  destruct (includes n "original"); cbn; rewrite app_nil_r; reflexivity.
Qed.

(** The child as the callback leaves it when it does not throw. *)
Lemma visit_child (child : Mesh) (st : RigState) :
  fst (fst (loadRigTemplate_visit EdgesGeometry h child st)) = None ->
  snd (fst (loadRigTemplate_visit EdgesGeometry h child st)) = set_visible (shownName (name child)) child.
Proof.
  unfold loadRigTemplate_visit, shownName. cbv zeta.
  set (n := toLowerCase (name child)).
  destruct (includes n "base" && includes n "trim") eqn:Ebt; [reflexivity|].
  destruct (includes n "filler") eqn:Ef; [reflexivity|].
  destruct (includes n "guide") eqn:Eg; [reflexivity|].
  destruct (includes n "2mm") eqn:E2; [reflexivity|].
  destruct (includes n "hook") eqn:Eh.
  { destruct (EdgesGeometry _); [discriminate|reflexivity]. }
  destruct (includes n "sample") eqn:Es; [reflexivity|].
  cbn [orb andb negb].
  destruct (startsWith n "ant_" || startsWith n "l_" || startsWith n "r_") eqn:Ep;
    [reflexivity|].
  destruct (includes n "original"); reflexivity.
Qed.

(** On a mesh taken for the hooks the callback assigns the slot first. *)
Lemma visit_hook_thrown (child : Mesh) (st : RigState) (error : JsError) :
  hookName (name child) = true ->
  EdgesGeometry (geometry child ≫= fun l => h !! l) = inl error ->
  loadRigTemplate_visit EdgesGeometry h child st
  = (Some error, child,
     mkRigState (set_hooks (Some child) (loadedRig st))
                (originalFillerPosition st) (originalFillerScale st)).
Proof.
  unfold loadRigTemplate_visit, hookName. cbv zeta.
  set (n := toLowerCase (name child)).
  destruct (includes n "base" && includes n "trim") eqn:Ebt; [discriminate|].
  destruct (includes n "filler") eqn:Ef; [discriminate|].
  destruct (includes n "guide") eqn:Eg; [discriminate|].
  destruct (includes n "2mm") eqn:E2; [discriminate|].
  cbn [orb andb negb].
  destruct (includes n "hook") eqn:Eh; [|discriminate].
  intros _ ->. reflexivity.
Qed.

Lemma visit_filler (child : Mesh) (st : RigState) :
  let st' := snd (loadRigTemplate_visit EdgesGeometry h child st) in
  (fillerTransform (loadedRig st'), originalFillerPosition st', originalFillerScale st')
  = if fillerName (name child)
    then (Some (set_visible true child), position child, scale child)
    else (fillerTransform (loadedRig st), originalFillerPosition st, originalFillerScale st).
Proof.
  unfold loadRigTemplate_visit, fillerName. cbv zeta.
  set (n := toLowerCase (name child)).
  destruct (includes n "base" && includes n "trim") eqn:Ebt; [reflexivity|].
  destruct (includes n "filler") eqn:Ef; [reflexivity|].
  cbn [negb andb].
  destruct (includes n "guide" || includes n "2mm"); [reflexivity|].
  destruct (includes n "hook"); [destruct (EdgesGeometry _); reflexivity|].
  destruct (includes n "sample" || includes n "sample" && includes n "model");
    [reflexivity|].
  destruct (startsWith n "ant_" || startsWith n "l_" || startsWith n "r_"); [reflexivity|].
  destruct (includes n "original"); reflexivity.
Qed.

Lemma traverse_built (meshes : list Mesh) :
  Forall (edgesBuilt EdgesGeometry h) meshes ->
  forall st,
    loadRigTemplate_traverse EdgesGeometry h meshes st
    = (None, map (fun child => set_visible (shownName (name child)) child) meshes,
       visited EdgesGeometry h meshes st).
Proof.
  induction 1 as [|child rest Hc _ IH]; intros st; [reflexivity|].
  cbn [loadRigTemplate_traverse map visited fold_left].
  assert (Hnone : fst (fst (loadRigTemplate_visit EdgesGeometry h child st)) = None).
  { rewrite visit_thrown. destruct (hookName (name child)) eqn:Hh; [|reflexivity].
    destruct (Hc Hh) as [edges ->]. reflexivity. }
  pose proof (visit_child child st Hnone) as Hchild.
  destruct (loadRigTemplate_visit EdgesGeometry h child st) as [[thrown child'] st1]. cbn [fst snd] in *. subst thrown child'.
  rewrite (IH st1). reflexivity.
Qed.

Lemma visited_screws (meshes : list Mesh) :
  forall st,
    screwMeshes (loadedRig (visited EdgesGeometry h meshes st))
    = (screwMeshes (loadedRig st)
       ++ map (fun child => Some (set_visible true child))
              (List.filter (fun child => screwName (name child)) meshes))%list.
Proof.
  induction meshes as [|child rest IH]; intros st.
  - cbn. rewrite app_nil_r. reflexivity.
  - cbn [visited fold_left]. fold (visited EdgesGeometry h rest (snd (loadRigTemplate_visit EdgesGeometry h child st))).
    rewrite IH, visit_screws, <- app_assoc. f_equal. cbn [List.filter].
    destruct (screwName (name child)); reflexivity.
Qed.

Lemma visited_filler (meshes : list Mesh) :
  forall st,
    (fillerTransform (loadedRig (visited EdgesGeometry h meshes st)),
     originalFillerPosition (visited EdgesGeometry h meshes st), originalFillerScale (visited EdgesGeometry h meshes st))
    = match last (List.filter (fun child => fillerName (name child)) meshes) with
      | Some child => (Some (set_visible true child), position child, scale child)
      | None =>
          (fillerTransform (loadedRig st), originalFillerPosition st, originalFillerScale st)
      end.
Proof.
  induction meshes as [|child rest IH]; intros st; [reflexivity|].
  cbn [visited fold_left]. fold (visited EdgesGeometry h rest (snd (loadRigTemplate_visit EdgesGeometry h child st))).
  rewrite IH. cbn [List.filter].
  pose proof (visit_filler child st) as Hv. cbv zeta in Hv.
  destruct (fillerName (name child)).
  - rewrite last_cons.
    destruct (last (List.filter (fun c => fillerName (name c)) rest)); [reflexivity|].
    exact Hv.
  - destruct (last (List.filter (fun c => fillerName (name c)) rest)); [reflexivity|].
    exact Hv.
Qed.

(** X21. For a rig file with ASCII mesh names in which the edges of every
    mesh taken for the hooks can be built, the traversal of
    [loadRigTemplate] completes and appends the screw components to
    [state.rig.screwMeshes] in the order of the traversal: they are the
    meshes whose lower-cased name starts with ant_, l_ or r_ and holds none
    of the words of another role (base with trim, filler, guide, 2mm, hook,
    sample). Every mesh keeps everything but its [visible] flag; the
    sample and the meshes without a role are hidden, the others shown. A
    list without null entry stays without one. *)
Theorem loadRigTemplate_screws_in_order (meshes : list Mesh) (st : RigState) :
  Forall (fun child => isAscii (name child) = true) meshes ->
  Forall (edgesBuilt EdgesGeometry h) meshes ->
  exists st',
    loadRigTemplate_traverse EdgesGeometry h meshes st
    = (None, map (fun child => set_visible (shownName (name child)) child) meshes, st')
    /\ screwMeshes (loadedRig st')
       = (screwMeshes (loadedRig st)
          ++ map (fun child => Some (set_visible true child))
                 (List.filter (fun child => screwName (name child)) meshes))%list
    /\ (noNullScrew (loadedRig st) -> noNullScrew (loadedRig st')).
Proof.
  intros _ Hbuilt. exists (visited EdgesGeometry h meshes st).
  split; [apply traverse_built; exact Hbuilt|].
  split; [apply visited_screws|].
  unfold noNullScrew. rewrite visited_screws. intros Hst.
  apply Forall_app. split; [exact Hst|].
  apply List.Forall_forall. intros screw Hin. apply in_map_iff in Hin.
  destruct Hin as (child & <- & _). eexists. reflexivity.
Qed.

(** X22. For a rig file with ASCII mesh names in which the edges of every
    mesh taken for the hooks can be built: when several meshes are taken
    for the arch filler, the last one in traversal order is
    [state.rig.fillerTransform], and [originalFillerPosition] and
    [originalFillerScale] are its position and scale; with none, all three
    stay. So after loading into the initial state the recorded origin is
    that of the filler of the rig, which is shown. *)
Theorem loadRigTemplate_filler_origin (meshes : list Mesh) (st : RigState) :
  Forall (fun child => isAscii (name child) = true) meshes ->
  Forall (edgesBuilt EdgesGeometry h) meshes ->
  (exists st',
     loadRigTemplate_traverse EdgesGeometry h meshes st
     = (None, map (fun child => set_visible (shownName (name child)) child) meshes, st')
     /\ (fillerTransform (loadedRig st'), originalFillerPosition st',
         originalFillerScale st')
        = match last (List.filter (fun child => fillerName (name child)) meshes) with
          | Some child => (Some (set_visible true child), position child, scale child)
          | None =>
              (fillerTransform (loadedRig st), originalFillerPosition st,
               originalFillerScale st)
          end)
  /\ forall filler,
       fillerTransform (loadedRig (snd (loadRigTemplate_traverse EdgesGeometry h meshes initialRigState))) = Some filler ->
       originalFillerPosition (snd (loadRigTemplate_traverse EdgesGeometry h meshes initialRigState)) = position filler
       /\ originalFillerScale (snd (loadRigTemplate_traverse EdgesGeometry h meshes initialRigState)) = scale filler
       /\ visible filler = true.
Proof.
  intros _ Hbuilt. split.
  - exists (visited EdgesGeometry h meshes st). split; [apply traverse_built; exact Hbuilt|].
    apply visited_filler.
  - intros filler. rewrite (traverse_built meshes Hbuilt initialRigState). cbn [snd].
    pose proof (visited_filler meshes initialRigState) as E.
    destruct (last (List.filter (fun child => fillerName (name child)) meshes)) as [child|].
    + injection E as E1 E2 E3. rewrite E1, E2, E3. intros [= <-]. repeat split.
    + injection E as E1 E2 E3. rewrite E1. discriminate.
Qed.

(** X26. When the edge constructor throws on a mesh taken for the hooks,
    the traversal ends there with that error: the meshes before it have
    been handled as usual, the failing mesh is in [state.rig.hooks] with
    its [visible] flag as loaded, and the meshes after it are not visited,
    so that they keep their flags and the screw components among them are
    not in [state.rig.screwMeshes]. *)
Theorem loadRigTemplate_stops_at_failing_hooks
    (before : list Mesh) (hook : Mesh) (after : list Mesh) (st : RigState)
    (error : JsError) :
  Forall (fun child => isAscii (name child) = true) (before ++ hook :: after)%list ->
  Forall (edgesBuilt EdgesGeometry h) before ->
  hookName (name hook) = true ->
  EdgesGeometry (geometry hook ≫= fun l => h !! l) = inl error ->
  exists st',
    loadRigTemplate_traverse EdgesGeometry h (before ++ hook :: after)%list st
    = (Some error,
       (map (fun child => set_visible (shownName (name child)) child) before
        ++ hook :: after)%list,
       st')
    /\ hooks (loadedRig st') = Some hook
    /\ screwMeshes (loadedRig st')
       = (screwMeshes (loadedRig st)
          ++ map (fun child => Some (set_visible true child))
                 (List.filter (fun child => screwName (name child)) before))%list.
Proof.
  intros _ Hbuilt Hhook Hthrow.
  exists (mkRigState (set_hooks (Some hook) (loadedRig (visited EdgesGeometry h before st)))
            (originalFillerPosition (visited EdgesGeometry h before st))
            (originalFillerScale (visited EdgesGeometry h before st))).
  split.
  - revert st. induction Hbuilt as [|child rest Hc Hrest IH]; intros st.
    + cbn [app loadRigTemplate_traverse map visited fold_left].
      rewrite (visit_hook_thrown hook st error Hhook Hthrow). reflexivity.
    + cbn [app loadRigTemplate_traverse map visited fold_left].
      assert (Hnone : fst (fst (loadRigTemplate_visit EdgesGeometry h child st)) = None).
      { rewrite visit_thrown. destruct (hookName (name child)) eqn:Hh; [|reflexivity].
        destruct (Hc Hh) as [edges ->]. reflexivity. }
      pose proof (visit_child child st Hnone) as Hchild.
      destruct (loadRigTemplate_visit EdgesGeometry h child st) as [[thrown child'] st1]. cbn [fst snd] in *.
      subst thrown child'. rewrite (IH st1). reflexivity.
  - split; [reflexivity|]. cbn [loadedRig set_hooks screwMeshes].
    apply visited_screws.
Qed.

End RigTemplateFacts.

(** ** A scan imported after a run *)

Section ImportAfterRun.
Context `{ThreeLibrary}.

(** X16. [importUserSTL] does not reset [isProcessed] or the export
    button. A scan imported after a successful run is exported as it is:
    [exportSTL] does not refuse it, and the blob is what the writer
    returns for the centred scan under the model's transform and the export
    rotation, with no fusion. The rig stays as the run left it. *)
Theorem importUserSTL_keeps_isProcessed
    (contents : list Byte.byte) (file_name : string) (w : World)
    (parsed : BufferGeometry) :
  stlParse contents = inr parsed ->
  (forall m, userModel (state w) = Some m -> is_Some (geometry m)) ->
  exists w1 um gl,
    importUserSTL contents file_name w = (Returned tt, w1)
    /\ userModel (state w1) = Some um
    /\ geometry um = Some gl
    /\ heap w1 !! gl = Some (Geometry.center (Geometry.computeVertexNormals parsed))
    /\ isProcessed (state w1) = isProcessed (state w)
    /\ btn_export_disabled (ui w1) = btn_export_disabled (ui w)
    /\ rig (state w1) = rig (state w)
    /\ (isProcessed (state w) = true ->
        forall p ps b bs,
          attributes_position (Geometry.center (Geometry.computeVertexNormals parsed))
          = Some (p :: ps) ->
          stlWrite (exportedGeometry um
                      (Geometry.center (Geometry.computeVertexNormals parsed)))
          = inr (b :: bs) ->
          exists w2, exportSTL w1 = (Returned (Some (b :: bs)), w2)).
Proof.
  intros Hparse Hprev.
  destruct (importUserSTL_try_returns contents file_name w parsed Hparse Hprev)
    as (w1 & um & E & Hu & Hg & Hh & _ & _ & _ & _ & Hrig & Hp & Hx).
  assert (Hl : heap w1 !! fresh (dom (heap w))
               = Some (Geometry.center (Geometry.computeVertexNormals parsed))).
  { rewrite Hh. apply lookup_insert_eq. }
  exists w1, um, (fresh (dom (heap w))).
  split. { unfold importUserSTL, tryCatch. rewrite E. reflexivity. }
  split; [exact Hu|]. split; [exact Hg|]. split; [exact Hl|].
  split; [exact Hp|]. split; [exact Hx|]. split; [exact Hrig|].
  intros Hproc p ps b bs Hpos Hw.
  eexists. apply (exportSTL_blob_eq w1 um _ _ p ps b bs Hu Hg Hl Hpos); [|exact Hw].
  rewrite Hp. exact Hproc.
Qed.

End ImportAfterRun.

(** * The statements at concrete inputs *)

#[local] Existing Instance Demo.library.

Lemma prepareGeometryForCSG_null_iff_no_position_witness :
  exists (result : option loc) (w' : World),
    prepareGeometryForCSG 3%nat "L_Top" (Demo.world None) = (Returned result, w')
    /\ (result = None <-> attributes_position Demo.noPositions = None)
    /\ (forall l0 g0, heap (Demo.world None) !! l0 = Some g0 -> heap w' !! l0 = Some g0)
    /\ heap w' !! 3%nat = Some Demo.noPositions
    /\ (forall l', result = Some l' ->
          heap (Demo.world None) !! l' = None /\ l' <> 3%nat /\ is_Some (heap w' !! l'))
    /\ state w' = state (Demo.world None) /\ ui w' = ui (Demo.world None)
    /\ disposed w' = disposed (Demo.world None).
Proof.
  apply (prepareGeometryForCSG_null_iff_no_position 3%nat "L_Top" (Demo.world None)).
  reflexivity.
Defined.

Lemma prepareGeometryForCSG_fills_missing_witness :
  exists (l' : loc) (g' : BufferGeometry) (w' : World),
    prepareGeometryForCSG 0%nat "UserModel" (Demo.world None) = (Returned (Some l'), w')
    /\ heap w' !! l' = Some g'
    /\ attributes_position g' = Some [(0, 0, 0); (1, 0, 0); (0, 1, 0)]%R
    /\ (index Demo.triangle = None ->
          exists idx, index g' = Some idx /\ length idx = 3
                      /\ forall i, i < 3 -> idx !! i = Some i)
    /\ (attributes_normal Demo.triangle = None ->
          attributes_normal g'
          = Some (vertexNormals (index g') [(0, 0, 0); (1, 0, 0); (0, 1, 0)]%R))
    /\ (attributes_uv Demo.triangle = None ->
          exists uvs, attributes_uv g' = Some uvs /\ length uvs = 3
                      /\ forall i, i < 3 -> uvs !! i = Some (0%R, 0%R))
    /\ (forall idx, index Demo.triangle = Some idx -> index g' = Some idx)
    /\ (forall n, attributes_normal Demo.triangle = Some n -> attributes_normal g' = Some n)
    /\ (forall u, attributes_uv Demo.triangle = Some u -> attributes_uv g' = Some u).
Proof.
  apply (prepareGeometryForCSG_fills_missing 0%nat "UserModel" (Demo.world None)
           Demo.triangle [(0, 0, 0); (1, 0, 0); (0, 1, 0)]%R); reflexivity.
Defined.

Lemma demo_rigAllocated base :
  allocated Demo.store base -> rigAllocated Demo.store (rig (state (Demo.world base))).
Proof.
  intros Hb. repeat split; [eexists; reflexivity|exact Hb|].
  repeat constructor; eexists; reflexivity.
Qed.

Lemma demo_allocated nm l g :
  Demo.store !! l = Some g -> allocated Demo.store (Some (Demo.mesh nm l)).
Proof. intros E. exists g. exact E. Qed.

Lemma demo_noNullScrew base : noNullScrew (rig (state (Demo.world base))).
Proof. repeat constructor; eexists; reflexivity. Qed.

Lemma booleanSteps_fixed_order_witness :
  exists w' r composite,
    booleanSteps (Demo.world None) = (Returned r, w')
    /\ heap w' !! r = Some composite
    /\ option_map (@length Vec3) (attributes_position composite) = Some 6.
Proof.
  destruct (booleanSteps_fixed_order (H := Demo.library) (Demo.world None) (Demo.mesh "UserModel" 0%nat) 0%nat
              Demo.triangle [(0, 0, 0); (1, 0, 0); (0, 1, 0)]%R
              eq_refl eq_refl eq_refl eq_refl (demo_rigAllocated None I))
    as [(w' & _ & S) _].
  cbn in S. destruct S as (r & S & Hr).
  eexists w', r, _. split; [exact S|]. split; [exact Hr|]. reflexivity.
Defined.

Lemma doProcessAndMerge_failure_commits_nothing_witness :
  exists w' um',
    doProcessAndMerge (Demo.world (Some (Demo.mesh "Base_Trim" 4%nat))) = (Returned tt, w')
    /\ userModel (state w') = Some um'
    /\ geometry um' = Some 0%nat
    /\ heap w' !! 0%nat = Some Demo.triangle
    /\ instruction_text (ui w') = "Boolean failed: empty operand. Check console."
    /\ btn_export_disabled (ui w') = true
    /\ isProcessed (state w') = false.
Proof.
  destruct (doProcessAndMerge_failure_commits_nothing (H := Demo.library)
              (Demo.world (Some (Demo.mesh "Base_Trim" 4%nat)))
              (Demo.mesh "UserModel" 0%nat) 0%nat Demo.triangle
              [(0, 0, 0); (1, 0, 0); (0, 1, 0)]%R (Error "empty operand")
              eq_refl eq_refl eq_refl eq_refl
              (demo_rigAllocated _ (demo_allocated "Base_Trim" 4%nat Demo.zeroVertices eq_refl))
              (demo_noNullScrew _) ltac:(reflexivity))
    as (w' & um' & E & Hu & Hg & Hh & _ & _ & _ & _ & _ & Hi & Hx & Hp).
  exists w', um'. repeat split; assumption.
Defined.

Lemma doProcessAndMerge_success_replaces_geometry_witness :
  exists w' um' cl,
    doProcessAndMerge (Demo.world None) = (Returned tt, w')
    /\ userModel (state w') = Some um'
    /\ geometry um' = Some cl
    /\ heap (Demo.world None) !! cl = None
    /\ position um' = (0, 0, 0)%R
    /\ rotation um' = (0, 0, 0)%R
    /\ 0%nat ∈ disposed w'
    /\ isProcessed (state w') = true
    /\ btn_export_disabled (ui w') = false.
Proof.
  destruct (doProcessAndMerge_success_replaces_geometry (H := Demo.library)
              (Demo.world None) (Demo.mesh "UserModel" 0%nat) 0%nat Demo.triangle
              [(0, 0, 0); (1, 0, 0); (0, 1, 0)]%R _
              eq_refl eq_refl eq_refl eq_refl (demo_rigAllocated None I)
              (demo_noNullScrew _) ltac:(reflexivity))
    as (w' & um' & cl & E & Hu & Hg & Hn & _ & Hp & Hr & _ & _ & Hd & Hi & Hx).
  exists w', um', cl. repeat split; assumption.
Defined.

Lemma cleanup_welds_then_recomputes_normals_witness :
  exists cl w' final,
    cleanup 0%nat (Demo.world None) = (Returned cl, w')
    /\ heap w' !! cl = Some final
    /\ attributes_normal final = Some [(0, 0, 1); (0, 0, 1); (0, 0, 1)]%R
    /\ heap w' !! 0%nat = Some Demo.triangle.
Proof.
  destruct (cleanup_welds_then_recomputes_normals (H := Demo.library) 0%nat (Demo.world None) Demo.triangle eq_refl)
    as (cl & w' & final & E & _ & _ & Hf & _ & Hn & _ & _ & _ & G).
  exists cl, w', final. split; [exact E|]. split; [exact Hf|].
  split; [exact (Hn _ eq_refl)|].
  destruct G as (h' & -> & Sub). eapply lookup_weaken; [|exact Sub]. reflexivity.
Defined.

(** C6 as stated fails: with a base-trim whose geometry has no position
    buffer (and no filler, no screws, so that the evaluator is never
    called) the run completes, marks the model processed, enables export
    and gives the model another geometry object. *)
Lemma doProcessAndMerge_malformed_baseTrim_counterexample :
  (exists mb lb gb,
     baseTrim (rig (state (Demo.bare (Some (Demo.mesh "Base_Trim" 3%nat))))) = Some mb
     /\ geometry mb = Some lb
     /\ heap (Demo.bare (Some (Demo.mesh "Base_Trim" 3%nat))) !! lb = Some gb
     /\ attributes_position gb = None)
  /\ exists w' um',
       doProcessAndMerge (Demo.bare (Some (Demo.mesh "Base_Trim" 3%nat))) = (Returned tt, w')
       /\ isProcessed (state w') = true
       /\ btn_export_disabled (ui w') = false
       /\ userModel (state w') = Some um'
       /\ geometry um' <> Some 0%nat
       /\ 0%nat ∈ disposed w'.
Proof.
  split.
  - exists (Demo.mesh "Base_Trim" 3%nat), 3%nat, Demo.noPositions. repeat split.
  - pose proof (doProcessAndMerge_spec (H := Demo.library)
                  (Demo.bare (Some (Demo.mesh "Base_Trim" 3%nat)))
                  (Demo.mesh "UserModel" 0%nat) 0%nat Demo.triangle
                  [(0, 0, 0); (1, 0, 0); (0, 1, 0)]%R eq_refl eq_refl eq_refl eq_refl) as S.
    assert (Hal : rigAllocated Demo.store
                    (rig (state (Demo.bare (Some (Demo.mesh "Base_Trim" 3%nat)))))).
    { repeat split; [eexists; reflexivity|constructor]. }
    assert (Hnn : noNullScrew (rig (state (Demo.bare (Some (Demo.mesh "Base_Trim" 3%nat)))))).
    { constructor. }
    specialize (S Hal Hnn).
    destruct S as (w' & cl & E & Hnew & _ & _ & Hd & Hu & Hp & Hx & _).
    eexists w', _. split; [exact E|]. split; [exact Hp|]. split; [exact Hx|].
    split; [exact Hu|]. split.
    + cbn. intros [= ->]. vm_compute in Hnew. discriminate Hnew.
    + rewrite Hd. apply elem_of_union_l, elem_of_singleton. reflexivity.
Qed.

Lemma doProcessAndMerge_malformed_baseTrim_witness :
  (exists w' um' cl,
     doProcessAndMerge (Demo.world (Some (Demo.mesh "Base_Trim" 3%nat))) = (Returned tt, w')
     /\ userModel (state w') = Some um'
     /\ geometry um' = Some cl
     /\ heap (Demo.world (Some (Demo.mesh "Base_Trim" 3%nat))) !! cl = None
     /\ isProcessed (state w') = true
     /\ btn_export_disabled (ui w') = false)
  /\
  (exists w' um',
     doProcessAndMerge (Demo.world (Some (Demo.mesh "Base_Trim" 4%nat))) = (Returned tt, w')
     /\ userModel (state w') = Some um'
     /\ geometry um' = Some 0%nat
     /\ heap w' !! 0%nat = Some Demo.triangle
     /\ instruction_text (ui w') = "Boolean failed: empty operand. Check console."
     /\ isProcessed (state w') = false).
Proof.
  split.
  - destruct (doProcessAndMerge_malformed_baseTrim (H := Demo.library)
                (Demo.world (Some (Demo.mesh "Base_Trim" 3%nat)))
                (Demo.mesh "UserModel" 0%nat) 0%nat Demo.triangle
                [(0, 0, 0); (1, 0, 0); (0, 1, 0)]%R
                (Demo.mesh "Base_Trim" 3%nat) 3%nat Demo.noPositions
                eq_refl eq_refl eq_refl eq_refl
                (demo_rigAllocated _ (demo_allocated "Base_Trim" 3%nat Demo.noPositions eq_refl))
                (demo_noNullScrew _) eq_refl eq_refl eq_refl) as [Skip _].
    destruct (Skip eq_refl _ ltac:(reflexivity)) as (w' & um' & cl & E & Hu & Hg & Hn & _ & Hp & Hx).
    exists w', um', cl. repeat split; assumption.
  - destruct (doProcessAndMerge_malformed_baseTrim (H := Demo.library)
                (Demo.world (Some (Demo.mesh "Base_Trim" 4%nat)))
                (Demo.mesh "UserModel" 0%nat) 0%nat Demo.triangle
                [(0, 0, 0); (1, 0, 0); (0, 1, 0)]%R
                (Demo.mesh "Base_Trim" 4%nat) 4%nat Demo.zeroVertices
                eq_refl eq_refl eq_refl eq_refl
                (demo_rigAllocated _ (demo_allocated "Base_Trim" 4%nat Demo.zeroVertices eq_refl))
                (demo_noNullScrew _) eq_refl eq_refl eq_refl) as [_ Fail].
    destruct (Fail [] _ (Error "empty operand") eq_refl ltac:(reflexivity) ltac:(reflexivity))
      as (w' & um' & E & Hu & Hg & Hh & _ & _ & Hi & _ & Hp).
    exists w', um'. repeat split; assumption.
Defined.

Lemma exportSTL_coordinate_correction_witness :
  exists (exported : loc) (eg : BufferGeometry) (w' : World),
    exportGeometry_build (Demo.world None) = (Returned exported, w')
    /\ heap (Demo.world None) !! exported = None
    /\ heap w' !! exported = Some eg
    /\ index eg = index Demo.triangle
    /\ heap w' !! 0%nat = Some Demo.triangle.
Proof.
  destruct (exportSTL_coordinate_correction (H := Demo.library) (Demo.world None)
              (Demo.mesh "UserModel" 0%nat) 0%nat Demo.triangle eq_refl eq_refl eq_refl)
    as (exported & eg & w' & E & Hnew & Heg & _ & _ & Hidx & _ & _ & _ & _ & _ & _ & _ & Hl & _).
  exists exported, eg, w'. repeat split; assumption.
Defined.

Lemma importUserSTL_recenters_witness :
  exists (w' : World) (um : Mesh) (gl : loc) (imported : BufferGeometry),
    importUserSTL [] "scan.stl" (Demo.world None) = (Returned tt, w')
    /\ userModel (state w') = Some um
    /\ geometry um = Some gl
    /\ heap w' !! gl = Some imported
    /\ THREE.getCenter (Geometry.boundingBox imported) = (0, 0, 0)%R
    /\ rotation um = MODEL_ROTATION_OFFSET.
Proof.
  destruct (importUserSTL_recenters (H := Demo.library) [] "scan.stl" (Demo.world None)
              (mkGeometry (Some [(0, 0, 0); (2, 0, 0); (0, 4, 0)]%R) None None None)
              eq_refl)
    as (w' & um & gl & imported & E & Hu & Hg & _ & Hi & _ & Hc & _ & Hr & _).
  { intros m [= <-]. eexists. reflexivity. }
  exists w', um, gl, imported.
  repeat split; try assumption.
  exact (proj1 (proj2 (Hc _ eq_refl))).
Defined.

(** ** Further properties at concrete inputs *)

Lemma demo2_noNullScrew l processed : noNullScrew (rig (state (Demo2.worldWith l processed))).
Proof. repeat constructor; eexists; reflexivity. Qed.

Lemma demo2_export :
  exportSTL (Demo2.worldWith 0%nat true)
  = (Returned (Some [Byte.x00]),
     set_heap (<[fresh (dom Demo.store)
                 := exportedGeometry (Demo.mesh "UserModel" 0%nat) Demo.triangle]> Demo.store)
       (set_state (set_userModel (Some (updateMatrixWorld (Demo.mesh "UserModel" 0%nat)))
                     (state (Demo2.worldWith 0%nat true)))
          (set_ui (set_instruction "Generating STL file..." Demo.page)
             (Demo2.worldWith 0%nat true)))).
Proof.
  apply (exportSTL_blob_eq (H := Demo.library) (Demo2.worldWith 0%nat true)
           (Demo.mesh "UserModel" 0%nat) 0%nat Demo.triangle (0, 0, 0)%R
           [(1, 0, 0); (0, 1, 0)]%R Byte.x00 []); reflexivity.
Qed.

(** The history at its bound: the oldest entry goes. *)
Lemma saveUndoState_bounded_witness :
  length (saveUndoState (repeat (snapshotOf Demo2.stateA) 50) (state (Demo.world None)))
    <= MAX_UNDO_STEPS
  /\ saveUndoState (repeat (snapshotOf Demo2.stateA) 50) (state (Demo.world None))
     = (repeat (snapshotOf Demo2.stateA) 49 ++ [snapshotOf (state (Demo.world None))])%list.
Proof.
  destruct (saveUndoState_bounded (repeat (snapshotOf Demo2.stateA) 50)
              (state (Demo.world None)) ltac:(rewrite repeat_length; reflexivity))
    as (Hlen & _ & _ & Hfull).
  split; [exact Hlen|]. apply Hfull. apply repeat_length.
Defined.

Lemma undo_history_discipline_witness :
  undo [snapshotOf Demo2.stateA] (Demo.world None)
  = ([snapshotOf Demo2.stateA],
     (Returned tt,
      set_ui (set_instruction "Nothing to undo." (ui (Demo.world None))) (Demo.world None)))
  /\ fst (undo [snapshotOf Demo2.stateA; snapshotOf (state (Demo.world None))]
            (Demo.world None))
     = [snapshotOf Demo2.stateA].
Proof.
  split.
  - apply (proj1 (undo_history_discipline [snapshotOf Demo2.stateA] (Demo.world None))).
    cbn. lia.
  - apply (proj2 (undo_history_discipline
                    [snapshotOf Demo2.stateA; snapshotOf (state (Demo.world None))]
                    (Demo.world None))).
    cbn. lia.
Defined.

Lemma undo_applies_entry_below_newest_witness :
  exists w' m',
    undo [snapshotOf Demo2.stateA; snapshotOf (state (Demo.world None))] (Demo.world None)
    = ([snapshotOf Demo2.stateA], (Returned tt, w'))
    /\ userModel (state w') = Some m'
    /\ position m' = (1, 2, 3)%R
    /\ geometry m' = Some 0%nat
    /\ heap w' = Demo.store.
Proof.
  destruct (undo_applies_entry_below_newest [] Demo2.stateA Demo2.poseA
              (snapshotOf (state (Demo.world None))) (Demo.world None)
              (Demo.mesh "UserModel" 0%nat) eq_refl eq_refl)
    as (w' & m' & E & Hu & Hp & _ & Hg & _ & _ & Hh & _).
  exists w', m'. repeat split; assumption.
Defined.

Lemma undo_after_two_saves_witness :
  exists w' m',
    undo (saveUndoState (saveUndoState [] Demo2.stateA) (state (Demo.world None)))
         (Demo.world None)
    = (saveUndoState [] Demo2.stateA, (Returned tt, w'))
    /\ userModel (state w') = Some m'
    /\ position m' = (1, 2, 3)%R.
Proof.
  destruct (undo_after_two_saves [] Demo2.stateA (state (Demo.world None)) Demo2.poseA
              (Demo.world None) (Demo.mesh "UserModel" 0%nat) eq_refl eq_refl)
    as (w' & m' & left & E & Hu & Hp & _ & _ & _ & Hbelow & _).
  specialize (Hbelow ltac:(unfold MAX_UNDO_STEPS; cbn; lia)). subst left.
  exists w', m'. repeat split; assumption.
Defined.

Lemma importUserSTL_session_history_witness :
  exists w' snapshot,
    importUserSTL_session [] "scan.stl" [snapshotOf Demo2.stateA] (Demo.world None)
    = (saveUndoState [snapshotOf Demo2.stateA] (state w'), (Returned tt, w'))
    /\ saveUndoState [snapshotOf Demo2.stateA] (state w')
       = [snapshotOf Demo2.stateA; snapshot]
    /\ modelRotation snapshot = Some MODEL_ROTATION_OFFSET
    /\ modelPosition snapshot = Some THREE.zero3.
Proof.
  pose proof (importUserSTL_session_history (H := Demo.library) [] "scan.stl"
                [snapshotOf Demo2.stateA] (Demo.world None)) as S.
  cbv beta iota delta [stlParse Demo.library] in S.
  destruct S as (w' & snapshot & E & _ & _ & Hr & Hp & Happ).
  { intros m [= <-]. eexists. reflexivity. }
  exists w', snapshot. split; [exact E|].
  split; [apply Happ; unfold MAX_UNDO_STEPS; cbn; lia|].
  split; [exact Hr|exact Hp].
Defined.

Lemma undo_after_processing_moves_fused_model_witness :
  exists w1 cl w2 m2,
    doProcessAndMerge (Demo.world None) = (Returned tt, w1)
    /\ undo [snapshotOf Demo2.stateA; snapshotOf (state (Demo.world None))] w1
       = ([snapshotOf Demo2.stateA], (Returned tt, w2))
    /\ userModel (state w2) = Some m2
    /\ geometry m2 = Some cl
    /\ position m2 = (1, 2, 3)%R
    /\ isProcessed (state w2) = true.
Proof.
  destruct (undo_after_processing_moves_fused_model (H := Demo.library)
              (Demo.world None) (Demo.mesh "UserModel" 0%nat) 0%nat Demo.triangle
              [(0, 0, 0); (1, 0, 0); (0, 1, 0)]%R _
              [] Demo2.stateA Demo2.poseA (snapshotOf (state (Demo.world None)))
              eq_refl eq_refl eq_refl eq_refl (demo_rigAllocated None I)
              (demo_noNullScrew _) ltac:(reflexivity) eq_refl)
    as (w1 & cl & w2 & m2 & E & _ & E2 & Hu & Hg & _ & Hp & _ & Hi).
  exists w1, cl, w2, m2. repeat split; assumption.
Defined.


Lemma doProcessAndMerge_model_without_positions_witness :
  exists w' um',
    doProcessAndMerge (Demo2.worldWith 3%nat false) = (Returned tt, w')
    /\ instruction_text (ui w')
       = "Boolean failed: User model geometry preparation failed. Check console."
    /\ userModel (state w') = Some um'
    /\ geometry um' = Some 3%nat
    /\ heap w' !! 3%nat = Some Demo.noPositions
    /\ isProcessed (state w') = false.
Proof.
  destruct (doProcessAndMerge_model_without_positions (H := Demo.library)
              (Demo2.worldWith 3%nat false) (Demo.mesh "UserModel" 3%nat) 3%nat
              Demo.noPositions eq_refl eq_refl eq_refl eq_refl (demo2_noNullScrew _ _))
    as (w' & um' & E & Hi & Hu & Hg & Hh & _ & _ & _ & Hp & _).
  exists w', um'. repeat split; assumption.
Defined.

Lemma exportSTL_blob_only_when_processed_witness :
  isProcessed (state (Demo2.worldWith 0%nat true)) = true
  /\ exists um l g,
       userModel (state (Demo2.worldWith 0%nat true)) = Some um
       /\ geometry um = Some l
       /\ heap (Demo2.worldWith 0%nat true) !! l = Some g
       /\ attributes_position g <> Some [].
Proof.
  destruct (exportSTL_blob_only_when_processed (H := Demo.library)
              (Demo2.worldWith 0%nat true) [Byte.x00] _ demo2_export)
    as (Hp & _ & um & l & g & Hu & Hg & Hl & _ & Hne & _).
  split; [exact Hp|]. exists um, l, g. repeat split; assumption.
Defined.

Lemma exportSTL_repeatable_witness :
  exists w1 w2,
    exportSTL (Demo2.worldWith 0%nat true) = (Returned (Some [Byte.x00]), w1)
    /\ exportSTL w1 = (Returned (Some [Byte.x00]), w2).
Proof.
  destruct (exportSTL_repeatable (H := Demo.library)
              (Demo2.worldWith 0%nat true) [Byte.x00] _ demo2_export) as (w2 & E2).
  eexists _, w2. split; [exact demo2_export|exact E2].
Defined.

Lemma export_after_fusion_rotates_composite_witness :
  exists w1 w2 exported eg um2 composite,
    doProcessAndMerge (Demo.world None) = (Returned tt, w1)
    /\ exportGeometry_build w1 = (Returned exported, w2)
    /\ userModel (state w2) = Some um2
    /\ matrixWorld um2 = THREE.identity
    /\ heap w2 !! exported = Some eg
    /\ attributes_position eg
       = option_map (map (THREE.Vector3_applyMatrix4
                            (THREE.makeRotationX (THREE.degToRad 90))))
                    (attributes_position (cleaned composite))
    /\ index eg = index (cleaned composite).
Proof.
  destruct (export_after_fusion_rotates_composite (H := Demo.library)
              (Demo.world None) (Demo.mesh "UserModel" 0%nat) 0%nat Demo.triangle
              [(0, 0, 0); (1, 0, 0); (0, 1, 0)]%R _
              eq_refl eq_refl eq_refl eq_refl (demo_rigAllocated None I)
              (demo_noNullScrew _) ltac:(reflexivity) eq_refl eq_refl)
    as (w1 & w2 & exported & eg & um2 & E & E2 & Hu & Hm & Hh & Hp & Hi).
  eexists w1, w2, exported, eg, um2, _. repeat split; eassumption.
Defined.

Lemma prepareGeometryForCSG_twice_witness :
  exists l1 w1 g1 l2 w2,
    prepareGeometryForCSG 0%nat "UserModel" (Demo.world None) = (Returned (Some l1), w1)
    /\ heap w1 !! l1 = Some g1
    /\ prepareGeometryForCSG l1 "UserModel" w1 = (Returned (Some l2), w2)
    /\ l2 <> l1
    /\ heap w2 !! l2 = Some g1
    /\ heap w2 !! 0%nat = Some Demo.triangle.
Proof.
  destruct (prepareGeometryForCSG_twice (H := Demo.library) 0%nat "UserModel"
              (Demo.world None) Demo.triangle [(0, 0, 0); (1, 0, 0); (0, 1, 0)]%R
              eq_refl eq_refl)
    as (l1 & w1 & g1 & l2 & w2 & E1 & H1 & _ & _ & _ & E2 & Hne & H2 & _ & H0).
  exists l1, w1, g1, l2, w2. repeat split; assumption.
Defined.

Lemma loadSampleModel_clones_sample_witness :
  loadSampleModel (Demo.world None) = (Returned tt, Demo.world None)
  /\ exists w' um gl,
       loadSampleModel (Demo2.worldWith 0%nat false) = (Returned tt, w')
       /\ userModel (state w') = Some um
       /\ geometry um = Some gl
       /\ gl <> 2%nat
       /\ heap w' !! gl = Some Demo.triangle
       /\ heap w' !! 2%nat = Some Demo.triangle
       /\ 0%nat ∈ disposed w'.
Proof.
  split.
  - apply (proj1 (loadSampleModel_clones_sample (Demo.world None))).
    reflexivity.
  - destruct (proj2 (loadSampleModel_clones_sample
                       (Demo2.worldWith 0%nat false))
                (Demo.mesh "Sample" 2%nat) 2%nat Demo.triangle eq_refl eq_refl eq_refl)
      as (w' & um & gl & E & Hu & Hg & Hne & _ & Hh & Hs & _ & _ & _ & _ & Hd).
    { intros m [= <-]. eexists. reflexivity. }
    exists w', um, gl. repeat split; try assumption.
    apply (Hd (Demo.mesh "UserModel" 0%nat) 0%nat); reflexivity.
Defined.

Lemma doProcessAndMerge_success_hides_rig_witness :
  exists w',
    doProcessAndMerge (Demo.world None) = (Returned tt, w')
    /\ (forall m, In (Some m) (screwMeshes (rig (state w'))) -> visible m = false)
    /\ (forall m, fillerTransform (rig (state w')) = Some m -> visible m = false)
    /\ map (option_map geometry) (screwMeshes (rig (state w'))) = [Some (Some 2%nat); Some (Some 3%nat)]
    /\ heap w' !! 1%nat = Some Demo.triangle.
Proof.
  destruct (doProcessAndMerge_success_hides_rig (H := Demo.library)
              (Demo.world None) (Demo.mesh "UserModel" 0%nat) 0%nat Demo.triangle
              [(0, 0, 0); (1, 0, 0); (0, 1, 0)]%R _
              eq_refl eq_refl eq_refl eq_refl (demo_rigAllocated None I)
              (demo_noNullScrew _) ltac:(reflexivity))
    as (w' & E & _ & Hs & Hf & _ & _ & _ & Hg & _ & _ & _ & Hh).
  exists w'. split; [exact E|]. split; [exact Hs|]. split; [exact Hf|].
  split; [exact Hg|]. apply Hh. reflexivity.
Defined.

(** ** Animation and rig loading at concrete inputs *)

Lemma Tween_reaches_its_target_witness :
  exists started finished,
    Tween_update 600 started tt = (false, finished, tt)
    /\ startTime started = 0%R
    /\ target finished !! "x" = Some (Finite (0 + (10 - 0) * 1))
    /\ target finished !! "zoom" = Some (Finite 2).
Proof.
  destruct (Tween_reaches_its_target (Scene := unit) 0 600 Demo3.tween [] tt
              ltac:(lra) ltac:(cbn; lra) ltac:(cbn; lra) InOut_one)
    as (started & finished & Es & Eu & Hk & _ & Ho).
  exists started, finished. split; [exact Eu|].
  split.
  { replace started with (fst (Tween_start 0 Demo3.tween [])) by (rewrite Es; reflexivity).
    reflexivity. }
  split; [rewrite (Hk "x" 10%R) by reflexivity; reflexivity|].
  rewrite (Ho "zoom"); reflexivity.
Defined.

Lemma Tween_update_stays_between_witness :
  fst (fst (Tween_update 250 Demo3.running tt)) = true
  /\ exists v,
       target (snd (fst (Tween_update 250 Demo3.running tt))) !! "x" = Some (Finite v)
       /\ (0 <= v <= 10)%R.
Proof.
  destruct (Tween_update_stays_between (Scene := unit) 250 Demo3.running tt
              ltac:(cbn; lra) ltac:(cbn; lra) ltac:(cbn; lra) eq_refl)
    as [Halive Hbetween].
  split; [apply Halive; cbn; lra|].
  destruct (Hbetween "x" 10%R 0%R ltac:(reflexivity) ltac:(reflexivity)) as (v & Hv & Hle).
  exists v. split; [exact Hv|].
  rewrite Rmin_left, Rmax_right in Hle by lra. exact Hle.
Defined.

Lemma TWEEN_update_is_one_pass_witness :
  exists kept,
    TWEEN_update 250 [Demo3.running; Demo3.running] tt = Some (kept, tt)
    /\ length kept <= 2.
Proof.
  destruct (TWEEN_update_is_one_pass (Scene := unit) 250 [Demo3.running; Demo3.running] tt)
    as (E & _ & Hlen).
  destruct (onePass 250 [Demo3.running; Demo3.running] tt) as [kept []].
  exists kept. split; [exact E|exact Hlen].
Defined.

Lemma demo3_ascii : Forall (fun child => isAscii (name child) = true) Demo3.meshes.
Proof. repeat constructor. Qed.

Lemma demo3_edgesBuilt : Forall (edgesBuilt Demo3.edges Demo.store) Demo3.meshes.
Proof.
  repeat constructor; intros Hh; try (vm_compute in Hh; discriminate Hh).
  eexists. reflexivity.
Qed.

Lemma loadRigTemplate_screws_in_order_witness :
  exists scene st',
    loadRigTemplate_traverse Demo3.edges Demo.store Demo3.meshes initialRigState
    = (None, scene, st')
    /\ map visible scene = [true; true; true; false; true; true; true; false]
    /\ map (option_map name) (screwMeshes (loadedRig st'))
       = [Some "Ant_Top"; Some "R_Body"].
Proof.
  destruct (loadRigTemplate_screws_in_order Demo3.edges Demo.store Demo3.meshes
              initialRigState demo3_ascii demo3_edgesBuilt) as (st' & E & Hs & _).
  eexists _, st'. split; [exact E|]. split; [reflexivity|].
  rewrite Hs. reflexivity.
Defined.

Lemma loadRigTemplate_filler_origin_witness :
  exists scene st',
    loadRigTemplate_traverse Demo3.edges Demo.store Demo3.meshes initialRigState
    = (None, scene, st')
    /\ option_map name (fillerTransform (loadedRig st')) = Some "Arch_Filler"
    /\ originalFillerScale st' = THREE.one3.
Proof.
  destruct (proj1 (loadRigTemplate_filler_origin Demo3.edges Demo.store Demo3.meshes
                     initialRigState demo3_ascii demo3_edgesBuilt)) as (st' & E & F).
  assert (L : last (List.filter (fun child => fillerName (name child)) Demo3.meshes)
              = Some (Demo.mesh "Arch_Filler" 1%nat)) by reflexivity.
  rewrite L in F.
  eexists _, st'. split; [exact E|].
  split; [exact (f_equal (fun t => option_map name (fst (fst t))) F)|exact (f_equal snd F)].
Defined.

Lemma loadRigTemplate_stops_at_failing_hooks_witness :
  exists st',
    loadRigTemplate_traverse Demo3.edges Demo.store
      [Demo.mesh "Ant_Top" 2%nat; Demo.mesh "Hooks" 3%nat; Demo.mesh "L_Top" 2%nat]
      initialRigState
    = (Some (TypeError "count"),
       [Demo.mesh "Ant_Top" 2%nat; Demo.mesh "Hooks" 3%nat; Demo.mesh "L_Top" 2%nat], st')
    /\ option_map name (hooks (loadedRig st')) = Some "Hooks"
    /\ map (option_map name) (screwMeshes (loadedRig st')) = [Some "Ant_Top"].
Proof.
  destruct (loadRigTemplate_stops_at_failing_hooks Demo3.edges Demo.store
              [Demo.mesh "Ant_Top" 2%nat] (Demo.mesh "Hooks" 3%nat)
              [Demo.mesh "L_Top" 2%nat] initialRigState (TypeError "count"))
    as (st' & E & Hh & Hs).
  - repeat constructor.
  - repeat constructor. intros Hh. vm_compute in Hh. discriminate Hh.
  - reflexivity.
  - reflexivity.
  - exists st'. split; [exact E|]. rewrite Hh, Hs. split; reflexivity.
Defined.

Lemma importUserSTL_keeps_isProcessed_witness :
  exists w1 w2,
    importUserSTL [] "next.stl" (Demo2.worldWith 0%nat true) = (Returned tt, w1)
    /\ isProcessed (state w1) = true
    /\ btn_export_disabled (ui w1) = btn_export_disabled (ui (Demo2.worldWith 0%nat true))
    /\ exportSTL w1 = (Returned (Some [Byte.x00]), w2).
Proof.
  destruct (importUserSTL_keeps_isProcessed (H := Demo.library) [] "next.stl"
              (Demo2.worldWith 0%nat true)
              (mkGeometry (Some [(0, 0, 0); (2, 0, 0); (0, 4, 0)]%R) None None None)
              eq_refl)
    as (w1 & um & gl & E & _ & _ & _ & Hp & Hx & _ & Hexp).
  { intros m [= <-]. eexists. reflexivity. }
  destruct (Hexp eq_refl _ _ Byte.x00 [] ltac:(reflexivity) ltac:(reflexivity)) as (w2 & E2).
  exists w1, w2. split; [exact E|]. split; [exact Hp|]. split; [exact Hx|exact E2].
Defined.


